(** * Ghibli storybook generator: a shallow embedding of the three scripts

    The repository holds three near-identical Streamlit scripts
    ([main.py], [main2.py], [main3.py]).  Each one reads a PDF story,
    asks a hosted model for a list of animal interactions, asks an image
    model for one illustration per interaction and lays the result out with
    a page-drawing canvas.

    The embedding keeps the scripts' shape:
    - Python values that come out of [json.loads] are values of [json];
    - exceptions are values of [exn], carried by a state-and-exception
      monad [M];
    - the canvas, the Streamlit calls and the HTTP requests are the state:
      finished pages, the draw list of the page in progress, the trace of
      user-interface events and requests, and the number of requests made;
    - everything the scripts obtain from outside (HTTP responses, image
      decoding, [json.loads], random draws) is a field of [world]; so is
      what the interpreter and reportlab do with values that are not plain
      text ([repr] of a list, [title] of accented text, [drawString] of a
      number).

    Module [Main] follows [main.py], [Main2] follows [main2.py] and
    [Main3] follows [main3.py]. *)

From Stdlib Require Import ZArith List String Ascii DecimalString Permutation Lia.
From stdpp Require Import base list strings gmap.

Set Warnings "-register-all".

Open Scope string_scope.
Open Scope list_scope.
Open Scope Z_scope.

(** ** Exceptions and the program monad *)

Inductive exn : Type :=
| KeyError (key : string)
| IndexError
| ZeroDivisionError
| TypeError
| AttributeError
| ValueError (msg : string)
| RequestError        (* requests.post / raise_for_status / malformed body *)
| PdfError            (* PyPDF2 could not read the file or a page *)
| ImageError          (* base64 / PIL could not decode or save an image *)
| JSONDecodeError.

Inductive result (A : Type) : Type :=
| Ok (a : A)
| Raise (e : exn).
Arguments Ok {A} a.
Arguments Raise {A} e.

(** Colours are triples of components; every literal of the scripts has at
    most two decimals, so a component is kept in hundredths
    ([0.95] is [95], [1.0] is [100]). *)
Record rgb : Type := RGB { red : Z; green : Z; blue : Z }.

(** A decoded raster image, identified by its payload. *)
Record image : Type := Image { payload : string }.

(** Canvas primitives, one constructor per reportlab call the scripts use.
    [fill]/[stroke] are the keyword flags after reportlab's defaults
    (stroke on, fill off). *)
Inductive op : Type :=
| SetFont (font : string) (size : Z)
| SetFillColorRGB (c : rgb)
| SetStrokeColorRGB (c : rgb)
| SetLineWidth (w : Z)
| Rect (x y w h : Z) (stroke fill : bool)
| RoundRect (x y w h radius : Z) (stroke fill : bool)
| Circle (x y r : Z) (stroke fill : bool)
| Line (x1 y1 x2 y2 : Z)
| DrawString (x y : Z) (text : string)
| DrawCentredString (x y : Z) (text : string)
| DrawImage (img : image) (x y w h : Z).

Definition page : Type := list op.
Definition document : Type := list page.

(** Streamlit calls and HTTP requests, in the order they happen. *)
Inductive event : Type :=
| StWrite (text : string)
| StWriteKeys (text : string) (keys : list string)
| StWarning (text : string)
| StError (text : string) (cause : option exn)
| StException (e : exn)
| StSuccess (text : string)
| StImage (caption : string)
| StDownload (file_name : string) (data : document)
| Post (url : string) (prompt : string).

Record state : Type := State {
  pages : list page;      (* pages closed by showPage *)
  cur : list op;          (* draw list of the page in progress *)
  trace : list event;     (* user interface and network, oldest first *)
  calls : nat             (* number of HTTP requests issued so far *)
}.

Definition initial : state :=
  {| pages := []; cur := []; trace := []; calls := 0 |}.

Definition M (A : Type) : Type := state -> result A * state.

Definition ret {A} (a : A) : M A := fun st => (Ok a, st).

Definition bind {A B} (m : M A) (k : A -> M B) : M B :=
  fun st =>
    match m st with
    | (Ok a, st') => k a st'
    | (Raise e, st') => (Raise e, st')
    end.

Definition raise {A} (e : exn) : M A := fun st => (Raise e, st).

(** [try: m except Exception as e: h e] *)
Definition try_except {A} (m : M A) (h : exn -> M A) : M A :=
  fun st =>
    match m st with
    | (Ok a, st') => (Ok a, st')
    | (Raise e, st') => h e st'
    end.

Definition lift {A} (r : result A) : M A := fun st => (r, st).

Declare Scope prog_scope.
Delimit Scope prog_scope with prog.
Bind Scope prog_scope with M.
Notation "x <- m ;; k" := (bind m (fun x => k))
  (at level 100, m at next level, right associativity) : prog_scope.
Notation "m ;; k" := (bind m (fun _ => k))
  (at level 100, right associativity) : prog_scope.

(** Streamlit *)
Definition emit (e : event) : M unit :=
  fun st => (Ok tt, {| pages := pages st; cur := cur st;
                       trace := trace st ++ [e]; calls := calls st |}).

(** Canvas *)
Definition new_canvas : M unit :=
  fun st => (Ok tt, {| pages := []; cur := [];
                       trace := trace st; calls := calls st |}).

Definition draw (o : op) : M unit :=
  fun st => (Ok tt, {| pages := pages st; cur := cur st ++ [o];
                       trace := trace st; calls := calls st |}).

Definition showPage : M unit :=
  fun st => (Ok tt, {| pages := pages st ++ [cur st]; cur := [];
                       trace := trace st; calls := calls st |}).

(** [c.save(); buffer.seek(0); return buffer]: reportlab closes the page
    in progress only when something was drawn on it. *)
Definition save : M document :=
  fun st =>
    match cur st with
    | [] => (Ok (pages st), st)
    | _ :: _ =>
        let ps := pages st ++ [cur st] in
        (Ok ps, {| pages := ps; cur := [];
                   trace := trace st; calls := calls st |})
    end.

Fixpoint draw_all (os : list op) : M unit :=
  match os with
  | [] => ret tt
  | o :: os' => (draw o ;; draw_all os')%prog
  end.

(** ** Python values and string helpers *)

(** A [str] is kept as its UTF-8 encoding; a [float] as the text Python
    prints for it, the only thing the scripts do with one. *)
Inductive json : Type :=
| JNull
| JBool (b : bool)
| JNum (n : Z)
| JFloat (text : string)
| JStr (s : string)
| JArr (items : list json)
| JObj (fields : list (string * json)).   (* items in insertion order *)

Fixpoint assoc {A} (k : string) (fields : list (string * A)) : option A :=
  match fields with
  | [] => None
  | (k', v) :: rest => if String.eqb k k' then Some v else assoc k rest
  end.

(** [v[key]] *)
Definition getitem (v : json) (key : string) : result json :=
  match v with
  | JObj fields =>
      match assoc key fields with
      | Some x => Ok x
      | None => Raise (KeyError key)
      end
  | _ => Raise TypeError
  end.

(** The characters of a [str]: in UTF-8 a character is a byte followed by
    its continuation bytes ([10xxxxxx]). *)
Definition is_continuation (a : ascii) : bool :=
  let n := nat_of_ascii a in (128 <=? n)%nat && (n <? 192)%nat.

Fixpoint code_points (s : string) : list string :=
  match s with
  | EmptyString => []
  | String a rest =>
      let cs := code_points rest in
      match rest, cs with
      | String b _, c :: cs' =>
          if is_continuation b then String a c :: cs'
          else String a EmptyString :: cs
      | _, _ => String a EmptyString :: cs
      end
  end.

(** [len(v)]; a [str] counts its characters. *)
Definition py_len (v : json) : result nat :=
  match v with
  | JStr s => Ok (length (code_points s))
  | JArr items => Ok (length items)
  | JObj fields => Ok (length fields)
  | _ => Raise TypeError
  end.

Definition chars (s : string) : list json := map JStr (code_points s).

(** [iter(v)]: a list yields its items, a string its characters and a
    dict its keys. *)
Definition py_iter (v : json) : result (list json) :=
  match v with
  | JArr items => Ok items
  | JStr s => Ok (chars s)
  | JObj fields => Ok (map (fun kv => JStr (fst kv)) fields)
  | _ => Raise TypeError
  end.

Definition truthy (s : string) : bool :=
  match s with EmptyString => false | _ => true end.

Definition truthy_opt (o : option string) : bool :=
  match o with Some s => truthy s | None => false end.

Definition is_lower (a : ascii) : bool :=
  let n := nat_of_ascii a in (97 <=? n)%nat && (n <=? 122)%nat.
Definition is_upper (a : ascii) : bool :=
  let n := nat_of_ascii a in (65 <=? n)%nat && (n <=? 90)%nat.
Definition to_upper (a : ascii) : ascii :=
  if is_lower a then ascii_of_nat (nat_of_ascii a - 32) else a.
Definition to_lower (a : ascii) : ascii :=
  if is_upper a then ascii_of_nat (nat_of_ascii a + 32) else a.

Fixpoint lower_all (s : string) : string :=
  match s with
  | EmptyString => EmptyString
  | String a rest => String (to_lower a) (lower_all rest)
  end.

(** [s.capitalize()] on ASCII text *)
Definition capitalize (s : string) : string :=
  match s with
  | EmptyString => EmptyString
  | String a rest => String (to_upper a) (lower_all rest)
  end.

(** [s.title()] on ASCII text: a letter that follows a non-letter is
    upper-cased, every other letter lower-cased. *)
Fixpoint title_from (prev_cased : bool) (s : string) : string :=
  match s with
  | EmptyString => EmptyString
  | String a rest =>
      let cased := is_lower a || is_upper a in
      String (if prev_cased then to_lower a else to_upper a)
             (title_from cased rest)
  end.

Fixpoint is_ascii (s : string) : bool :=
  match s with
  | EmptyString => true
  | String a rest => (nat_of_ascii a <? 128)%nat && is_ascii rest
  end.

(** [s.split('/')[0]] *)
Fixpoint split_first (sep : ascii) (s : string) : string :=
  match s with
  | EmptyString => EmptyString
  | String a rest =>
      if Ascii.eqb a sep then EmptyString else String a (split_first sep rest)
  end.

(** [str(n)] for a non-negative integer *)
Definition str_nat (n : nat) : string := NilZero.string_of_uint (Nat.to_uint n).

(** ** The outside world *)

Record user_photo : Type := UserPhoto {
  photo_image : image;
  photo_saves_as_jpeg : bool     (* user_image.save(tmp, format='JPEG') *)
}.

Record world : Type := World {
  (* os.getenv("OPENAI_API_KEY") *)
  OPENAI_API_KEY : option string;
  (* json.loads; [None]: JSONDecodeError *)
  json_loads : string -> option json;
  (* POST /v1/chat/completions for the story; [None]: the request raised *)
  chat_story : nat -> string -> option string;
  (* POST /v1/chat/completions with the uploaded photo *)
  chat_photo : nat -> string -> option string;
  (* POST /v1/chat/completions with the base character image *)
  chat_describe : nat -> string -> option string;
  (* POST /v1/images/generations; the b64_json payload *)
  images_generate : nat -> string -> option string;
  (* Image.open(BytesIO(base64.b64decode(payload))) *)
  image_open : string -> option image;
  (* random._randbelow(n); a run draws once per bound *)
  randbelow : nat -> nat;
  (* repr(v) of a list or a dict, which is what an f-string prints for it *)
  py_repr : json -> string;
  (* s.title() of a text with characters outside ASCII: the interpreter's
     Unicode tables decide which characters are cased and how they map *)
  unicode_title : string -> string;
  (* c.drawString(x, y, v) for a [v] that is not a str: the text reportlab
     writes, or the exception it raises *)
  reportlab_text : json -> result string
}.

(** [s.title()] *)
Definition title (w : world) (s : string) : string :=
  if is_ascii s then title_from false s else unicode_title w s.

(** [str(v)], which is what [f"{v}"] prints *)
Definition py_str (w : world) (v : json) : string :=
  match v with
  | JNull => "None"
  | JBool true => "True"
  | JBool false => "False"
  | JNum n => NilZero.string_of_int (Z.to_int n)
  | JFloat text => text
  | JStr s => s
  | JArr _ | JObj _ => py_repr w v
  end.

(** [v.title()]: only a [str] has the method. *)
Definition titled_value (w : world) (v : json) : result string :=
  match v with
  | JStr s => Ok (title w s)
  | _ => Raise AttributeError
  end.

(** The text that [c.drawString(x, y, v)] writes. *)
Definition drawn_value (w : world) (v : json) : result string :=
  match v with
  | JStr s => Ok s
  | _ => reportlab_text w v
  end.

(** Every request is numbered, so that two requests with the same prompt
    may be answered differently. *)
Definition request (url prompt : string)
    (api : nat -> string -> option string) : M string :=
  fun st =>
    let st' := {| pages := pages st; cur := cur st;
                  trace := trace st ++ [Post url prompt];
                  calls := S (calls st) |} in
    match api (calls st) prompt with
    | Some body => (Ok body, st')
    | None => (Raise RequestError, st')
    end.

Definition chat_url : string := "https://api.openai.com/v1/chat/completions".
Definition images_url : string := "https://api.openai.com/v1/images/generations".

(** ** PDF text extraction (identical in the three scripts) *)

(** An uploaded file: PyPDF2 either fails to open it or gives its pages;
    [extract_text] of a page gives its text or raises. *)
Inductive pdf_file : Type :=
| Unreadable
| Pdf (page_texts : list (option string)).

Definition PdfReader (f : pdf_file) : M (list (option string)) :=
  match f with
  | Unreadable => raise PdfError
  | Pdf ps => ret ps
  end.

Definition extract_text (p : option string) : M string :=
  match p with
  | Some t => ret t
  | None => raise PdfError
  end.

Definition newline : string := String "010" EmptyString.

(** [for page in pdf_reader.pages: text += page.extract_text() + "\n"] *)
Fixpoint extract_loop (text : string) (ps : list (option string)) : M string :=
  match ps with
  | [] => ret text
  | p :: rest =>
      (t <- extract_text p ;;
       extract_loop (text +:+ t +:+ newline) rest)%prog
  end.

Definition extract_text_from_pdf (pdf : pdf_file) : M (option string) :=
  try_except
    (pdf_reader <- PdfReader pdf ;;
     text <- extract_loop EmptyString pdf_reader ;;
     ret (Some text))%prog
    (fun e => (emit (StError "Error reading PDF: " (Some e)) ;; ret None)%prog).

Local Open Scope prog_scope.

(** ** Story analysis (identical in the three scripts up to the model name)

    The prompt is a fixed instruction followed by the story text; the
    request is recorded with the story text, its only varying part. *)
Definition analyze_story (w : world) (story_text : string) : M (option string) :=
  try_except
    (content <- request chat_url story_text (chat_story w) ;;
     ret (Some content))
    (fun e => emit (StError "Story analysis failed: " (Some e)) ;; ret None).

(** ** Scene illustration, [main.py] and [main2.py] *)

Definition scene_prompt (child_description animal interaction : string) : string :=
  "Full-body Studio Ghibli-style watercolor illustration of " +:+ child_description +:+ " "
  +:+ "interacting with a " +:+ animal +:+ ". " +:+ interaction +:+ ". "
  +:+ "Soft colors, delicate features, dreamy atmosphere, detailed background, "
  +:+ "whimsical details. Beautiful watercolor textures with visible brush strokes. "
  +:+ "Full-body characters in dynamic poses showing the interaction clearly.".

Definition with_photo (full_prompt : string) (photo_description : option string) : string :=
  match photo_description with
  | Some d => if truthy d
              then full_prompt +:+ " Child's distinctive features: " +:+ d
              else full_prompt
  | None => full_prompt
  end.

(** [f"{animal_data[key]}"] *)
Definition field (w : world) (animal_data : json) (key : string) : M string :=
  lift (match getitem animal_data key with
        | Ok v => Ok (py_str w v)
        | Raise e => Raise e
        end).

(** [animal_data[key].title()] *)
Definition titled (w : world) (animal_data : json) (key : string) : M string :=
  lift (match getitem animal_data key with
        | Ok v => titled_value w v
        | Raise e => Raise e
        end).

(** [animal_data[key]] as the text argument of [c.drawString] *)
Definition drawn (w : world) (animal_data : json) (key : string) : M string :=
  lift (match getitem animal_data key with
        | Ok v => drawn_value w v
        | Raise e => Raise e
        end).

Definition generate_ghibli_scene (w : world) (child_description : string)
    (animal_data : json) (photo_description : option string) : M (option string) :=
  try_except
    (animal <- field w animal_data "animal" ;;
     interaction <- field w animal_data "interaction" ;;
     let full_prompt :=
       with_photo (scene_prompt child_description animal interaction)
                  photo_description in
     b64 <- request images_url full_prompt (images_generate w) ;;
     ret (Some b64))
    (fun e => emit (StError "Image generation failed: " (Some e)) ;; ret None).

(** [f"{name}, a {gender.split('/')[0]} child" if name else "a child"] *)
Definition child_description_of (name gender : string) : string :=
  if truthy name
  then name +:+ ", a " +:+ split_first "/" gender +:+ " child"
  else "a child".

(** [Image.open(BytesIO(base64.b64decode(img_data)))] and the save to a
    temporary PNG; the temporary file itself is not tracked. *)
Definition open_image (w : world) (img_data : string) : M image :=
  match image_open w img_data with
  | Some img => ret img
  | None => raise ImageError
  end.

Definition save_jpeg (u : user_photo) : M image :=
  if photo_saves_as_jpeg u then ret (photo_image u) else raise ImageError.

Definition placeholder : op := DrawString 300 400 "[Illustration not available]".

(** reportlab's [letter] page size, in points *)
Definition letter_w : Z := 612.
Definition letter_h : Z := 792.

(** ** [main.py] *)
Module Main.

Record pronoun_entry : Type := Pronouns { subject : string; object : string }.

(** The table [create_storybook] builds; nothing reads it. *)
Definition pronouns : gmap string pronoun_entry :=
  {[ "she/her" := Pronouns "she" "her";
     "he/him" := Pronouns "he" "him";
     "they/them" := Pronouns "they" "them" ]}.

Definition cover_photo (user_image : option user_photo) : M unit :=
  match user_image with
  | Some u =>
      try_except
        (img <- save_jpeg u ;;
         draw (DrawImage img 200 400 200 200))
        (fun e => emit (StError "Error adding user photo: " (Some e)))
  | None => ret tt
  end.

Definition illustration (w : world) (animal : string) (img_data : option string) : M unit :=
  if truthy_opt img_data then
    try_except
      (img <- open_image w (default EmptyString img_data) ;;
       draw (DrawImage img 100 250 400 400))
      (fun e =>
         emit (StError ("Error adding illustration for " +:+ animal +:+ ": ") (Some e)) ;;
         draw placeholder)
  else draw placeholder.

Definition animal_step (w : world) (name child_description : string)
    (photo_description : option string) (total i : nat) (animal_data : json) : M unit :=
  animal <- field w animal_data "animal" ;;
  emit (StWrite ("Processing animal " +:+ str_nat (S i) +:+ "/" +:+ str_nat total
                 +:+ ": " +:+ animal)) ;;
  img_data <- generate_ghibli_scene w child_description animal_data photo_description ;;
  draw (SetFont "Helvetica" 18) ;;
  animal <- field w animal_data "animal" ;;
  draw (DrawString 100 750 ("They sent " +:+ name +:+ " a " +:+ animal +:+ "...")) ;;
  description <- field w animal_data "description" ;;
  draw (DrawString 100 720 ("but it was " +:+ description +:+ "!")) ;;
  interaction <- drawn w animal_data "interaction" ;;
  draw (DrawString 100 690 interaction) ;;
  illustration w animal img_data ;;
  showPage.

(** [for i, animal_data in enumerate(story_data)] *)
Fixpoint animal_loop (w : world) (name child_description : string)
    (photo_description : option string) (total i : nat) (items : list json) : M unit :=
  match items with
  | [] => ret tt
  | animal_data :: rest =>
      animal_step w name child_description photo_description total i animal_data ;;
      animal_loop w name child_description photo_description total (S i) rest
  end.

Definition create_storybook (w : world) (name gender : string) (story_data : json)
    (photo_description : option string) (user_image : option user_photo) : M document :=
  total <- lift (py_len story_data) ;;
  emit (StWrite ("Creating storybook with " +:+ str_nat total +:+ " animal interactions")) ;;
  new_canvas ;;
  (* cover page *)
  draw (SetFont "Helvetica-Bold" 24) ;;
  draw (DrawCentredString 300 750 (name +:+ "'s Ghibli Zoo Adventure")) ;;
  draw (SetFont "Helvetica" 16) ;;
  draw (DrawCentredString 300 700 "A magical Studio Ghibli-style story") ;;
  cover_photo user_image ;;
  showPage ;;
  let child_description := child_description_of name gender in
  (* intro page *)
  draw (SetFont "Helvetica" 18) ;;
  draw (DrawCentredString 300 750 ("Once upon a time, " +:+ name +:+ " wrote to the zoo")) ;;
  draw (DrawCentredString 300 720 "to send them a pet.") ;;
  draw (DrawCentredString 300 690 "And so the zoo began to send animals...") ;;
  showPage ;;
  (* one page per animal *)
  items <- lift (py_iter story_data) ;;
  animal_loop w name child_description photo_description total 0 items ;;
  (* final page *)
  draw (SetFont "Helvetica-Bold" 20) ;;
  draw (DrawCentredString 300 700 "The End") ;;
  draw (SetFont "Helvetica" 16) ;;
  draw (DrawCentredString 300 650 ("Hope you enjoyed your Ghibli adventure, " +:+ name +:+ "!")) ;;
  showPage ;;
  save.

End Main.

(** ** The shuffled palette, [main2.py] and [main3.py] *)

Definition PASTEL_COLORS : list rgb :=
  [ RGB 100 95 95;    (* Light pink *)
    RGB 95 100 95;    (* Light green *)
    RGB 95 95 100;    (* Light blue *)
    RGB 100 100 95;   (* Light yellow *)
    RGB 100 95 100;   (* Light purple *)
    RGB 95 100 100;   (* Light cyan *)
    RGB 100 98 90;    (* Light peach *)
    RGB 97 95 100 ].  (* Light lavender *)

(** [x[i], x[j] = x[j], x[i]] *)
Definition swap {A} (i j : nat) (x : list A) : list A :=
  match x !! i, x !! j with
  | Some a, Some b => <[j:=a]> (<[i:=b]> x)
  | _, _ => x
  end.

(** [random.shuffle]: for i from len(x)-1 down to 1, swap x[i] with
    x[randbelow(i+1)]. *)
Fixpoint shuffle_down {A} (rnd : nat -> nat) (i : nat) (x : list A) : list A :=
  match i with
  | O => x
  | S i' => shuffle_down rnd i' (swap i (rnd (S i) mod S i)%nat x)
  end.

Definition shuffle {A} (rnd : nat -> nat) (x : list A) : list A :=
  shuffle_down rnd (length x - 1)%nat x.

(** [page_colors[i % len(page_colors)]] *)
Definition color_at (page_colors : list rgb) (i : nat) : result rgb :=
  match length page_colors with
  | O => Raise ZeroDivisionError
  | S _ =>
      match page_colors !! (i mod length page_colors)%nat with
      | Some c => Ok c
      | None => Raise IndexError
      end
  end.

(** [page_colors[0]] *)
Definition first_color (page_colors : list rgb) : result rgb :=
  match page_colors !! 0%nat with
  | Some c => Ok c
  | None => Raise IndexError
  end.

Definition background (bg_color : rgb) : list op :=
  [ SetFillColorRGB bg_color; Rect 0 0 letter_w letter_h true true ].

(** ** [main2.py]

    [get_custom_styles] only builds paragraph styles that nothing reads; it
    is left out. *)
Module Main2.

Record pronoun_entry : Type :=
  Pronouns { subject : string; object : string; possessive : string }.

Definition pronouns : gmap string pronoun_entry :=
  {[ "she/her" := Pronouns "she" "her" "her";
     "he/him" := Pronouns "he" "him" "his";
     "they/them" := Pronouns "they" "them" "their" ]}.

(** [pronouns[gender]] *)
Definition chosen (gender : string) : M pronoun_entry :=
  match pronouns !! gender with
  | Some p => ret p
  | None => raise (KeyError gender)
  end.

Definition framed_photo (img : image) : list op :=
  [ SetFillColorRGB (RGB 100 100 100);
    Rect 175 375 250 250 true true;
    DrawImage img 200 400 200 200;
    SetStrokeColorRGB (RGB 30 30 70);
    SetLineWidth 3;
    Rect 175 375 250 250 true false ].

Definition cover_photo (user_image : option user_photo) : M unit :=
  match user_image with
  | Some u =>
      try_except
        (img <- save_jpeg u ;;
         draw_all (framed_photo img))
        (fun e => emit (StError "Error adding user photo: " (Some e)))
  | None => ret tt
  end.

Definition cover_head (name : string) : list op :=
  let title_text := name +:+ "'s Magical Ghibli Zoo Adventure" in
  [ SetFillColorRGB (RGB 100 98 90);
    Rect 0 0 letter_w letter_h true true;
    SetStrokeColorRGB (RGB 80 70 30);
    SetLineWidth 5;
    Rect 20 20 (letter_w - 40) (letter_h - 40) true false;
    SetFillColorRGB (RGB 30 30 70);
    SetFont "Helvetica-Bold" 28;
    DrawCentredString 302 748 title_text;
    SetFillColorRGB (RGB 10 20 60);
    DrawCentredString 300 750 title_text;
    SetFillColorRGB (RGB 30 30 30);
    SetFont "Helvetica-BoldOblique" 18;
    DrawCentredString 300 700 "A whimsical Studio Ghibli-style adventure";
    SetFillColorRGB (RGB 90 80 30);
    Circle 100 650 10 true true;
    Circle 200 650 10 true true;
    Circle 300 650 10 true true;
    Circle 400 650 10 true true;
    Circle 500 650 10 true true ].

Definition cover_foot (name : string) : list op :=
  [ SetFillColorRGB (RGB 30 30 30);
    SetFont "Helvetica-Oblique" 14;
    DrawCentredString 300 100 ("Created especially for " +:+ name);
    DrawCentredString 300 80 "April 2025" ].

Definition intro_ops (name : string) (p : pronoun_entry) : list op :=
  [ SetStrokeColorRGB (RGB 50 50 80);
    SetLineWidth 2;
    Line 50 680 550 680;
    Line 50 640 550 640;
    SetFillColorRGB (RGB 20 20 50);
    SetFont "Helvetica-Bold" 22;
    DrawCentredString 300 750 "The Adventure Begins...";
    SetFillColorRGB (RGB 10 10 10);
    SetFont "Helvetica" 18;
    DrawCentredString 300 660 "Once upon a time, in a house filled with dreams,";
    DrawCentredString 300 630 (name +:+ " wrote a special letter to the zoo.");
    DrawCentredString 300 600
      (capitalize (subject p) +:+ " asked them to send a perfect pet,");
    DrawCentredString 300 570 "and so their magical journey began...";
    SetFillColorRGB (RGB 70 70 90);
    Circle 100 500 30 true true;
    Circle 500 500 30 true true;
    SetFillColorRGB (RGB 80 80 90);
    RoundRect 150 200 300 300 20 true true;
    SetFillColorRGB (RGB 20 20 50);
    SetFont "Helvetica-Bold" 24;
    DrawCentredString 300 350 "The Zoo";
    SetFont "Helvetica" 18;
    DrawCentredString 300 310 "Where magical animals";
    DrawCentredString 300 280 "were waiting to be discovered..." ].

Definition framed_image (img : image) : list op :=
  [ SetFillColorRGB (RGB 100 100 100);
    RoundRect 75 150 450 450 10 true true;
    DrawImage img 100 175 400 400;
    SetStrokeColorRGB (RGB 50 50 70);
    SetLineWidth 3;
    RoundRect 75 150 450 450 10 true false ].

Definition illustration (w : world) (animal : string) (img_data : option string) : M unit :=
  if truthy_opt img_data then
    try_except
      (img <- open_image w (default EmptyString img_data) ;;
       draw_all (framed_image img))
      (fun e =>
         emit (StError ("Error adding illustration for " +:+ animal +:+ ": ") (Some e)) ;;
         draw placeholder)
  else draw placeholder.

Definition page_number (i : nat) : list op :=
  [ SetFillColorRGB (RGB 30 30 60);
    Circle 550 50 20 true true;
    SetFillColorRGB (RGB 100 100 100);
    SetFont "Helvetica-Bold" 14;
    DrawCentredString 550 45 (str_nat (S i)) ].

Definition animal_step (w : world) (name child_description : string)
    (photo_description : option string) (page_colors : list rgb)
    (total i : nat) (animal_data : json) : M unit :=
  animal <- field w animal_data "animal" ;;
  emit (StWrite ("Processing animal " +:+ str_nat (S i) +:+ "/" +:+ str_nat total
                 +:+ ": " +:+ animal)) ;;
  bg_color <- lift (color_at page_colors i) ;;
  draw_all (background bg_color) ;;
  draw_all [ SetFillColorRGB (RGB 30 30 70);
             RoundRect 50 730 500 60 10 true true;
             SetFillColorRGB (RGB 100 100 100);
             SetFont "Helvetica-Bold" 22 ] ;;
  animal_title <- titled w animal_data "animal" ;;
  draw (DrawCentredString 300 760 ("The " +:+ animal_title)) ;;
  img_data <- generate_ghibli_scene w child_description animal_data photo_description ;;
  draw_all [ SetFillColorRGB (RGB 20 20 40); SetFont "Helvetica-BoldOblique" 18 ] ;;
  animal <- field w animal_data "animal" ;;
  draw (DrawString 90 700 ("They sent " +:+ name +:+ " a " +:+ animal +:+ "...")) ;;
  draw_all [ SetFillColorRGB (RGB 50 10 10); SetFont "Helvetica-Bold" 18 ] ;;
  description <- field w animal_data "description" ;;
  draw (DrawString 100 670 ("But it was " +:+ description +:+ "!")) ;;
  draw_all [ SetFillColorRGB (RGB 20 30 20); SetFont "Helvetica-Oblique" 18 ] ;;
  interaction <- drawn w animal_data "interaction" ;;
  draw (DrawString 90 640 interaction) ;;
  draw_all [ SetStrokeColorRGB (RGB 50 50 70); SetLineWidth 2; Line 100 625 500 625 ] ;;
  illustration w animal img_data ;;
  draw_all (page_number i) ;;
  showPage.

Fixpoint animal_loop (w : world) (name child_description : string)
    (photo_description : option string) (page_colors : list rgb)
    (total i : nat) (items : list json) : M unit :=
  match items with
  | [] => ret tt
  | animal_data :: rest =>
      animal_step w name child_description photo_description page_colors
                  total i animal_data ;;
      animal_loop w name child_description photo_description page_colors
                  total (S i) rest
  end.

Definition end_ops (name : string) (p : pronoun_entry) : list op :=
  [ SetFillColorRGB (RGB 95 98 100);
    Rect 0 0 letter_w letter_h true true;
    SetStrokeColorRGB (RGB 50 60 80);
    SetLineWidth 4;
    Rect 50 50 (letter_w - 100) (letter_h - 100) true false;
    SetStrokeColorRGB (RGB 70 80 90);
    SetLineWidth 2;
    Rect 70 70 (letter_w - 140) (letter_h - 140) true false;
    SetFillColorRGB (RGB 20 30 60);
    SetFont "Times-Bold" 36;
    DrawCentredString 302 698 "The End";
    SetFillColorRGB (RGB 10 20 50);
    DrawCentredString 300 700 "The End";
    SetFillColorRGB (RGB 70 70 90);
    Circle 230 700 8 true true;
    Circle 370 700 8 true true;
    Circle 270 650 8 true true;
    Circle 330 650 8 true true;
    SetFillColorRGB (RGB 30 30 40);
    SetFont "Times-Italic" 20;
    DrawCentredString 300 600 ("And finally, they sent " +:+ name +:+ " a...");
    SetFillColorRGB (RGB 20 50 30);
    SetFont "Times-Bold" 24;
    DrawCentredString 300 550 "Perfect Pet!";
    SetFillColorRGB (RGB 30 30 40);
    SetFont "Times-Italic" 18;
    DrawCentredString 300 500 ("It was just what " +:+ subject p +:+ " wanted!");
    SetFillColorRGB (RGB 70 80 90);
    Circle 150 200 15 true true;
    Circle 225 200 15 true true;
    Circle 300 200 15 true true;
    Circle 375 200 15 true true;
    Circle 450 200 15 true true;
    SetFillColorRGB (RGB 30 30 40);
    SetFont "Helvetica" 16;
    DrawCentredString 300 120
      ("Hope you enjoyed your magical Ghibli adventure, " +:+ name +:+ "!");
    SetFont "Helvetica-Oblique" 14;
    DrawCentredString 300 90 "Every story has a happy ending..." ].

Definition create_stylish_storybook (w : world) (name gender : string)
    (story_data : json) (photo_description : option string)
    (user_image : option user_photo) : M document :=
  chosen_pronouns <- chosen gender ;;
  total <- lift (py_len story_data) ;;
  emit (StWrite ("Creating storybook with " +:+ str_nat total +:+ " animal interactions")) ;;
  new_canvas ;;
  let page_colors := shuffle (randbelow w) PASTEL_COLORS in
  (* cover page *)
  draw_all (cover_head name) ;;
  cover_photo user_image ;;
  draw_all (cover_foot name) ;;
  showPage ;;
  let child_description := child_description_of name gender in
  (* intro page *)
  bg_color <- lift (first_color page_colors) ;;
  draw_all (background bg_color) ;;
  draw_all (intro_ops name chosen_pronouns) ;;
  showPage ;;
  (* one page per animal *)
  items <- lift (py_iter story_data) ;;
  animal_loop w name child_description photo_description page_colors total 0 items ;;
  (* final page *)
  draw_all (end_ops name chosen_pronouns) ;;
  showPage ;;
  save.

End Main2.

(** ** [main3.py]: the variant with a base character image *)
Module Main3.

Definition TITLE_FONT : string := "Helvetica-Bold".
Definition SUBTITLE_FONT : string := "Helvetica-BoldOblique".
Definition BODY_FONT : string := "Helvetica".
Definition EMPHASIS_FONT : string := "Helvetica-Oblique".

Definition TITLE_SIZE : Z := 28.
Definition SUBTITLE_SIZE : Z := 22.
Definition BODY_SIZE : Z := 18.
Definition SMALL_SIZE : Z := 16.
Definition TINY_SIZE : Z := 14.

Definition TITLE_COLOR : rgb := RGB 10 20 60.
Definition SUBTITLE_COLOR : rgb := RGB 30 30 70.
Definition BODY_COLOR : rgb := RGB 20 20 40.
Definition EMPHASIS_COLOR : rgb := RGB 50 10 10.
Definition ACCENT_COLOR : rgb := RGB 70 70 90.

Definition pronouns : gmap string Main2.pronoun_entry :=
  {[ "she/her" := Main2.Pronouns "she" "her" "her";
     "he/him" := Main2.Pronouns "he" "him" "his";
     "they/them" := Main2.Pronouns "they" "them" "their" ]}.

Definition chosen (gender : string) : M Main2.pronoun_entry :=
  match pronouns !! gender with
  | Some p => ret p
  | None => raise (KeyError gender)
  end.

Definition base_prompt (child_description : string) : string :=
  "Studio Ghibli-style watercolor illustration showing a full-body portrait of "
  +:+ child_description +:+ ". "
  +:+ "The child should be standing in a gentle, neutral pose that can be easily combined with various animals. "
  +:+ "Soft colors, delicate features, dreamy atmosphere, with visible watercolor textures and brush strokes. "
  +:+ "Make sure the child has very consistent, recognizable features for use across multiple illustrations.".

Definition generate_ghibli_child_base (w : world) (child_description : string)
    (photo_description : option string) : M (option string) :=
  try_except
    (let full_prompt := with_photo (base_prompt child_description) photo_description in
     b64 <- request images_url full_prompt (images_generate w) ;;
     ret (Some b64))
    (fun e => emit (StError "Child base image generation failed: " (Some e)) ;; ret None).

Definition description_fallback (name : string) : string :=
  "A child named " +:+ name +:+ " in Ghibli style with soft features and expressive eyes".

Definition add_reference_photo (detailed_description : string)
    (photo_description : option string) : string :=
  match photo_description with
  | Some d =>
      if truthy d
      then detailed_description +:+ newline +:+ newline
           +:+ "Additional distinctive features from the reference photo: " +:+ d
      else detailed_description
  | None => detailed_description
  end.

(** The request carries a fixed instruction and the image as a data URL;
    it is recorded with the image payload. *)
Definition generate_detailed_child_description (w : world)
    (child_base_img_data : option string) (name : string)
    (photo_description : option string) : M (option string) :=
  try_except
    (if truthy_opt child_base_img_data then
       detailed_description <-
         request chat_url (default EmptyString child_base_img_data) (chat_describe w) ;;
       ret (Some (add_reference_photo detailed_description photo_description))
     else ret None)
    (fun e =>
       emit (StError "Error generating detailed child description: " (Some e)) ;;
       ret (Some (description_fallback name))).

Definition child_reference (detailed_child_desc : option string) : string :=
  match detailed_child_desc with
  | Some d =>
      if truthy d then
        "IMPORTANT: The child must look EXACTLY like this description to maintain consistency across "
        +:+ "all illustrations: " +:+ d +:+ ". "
        +:+ "The child should be the SAME child in EVERY way as the previous illustrations. "
      else EmptyString
  | None => EmptyString
  end.

Definition scene_prompt (child_description animal interaction : string)
    (detailed_child_desc : option string) : string :=
  "Full-body Studio Ghibli-style watercolor illustration of " +:+ child_description +:+ " "
  +:+ "interacting with a " +:+ animal +:+ ". " +:+ interaction +:+ ". "
  +:+ child_reference detailed_child_desc
  +:+ "Soft colors, delicate features, dreamy atmosphere, detailed background, "
  +:+ "whimsical details. Beautiful watercolor textures with visible brush strokes. "
  +:+ "Full-body characters in dynamic poses showing the interaction clearly.".

Definition generate_ghibli_scene (w : world) (child_description : string)
    (animal_data : json) (photo_description : option string)
    (child_base_image : option string) (detailed_child_desc : option string)
    : M (option string) :=
  try_except
    (animal <- field w animal_data "animal" ;;
     interaction <- field w animal_data "interaction" ;;
     let full_prompt :=
       let p := scene_prompt child_description animal interaction detailed_child_desc in
       if truthy_opt detailed_child_desc then p else with_photo p photo_description in
     b64 <- request images_url full_prompt (images_generate w) ;;
     ret (Some b64))
    (fun e => emit (StError "Image generation failed: " (Some e)) ;; ret None).

Definition simplified_description (name : string) : string :=
  "A child named " +:+ name +:+ " with Ghibli-style features and expressive eyes".

(** Lines 349-377: the base image and the description every scene prompt
    repeats.  [Image.open] of the base image is not inside a [try]. *)
Definition character_base (w : world) (name child_description : string)
    (photo_description : option string) : M (option string * option string) :=
  child_base_img_data <-
    generate_ghibli_child_base w child_description photo_description ;;
  if truthy_opt child_base_img_data then
    emit (StWrite "Generated base child image for consistency:") ;;
    base_img <- open_image w (default EmptyString child_base_img_data) ;;
    emit (StImage "Base Child Image (Used for Consistency)") ;;
    detailed_child_desc <-
      generate_detailed_child_description w child_base_img_data name photo_description ;;
    if truthy_opt detailed_child_desc then
      emit (StWrite "Generated detailed child description for consistency across images") ;;
      ret (child_base_img_data, detailed_child_desc)
    else
      emit (StWarning "Using simplified child description for consistency") ;;
      ret (child_base_img_data, Some (simplified_description name))
  else
    emit (StWarning "Could not generate base child image") ;;
    ret (child_base_img_data, None).

Definition cover_head (name : string) : list op :=
  let title_text := name +:+ "'s Magical Ghibli Zoo Adventure" in
  [ SetFillColorRGB (RGB 100 98 90);
    Rect 0 0 letter_w letter_h true true;
    SetStrokeColorRGB (RGB 80 70 30);
    SetLineWidth 5;
    Rect 20 20 (letter_w - 40) (letter_h - 40) true false;
    SetFillColorRGB (RGB 30 30 70);
    SetFont TITLE_FONT TITLE_SIZE;
    DrawCentredString 302 748 title_text;
    SetFillColorRGB TITLE_COLOR;
    DrawCentredString 300 750 title_text;
    SetFillColorRGB (RGB 30 30 30);
    SetFont SUBTITLE_FONT SUBTITLE_SIZE;
    DrawCentredString 300 700 "A whimsical Studio Ghibli-style adventure";
    SetFillColorRGB (RGB 90 80 30);
    Circle 100 650 10 true true;
    Circle 200 650 10 true true;
    Circle 300 650 10 true true;
    Circle 400 650 10 true true;
    Circle 500 650 10 true true ].

Definition cover_foot (name : string) : list op :=
  [ SetFillColorRGB (RGB 30 30 30);
    SetFont EMPHASIS_FONT TINY_SIZE;
    DrawCentredString 300 100 ("Created especially for " +:+ name);
    DrawCentredString 300 80 "April 2025" ].

Definition intro_ops (name : string) (p : Main2.pronoun_entry) : list op :=
  [ SetStrokeColorRGB (RGB 50 50 80);
    SetLineWidth 2;
    Line 50 680 550 680;
    Line 50 640 550 640;
    SetFillColorRGB SUBTITLE_COLOR;
    SetFont TITLE_FONT SUBTITLE_SIZE;
    DrawCentredString 300 750 "The Adventure Begins...";
    SetFillColorRGB BODY_COLOR;
    SetFont BODY_FONT BODY_SIZE;
    DrawCentredString 300 660 "Once upon a time, in a house filled with dreams,";
    DrawCentredString 300 630 (name +:+ " wrote a special letter to the zoo.");
    DrawCentredString 300 600
      (capitalize (Main2.subject p) +:+ " asked them to send a perfect pet,");
    DrawCentredString 300 570 "and so their magical journey began...";
    SetFillColorRGB ACCENT_COLOR;
    Circle 100 500 30 true true;
    Circle 500 500 30 true true;
    SetFillColorRGB (RGB 80 80 90);
    RoundRect 150 200 300 300 20 true true;
    SetFillColorRGB SUBTITLE_COLOR;
    SetFont TITLE_FONT SUBTITLE_SIZE;
    DrawCentredString 300 350 "The Zoo";
    SetFont BODY_FONT BODY_SIZE;
    DrawCentredString 300 310 "Where magical animals";
    DrawCentredString 300 280 "were waiting to be discovered..." ].

Definition illustration (w : world) (animal : string) (img_data : option string) : M unit :=
  if truthy_opt img_data then
    try_except
      (img <- open_image w (default EmptyString img_data) ;;
       draw_all (Main2.framed_image img) ;;
       emit (StImage ("Scene with " +:+ animal)))
      (fun e =>
         emit (StError ("Error adding illustration for " +:+ animal +:+ ": ") (Some e)) ;;
         draw placeholder)
  else draw placeholder.

Definition page_number (i : nat) : list op :=
  [ SetFillColorRGB SUBTITLE_COLOR;
    Circle 550 50 20 true true;
    SetFillColorRGB (RGB 100 100 100);
    SetFont TITLE_FONT TINY_SIZE;
    DrawCentredString 550 45 (str_nat (S i)) ].

Definition animal_step (w : world) (name child_description : string)
    (photo_description child_base_img_data detailed_child_desc : option string)
    (page_colors : list rgb) (total i : nat) (animal_data : json) : M unit :=
  animal <- field w animal_data "animal" ;;
  emit (StWrite ("Processing animal " +:+ str_nat (S i) +:+ "/" +:+ str_nat total
                 +:+ ": " +:+ animal)) ;;
  bg_color <- lift (color_at page_colors i) ;;
  draw_all (background bg_color) ;;
  draw_all [ SetFillColorRGB SUBTITLE_COLOR;
             RoundRect 50 730 500 60 10 true true;
             SetFillColorRGB (RGB 100 100 100);
             SetFont TITLE_FONT SUBTITLE_SIZE ] ;;
  animal_title <- titled w animal_data "animal" ;;
  draw (DrawCentredString 300 760 ("The " +:+ animal_title)) ;;
  img_data <- generate_ghibli_scene w child_description animal_data photo_description
                                    child_base_img_data detailed_child_desc ;;
  draw_all [ SetFillColorRGB BODY_COLOR; SetFont BODY_FONT BODY_SIZE ] ;;
  animal <- field w animal_data "animal" ;;
  draw (DrawString 90 700 ("They sent " +:+ name +:+ " a " +:+ animal +:+ "...")) ;;
  draw_all [ SetFillColorRGB EMPHASIS_COLOR; SetFont TITLE_FONT BODY_SIZE ] ;;
  description <- field w animal_data "description" ;;
  draw (DrawString 100 670 ("But it was " +:+ description +:+ "!")) ;;
  draw_all [ SetFillColorRGB BODY_COLOR; SetFont EMPHASIS_FONT BODY_SIZE ] ;;
  interaction <- drawn w animal_data "interaction" ;;
  draw (DrawString 90 640 interaction) ;;
  draw_all [ SetStrokeColorRGB (RGB 50 50 70); SetLineWidth 2; Line 100 625 500 625 ] ;;
  illustration w animal img_data ;;
  draw_all (page_number i) ;;
  showPage.

Fixpoint animal_loop (w : world) (name child_description : string)
    (photo_description child_base_img_data detailed_child_desc : option string)
    (page_colors : list rgb) (total i : nat) (items : list json) : M unit :=
  match items with
  | [] => ret tt
  | animal_data :: rest =>
      animal_step w name child_description photo_description child_base_img_data
                  detailed_child_desc page_colors total i animal_data ;;
      animal_loop w name child_description photo_description child_base_img_data
                  detailed_child_desc page_colors total (S i) rest
  end.

Definition end_ops (name : string) (p : Main2.pronoun_entry) : list op :=
  [ SetFillColorRGB (RGB 95 98 100);
    Rect 0 0 letter_w letter_h true true;
    SetStrokeColorRGB (RGB 50 60 80);
    SetLineWidth 4;
    Rect 50 50 (letter_w - 100) (letter_h - 100) true false;
    SetStrokeColorRGB (RGB 70 80 90);
    SetLineWidth 2;
    Rect 70 70 (letter_w - 140) (letter_h - 140) true false;
    SetFillColorRGB (RGB 20 30 60);
    SetFont TITLE_FONT 36;
    DrawCentredString 302 698 "The End";
    SetFillColorRGB TITLE_COLOR;
    DrawCentredString 300 700 "The End";
    SetFillColorRGB ACCENT_COLOR;
    Circle 230 700 8 true true;
    Circle 370 700 8 true true;
    Circle 270 650 8 true true;
    Circle 330 650 8 true true;
    SetFillColorRGB BODY_COLOR;
    SetFont EMPHASIS_FONT SUBTITLE_SIZE;
    DrawCentredString 300 600 ("And finally, they sent " +:+ name +:+ " a...");
    SetFillColorRGB (RGB 20 50 30);
    SetFont TITLE_FONT SUBTITLE_SIZE;
    DrawCentredString 300 550 "Perfect Pet!";
    SetFillColorRGB BODY_COLOR;
    SetFont EMPHASIS_FONT BODY_SIZE;
    DrawCentredString 300 500 ("It was just what " +:+ Main2.subject p +:+ " wanted!");
    SetFillColorRGB ACCENT_COLOR;
    Circle 150 200 15 true true;
    Circle 225 200 15 true true;
    Circle 300 200 15 true true;
    Circle 375 200 15 true true;
    Circle 450 200 15 true true;
    SetFillColorRGB BODY_COLOR;
    SetFont BODY_FONT SMALL_SIZE;
    DrawCentredString 300 120
      ("Hope you enjoyed your magical Ghibli adventure, " +:+ name +:+ "!");
    SetFont EMPHASIS_FONT TINY_SIZE;
    DrawCentredString 300 90 "Every story has a happy ending..." ].

Definition create_stylish_storybook (w : world) (name gender : string)
    (story_data : json) (photo_description : option string)
    (user_image : option user_photo) : M document :=
  chosen_pronouns <- chosen gender ;;
  total <- lift (py_len story_data) ;;
  emit (StWrite ("Creating storybook with " +:+ str_nat total +:+ " animal interactions")) ;;
  new_canvas ;;
  let page_colors := shuffle (randbelow w) PASTEL_COLORS in
  let child_description := child_description_of name gender in
  base <- character_base w name child_description photo_description ;;
  let child_base_img_data := fst base in
  let detailed_child_desc := snd base in
  (* cover page *)
  draw_all (cover_head name) ;;
  Main2.cover_photo user_image ;;
  draw_all (cover_foot name) ;;
  showPage ;;
  (* intro page *)
  bg_color <- lift (first_color page_colors) ;;
  draw_all (background bg_color) ;;
  draw_all (intro_ops name chosen_pronouns) ;;
  showPage ;;
  (* one page per animal *)
  items <- lift (py_iter story_data) ;;
  animal_loop w name child_description photo_description child_base_img_data
              detailed_child_desc page_colors total 0 items ;;
  (* final page *)
  draw_all (end_ops name chosen_pronouns) ;;
  showPage ;;
  save.

End Main3.

(** ** The button handler of [main.py] and [main2.py]

    The two scripts run the same statements around their storybook
    function, which is the section's parameter. *)

Record upload : Type := Upload {
  photo_bytes : string;              (* photo.getvalue() *)
  photo_open : option user_photo     (* Image.open(photo); [None]: it raised *)
}.

Record inputs : Type := Inputs {
  original_pdf : option pdf_file;
  name : string;
  gender : string;
  photo : option upload
}.

Definition is_nonempty_list (v : json) : bool :=
  match v with
  | JArr (_ :: _) => true
  | _ => false
  end.

(** [for key, value in parsed_data.items(): if isinstance(value, list) and
    len(value) > 0: story_data = value; break] with its [else: raise] *)
Fixpoint first_list (fields : list (string * json)) : result json :=
  match fields with
  | [] => Raise (ValueError "Could not find animal interaction data in the API response")
  | (key, value) :: rest =>
      if is_nonempty_list value then Ok value else first_list rest
  end.

(** Lines 248-257 of [main.py], 489-498 of [main2.py] *)
Definition select_story_data (parsed_data : list (string * json)) : result json :=
  match assoc "interactions" parsed_data with
  | Some v => Ok v
  | None => first_list parsed_data
  end.

(** [parsed_data.keys()]: only a dict has them. *)
Definition keys_of (parsed_data : json) : result (list (string * json)) :=
  match parsed_data with
  | JObj fields => Ok fields
  | _ => Raise AttributeError
  end.

Definition loads (w : world) (text : string) : M json :=
  match json_loads w text with
  | Some v => ret v
  | None => raise JSONDecodeError
  end.

Definition open_upload (p : upload) : M user_photo :=
  match photo_open p with
  | Some u => ret u
  | None => raise ImageError
  end.

Section Script.

Variable storybook :
  world -> string -> string -> json -> option string -> option user_photo -> M document.

(** Step 3; the request is not wrapped in a [try] of its own. *)
Definition process_photo (w : world) (photo : option upload)
    : M (option string * option user_photo) :=
  match photo with
  | Some p =>
      user_image <- open_upload p ;;
      emit (StImage "Your Photo") ;;
      emit (StWrite "Analyzing photo for Ghibli-style adaptation...") ;;
      photo_description <- request chat_url (photo_bytes p) (chat_photo w) ;;
      ret (Some photo_description, Some user_image)
  | None => ret (None, None)
  end.

(** Steps 1 and 2 of the [try] body, up to the parsed response. *)
Definition read_and_analyze (w : world) (pdf : pdf_file) : M (list (string * json)) :=
  story_text <- extract_text_from_pdf pdf ;;
  (if truthy_opt story_text then ret tt
   else raise (ValueError "Couldn't extract text from PDF")) ;;
  emit (StWrite "Analyzing story structure...") ;;
  analysis_result <- analyze_story w (default EmptyString story_text) ;;
  (if truthy_opt analysis_result then ret tt
   else raise (ValueError "Couldn't analyze story structure")) ;;
  parsed_data <- loads w (default EmptyString analysis_result) ;;
  fields <- lift (keys_of parsed_data) ;;
  emit (StWriteKeys "API response structure:" (map fst fields)) ;;
  ret fields.

(** The body of the [try] statement. *)
Definition pipeline (w : world) (inp : inputs) (pdf : pdf_file) : M document :=
  fields <- read_and_analyze w pdf ;;
  story_data <- lift (select_story_data fields) ;;
  found <- lift (py_len story_data) ;;
  emit (StWrite ("Found " +:+ str_nat found +:+ " animal interactions")) ;;
  described <- process_photo w (photo inp) ;;
  emit (StWrite "Generating Ghibli-style illustrations and creating storybook...") ;;
  pdf_buffer <- storybook w (if truthy (name inp) then name inp else "Aanya")
                          (gender inp) story_data (fst described) (snd described) ;;
  emit (StSuccess "🎉 Your magical Ghibli storybook is ready!") ;;
  emit (StDownload ((if truthy (name inp) then name inp else "Aanya")
                    +:+ "_ghibli_zoo_adventure.pdf") pdf_buffer) ;;
  ret pdf_buffer.

(** [if st.button(...)]: the result is the document offered for download,
    if any. *)
Definition on_click (w : world) (inp : inputs) : M (option document) :=
  match original_pdf inp with
  | None => emit (StWarning "Please upload the original story PDF") ;; ret None
  | Some pdf =>
      if truthy_opt (OPENAI_API_KEY w) then
        try_except
          (pdf_buffer <- pipeline w inp pdf ;; ret (Some pdf_buffer))
          (fun e =>
             emit (StError "Error creating storybook: " (Some e)) ;;
             emit (StException e) ;;
             ret None)
      else emit (StError "Missing OpenAI API key" None) ;; ret None
  end.

End Script.

Definition main_py : world -> inputs -> M (option document) :=
  on_click Main.create_storybook.

Definition main2_py : world -> inputs -> M (option document) :=
  on_click Main2.create_stylish_storybook.

(** * Definitions used to state the properties *)

(** What the specification describes: [newline.join(texts)]. *)
Fixpoint join_newline (texts : list string) : string :=
  match texts with
  | [] => EmptyString
  | [t] => t
  | t :: rest => t +:+ newline +:+ join_newline rest
  end.

(** What the loop builds: every page text followed by a newline. *)
Fixpoint lines (texts : list string) : string :=
  match texts with
  | [] => EmptyString
  | t :: rest => t +:+ newline +:+ lines rest
  end.

Definition is_post (e : event) : bool :=
  match e with Post _ _ => true | _ => false end.
Definition is_download (e : event) : bool :=
  match e with StDownload _ _ => true | _ => false end.

(** The requests, resp. the downloads offered, recorded in a trace. *)
Definition posts (tr : list event) : list event := List.filter is_post tr.
Definition downloads (tr : list event) : list event := List.filter is_download tr.

(** A world whose analyzer always answers and whose answer parses to
    [parsed]; every other request fails, no image decodes. *)
Definition canned (parsed : json) : world :=
  {| OPENAI_API_KEY := Some "sk-test";
     json_loads := fun _ => Some parsed;
     chat_story := fun _ _ => Some "{...}";
     chat_photo := fun _ _ => None;
     chat_describe := fun _ _ => None;
     images_generate := fun _ _ => None;
     image_open := fun _ => None;
     randbelow := fun _ => 0%nat;
     py_repr := fun _ => "[...]";
     unicode_title := fun s => s;
     reportlab_text := fun _ => Raise TypeError |}.

Definition record (animal description interaction : string) : json :=
  JObj [ ("animal", JStr animal);
         ("description", JStr description);
         ("interaction", JStr interaction) ].

Definition lion : json :=
  record "lion" "too fierce" "The child roared back at the lion".

Definition five_records : list json :=
  [ record "elephant" "too big" "The child measured the elephant with a tape measure";
    record "giraffe" "too tall" "The child looked up at the giraffe with wonder";
    lion;
    record "camel" "too grumpy" "The child offered the camel a carrot";
    record "snake" "too scary" "The child hid behind the sofa" ].

Definition one_page_pdf : pdf_file := Pdf [Some "Aanya wrote to the zoo."].

Definition no_list_fields : list (string * json) :=
  [ ("title", JStr "Aanya Writes to the Zoo"); ("animals", JArr []) ].

Definition a_photo : upload :=
  {| photo_bytes := "JFIF"; photo_open := Some (UserPhoto (Image "JFIF") true) |}.

Definition a_request (photo : option upload) : inputs :=
  {| original_pdf := Some one_page_pdf; name := "Aanya";
     gender := "she/her"; photo := photo |}.

(** A world whose first image request (the base character) succeeds with
    an image that opens, whose describer answers [describe], and whose later
    image requests fail. *)
Definition studio (describe : option string) : world :=
  {| OPENAI_API_KEY := Some "sk-test";
     json_loads := fun _ => None;
     chat_story := fun _ _ => None;
     chat_photo := fun _ _ => None;
     chat_describe := fun _ _ => describe;
     images_generate := fun n _ => match n with O => Some "iVBOR" | S _ => None end;
     image_open := fun b64 => Some (Image b64);
     randbelow := fun _ => 0%nat;
     py_repr := fun _ => "[...]";
     unicode_title := fun s => s;
     reportlab_text := fun _ => Raise TypeError |}.

(** A world whose image requests all succeed with a payload that does not
    decode. *)
Definition garbled : world :=
  {| OPENAI_API_KEY := Some "sk-test";
     json_loads := fun _ => None;
     chat_story := fun _ _ => None;
     chat_photo := fun _ _ => None;
     chat_describe := fun _ _ => None;
     images_generate := fun _ _ => Some "!!!";
     image_open := fun _ => None;
     randbelow := fun _ => 0%nat;
     py_repr := fun _ => "[...]";
     unicode_title := fun s => s;
     reportlab_text := fun _ => Raise TypeError |}.

(** A world without network: every request fails, no image decodes. *)
Definition offline : world :=
  {| OPENAI_API_KEY := Some "sk-test";
     json_loads := fun _ => None;
     chat_story := fun _ _ => None;
     chat_photo := fun _ _ => None;
     chat_describe := fun _ _ => None;
     images_generate := fun _ _ => None;
     image_open := fun _ => None;
     randbelow := fun _ => 0%nat;
     py_repr := fun _ => "[...]";
     unicode_title := fun s => s;
     reportlab_text := fun _ => Raise TypeError |}.


(** A run that ends with result [r], finished pages [ps], draw list [cu]
    and [n] requests made, whatever it logged. *)
Definition yields {A} (run : result A * state) (r : result A)
    (ps : list page) (cu : list op) (n : nat) : Prop :=
  exists tr, run = (r, {| pages := ps; cur := cu; trace := tr; calls := n |}).

(** A record is well formed when it is an object carrying the three text
    fields. *)
Definition text_field (v : json) (key : string) : option string :=
  match getitem v key with
  | Ok (JStr s) => Some s
  | _ => None
  end.

Definition well_formed (v : json) : bool :=
  match text_field v "animal", text_field v "description", text_field v "interaction" with
  | Some _, Some _, Some _ => true
  | _, _, _ => false
  end.

(** What the scripts print for a field of record [v]: the text itself, or
    Python's [str] of a value that is not text. *)
Definition printed (w : world) (v : json) (key : string) : string :=
  match getitem v key with
  | Ok x => py_str w x
  | Raise _ => EmptyString
  end.

Definition animal_of (w : world) (v : json) : string := printed w v "animal".
Definition description_of (w : world) (v : json) : string := printed w v "description".

(** The interaction as the prompts quote it, and as the page shows it; the
    two differ only for an interaction that is not text. *)
Definition interaction_text (w : world) (v : json) : string := printed w v "interaction".
Definition interaction_of (w : world) (v : json) : string :=
  match getitem v "interaction" with
  | Ok x => match drawn_value w x with Ok s => s | Raise _ => EmptyString end
  | Raise _ => EmptyString
  end.

(** The records whose page [main.py] lays out: objects with the three keys
    whose interaction reportlab accepts.  [main2.py] and [main3.py] also call
    [title] on the animal, which must then be text. *)
Definition laid_out (w : world) (v : json) : bool :=
  match getitem v "animal", getitem v "description", getitem v "interaction" with
  | Ok _, Ok _, Ok x => match drawn_value w x with Ok _ => true | Raise _ => false end
  | _, _, _ => false
  end.

Definition laid_out_stylish (w : world) (v : json) : bool :=
  match getitem v "animal" with
  | Ok (JStr _) => laid_out w v
  | _ => false
  end.

(** The image a page ends up with: the payload must be present, non-empty
    and decodable. *)
Definition decoded (w : world) (img_data : option string) : option image :=
  match img_data with
  | Some b64 => if truthy b64 then image_open w b64 else None
  | None => None
  end.

Definition jpeg_of (user_image : option user_photo) : option image :=
  match user_image with
  | Some u => if photo_saves_as_jpeg u then Some (photo_image u) else None
  | None => None
  end.

(** The pages [main.py] is expected to lay out. *)
Module Book.

Definition cover (name : string) (user_image : option user_photo) : page :=
  [ SetFont "Helvetica-Bold" 24;
    DrawCentredString 300 750 (name +:+ "'s Ghibli Zoo Adventure");
    SetFont "Helvetica" 16;
    DrawCentredString 300 700 "A magical Studio Ghibli-style story" ]
  ++ match jpeg_of user_image with
     | Some img => [DrawImage img 200 400 200 200]
     | None => []
     end.

Definition intro (name : string) : page :=
  [ SetFont "Helvetica" 18;
    DrawCentredString 300 750 ("Once upon a time, " +:+ name +:+ " wrote to the zoo");
    DrawCentredString 300 720 "to send them a pet.";
    DrawCentredString 300 690 "And so the zoo began to send animals..." ].

Definition text_lines (w : world) (name : string) (v : json) : list op :=
  [ DrawString 100 750 ("They sent " +:+ name +:+ " a " +:+ animal_of w v +:+ "...");
    DrawString 100 720 ("but it was " +:+ description_of w v +:+ "!");
    DrawString 100 690 (interaction_of w v) ].

Definition animal_page (w : world) (name : string) (v : json) (img : option image)
    : page :=
  SetFont "Helvetica" 18 :: text_lines w name v
  ++ [ match img with
       | Some i => DrawImage i 100 250 400 400
       | None => placeholder
       end ].

(** The prompt of the request made for record [v]. *)
Definition prompt (w : world) (child_description : string)
    (photo_description : option string) (v : json) : string :=
  with_photo (scene_prompt child_description (animal_of w v) (interaction_text w v))
             photo_description.

(** Pages of the records [items], the first of which is illustrated by
    request number [n]. *)
Fixpoint animal_pages (w : world) (name child_description : string)
    (photo_description : option string) (n : nat) (items : list json) : list page :=
  match items with
  | [] => []
  | v :: rest =>
      animal_page w name v
        (decoded w (images_generate w n (prompt w child_description photo_description v)))
      :: animal_pages w name child_description photo_description (S n) rest
  end.

Definition final (name : string) : page :=
  [ SetFont "Helvetica-Bold" 20;
    DrawCentredString 300 700 "The End";
    SetFont "Helvetica" 16;
    DrawCentredString 300 650 ("Hope you enjoyed your Ghibli adventure, " +:+ name +:+ "!") ].

End Book.

(** The shuffled palette of a run and the colour of animal page [i]. *)
Definition palette (w : world) : list rgb := shuffle (randbelow w) PASTEL_COLORS.

Definition page_color (w : world) (i : nat) : rgb :=
  default (RGB 100 100 100) (palette w !! (i mod length (palette w))%nat).

(** The pages [main2.py] is expected to lay out. *)
Module Book2.

Definition cover (name : string) (user_image : option user_photo) : page :=
  Main2.cover_head name
  ++ match jpeg_of user_image with
     | Some img => Main2.framed_photo img
     | None => []
     end
  ++ Main2.cover_foot name.

Definition intro (w : world) (name : string) (p : Main2.pronoun_entry) : page :=
  background (page_color w 0) ++ Main2.intro_ops name p.

Definition header (w : world) (v : json) : list op :=
  [ SetFillColorRGB (RGB 30 30 70);
    RoundRect 50 730 500 60 10 true true;
    SetFillColorRGB (RGB 100 100 100);
    SetFont "Helvetica-Bold" 22;
    DrawCentredString 300 760 ("The " +:+ title w (animal_of w v)) ].

Definition text_lines (w : world) (name : string) (v : json) : list op :=
  [ SetFillColorRGB (RGB 20 20 40);
    SetFont "Helvetica-BoldOblique" 18;
    DrawString 90 700 ("They sent " +:+ name +:+ " a " +:+ animal_of w v +:+ "...");
    SetFillColorRGB (RGB 50 10 10);
    SetFont "Helvetica-Bold" 18;
    DrawString 100 670 ("But it was " +:+ description_of w v +:+ "!");
    SetFillColorRGB (RGB 20 30 20);
    SetFont "Helvetica-Oblique" 18;
    DrawString 90 640 (interaction_of w v);
    SetStrokeColorRGB (RGB 50 50 70);
    SetLineWidth 2;
    Line 100 625 500 625 ].

Definition picture (img : option image) : list op :=
  match img with
  | Some i => Main2.framed_image i
  | None => [placeholder]
  end.

Definition animal_page (w : world) (name : string) (i : nat) (v : json)
    (img : option image) : page :=
  background (page_color w i) ++ header w v ++ text_lines w name v
  ++ picture img ++ Main2.page_number i.

(** Pages of the records [items], the first of which is page number
    [i + 1] and is illustrated by request number [n]. *)
Fixpoint animal_pages (w : world) (name child_description : string)
    (photo_description : option string) (i n : nat) (items : list json) : list page :=
  match items with
  | [] => []
  | v :: rest =>
      animal_page w name i v
        (decoded w (images_generate w n (Book.prompt w child_description photo_description v)))
      :: animal_pages w name child_description photo_description (S i) (S n) rest
  end.

Definition final (name : string) (p : Main2.pronoun_entry) : page :=
  Main2.end_ops name p.

End Book2.

(** The pages [main3.py] is expected to lay out. *)
Module Book3.

(** The prompt of the request made for record [v], given the detailed
    description [d] of the child. *)
Definition prompt (w : world) (child_description : string)
    (photo_description d : option string) (v : json) : string :=
  let p :=
    Main3.scene_prompt child_description (animal_of w v) (interaction_text w v) d in
  if truthy_opt d then p else with_photo p photo_description.

(** Outcome of the base-character step when its first request has number
    [n]: the base image payload and the detailed description, or an
    exception, and the number of the next request. *)
Definition anchor (w : world) (name child_description : string)
    (photo_description : option string) (n : nat)
    : result (option string * option string) * nat :=
  match images_generate w n
          (with_photo (Main3.base_prompt child_description) photo_description) with
  | Some b64 =>
      if truthy b64 then
        match image_open w b64 with
        | Some _ =>
            match chat_describe w (S n) b64 with
            | Some d =>
                let d' := Main3.add_reference_photo d photo_description in
                (Ok (Some b64,
                     Some (if truthy d' then d' else Main3.simplified_description name)),
                 S (S n))
            | None =>
                (Ok (Some b64, Some (Main3.description_fallback name)), S (S n))
            end
        | None => (Raise ImageError, S n)
        end
      else (Ok (Some b64, None), S n)
  | None => (Ok (None, None), S n)
  end.

Definition cover (name : string) (user_image : option user_photo) : page :=
  Main3.cover_head name
  ++ match jpeg_of user_image with
     | Some img => Main2.framed_photo img
     | None => []
     end
  ++ Main3.cover_foot name.

Definition intro (w : world) (name : string) (p : Main2.pronoun_entry) : page :=
  background (page_color w 0) ++ Main3.intro_ops name p.

Definition header (w : world) (v : json) : list op :=
  [ SetFillColorRGB Main3.SUBTITLE_COLOR;
    RoundRect 50 730 500 60 10 true true;
    SetFillColorRGB (RGB 100 100 100);
    SetFont Main3.TITLE_FONT Main3.SUBTITLE_SIZE;
    DrawCentredString 300 760 ("The " +:+ title w (animal_of w v)) ].

Definition text_lines (w : world) (name : string) (v : json) : list op :=
  [ SetFillColorRGB Main3.BODY_COLOR;
    SetFont Main3.BODY_FONT Main3.BODY_SIZE;
    DrawString 90 700 ("They sent " +:+ name +:+ " a " +:+ animal_of w v +:+ "...");
    SetFillColorRGB Main3.EMPHASIS_COLOR;
    SetFont Main3.TITLE_FONT Main3.BODY_SIZE;
    DrawString 100 670 ("But it was " +:+ description_of w v +:+ "!");
    SetFillColorRGB Main3.BODY_COLOR;
    SetFont Main3.EMPHASIS_FONT Main3.BODY_SIZE;
    DrawString 90 640 (interaction_of w v);
    SetStrokeColorRGB (RGB 50 50 70);
    SetLineWidth 2;
    Line 100 625 500 625 ].

Definition animal_page (w : world) (name : string) (i : nat) (v : json)
    (img : option image) : page :=
  background (page_color w i) ++ header w v ++ text_lines w name v
  ++ Book2.picture img ++ Main3.page_number i.

Fixpoint animal_pages (w : world) (name child_description : string)
    (photo_description d : option string) (i n : nat) (items : list json) : list page :=
  match items with
  | [] => []
  | v :: rest =>
      animal_page w name i v
        (decoded w (images_generate w n (prompt w child_description photo_description d v)))
      :: animal_pages w name child_description photo_description d (S i) (S n) rest
  end.

Definition final (name : string) (p : Main2.pronoun_entry) : page :=
  Main3.end_ops name p.

End Book3.

(** The colour a page is filled with before anything else is drawn. *)
Definition page_background (pg : page) : option rgb :=
  match pg with
  | SetFillColorRGB c :: Rect 0 0 612 792 _ true :: _ => Some c
  | _ => None
  end.

(** The sentences drawn on a page, in drawing order. *)
Fixpoint texts (pg : page) : list string :=
  match pg with
  | [] => []
  | DrawString _ _ s :: rest => s :: texts rest
  | DrawCentredString _ _ s :: rest => s :: texts rest
  | _ :: rest => texts rest
  end.

(** * More of the scripts *)

(** ** The button handler of [main3.py]

    It differs from the other two in three places: a message after the
    photo analysis, the name passed on as typed (no default), and the
    traceback reported as a second error. *)

Definition main3_process_photo (w : world) (photo : option upload)
    : M (option string * option user_photo) :=
  match photo with
  | Some p =>
      user_image <- open_upload p ;;
      emit (StImage "Your Photo") ;;
      emit (StWrite "Analyzing photo for Ghibli-style adaptation...") ;;
      photo_description <- request chat_url (photo_bytes p) (chat_photo w) ;;
      emit (StWrite "Photo analysis complete!") ;;
      ret (Some photo_description, Some user_image)
  | None => ret (None, None)
  end.

Definition main3_pipeline (w : world) (inp : inputs) (pdf : pdf_file) : M document :=
  fields <- read_and_analyze w pdf ;;
  story_data <- lift (select_story_data fields) ;;
  found <- lift (py_len story_data) ;;
  emit (StWrite ("Found " +:+ str_nat found +:+ " animal interactions")) ;;
  described <- main3_process_photo w (photo inp) ;;
  emit (StWrite "Generating Ghibli-style illustrations and creating storybook...") ;;
  pdf_buffer <- Main3.create_stylish_storybook w (name inp) (gender inp) story_data
                  (fst described) (snd described) ;;
  emit (StSuccess "🎉 Your magical Ghibli storybook is ready!") ;;
  emit (StDownload (name inp +:+ "_Ghibli_Storybook.pdf") pdf_buffer) ;;
  ret pdf_buffer.

(** [traceback.format_exc()] is recorded by its first line and the
    exception. *)
Definition main3_py (w : world) (inp : inputs) : M (option document) :=
  match original_pdf inp with
  | None => emit (StWarning "Please upload the original story PDF") ;; ret None
  | Some pdf =>
      if truthy_opt (OPENAI_API_KEY w) then
        try_except
          (pdf_buffer <- main3_pipeline w inp pdf ;; ret (Some pdf_buffer))
          (fun e =>
             emit (StError "Error creating storybook: " (Some e)) ;;
             emit (StError "Traceback (most recent call last):" (Some e)) ;;
             ret None)
      else emit (StError "Missing OpenAI API key" None) ;; ret None
  end.

(** ** Definitions used to state the further properties *)

Definition is_image (o : op) : bool :=
  match o with DrawImage _ _ _ _ _ => true | _ => false end.


(** Number of images, resp. of placeholder texts, drawn on a page. *)
Definition images_on (pg : page) : nat := length (List.filter is_image pg).

Fixpoint total_length (texts : list string) : nat :=
  match texts with
  | [] => O
  | t :: rest => (String.length t + total_length rest)%nat
  end.

(** The name the handlers of [main.py] and [main2.py] pass on. *)
Definition name_or_default (inp : inputs) : string :=
  if truthy (name inp) then name inp else "Aanya".

(** A storybook function that refuses a blank name. *)
Definition named_only (w : world) (name gender : string) (story_data : json)
    (photo_description : option string) (user_image : option user_photo) : M document :=
  if truthy name
  then Main.create_storybook w name gender story_data photo_description user_image
  else raise TypeError.

(** A world in which every request succeeds and every image opens. *)
Definition online (parsed : json) : world :=
  {| OPENAI_API_KEY := Some "sk-test";
     json_loads := fun _ => Some parsed;
     chat_story := fun _ _ => Some "{...}";
     chat_photo := fun _ _ => Some "round face, short dark hair";
     chat_describe := fun _ _ => Some "a small child in a yellow raincoat";
     images_generate := fun _ _ => Some "iVBOR";
     image_open := fun b64 => Some (Image b64);
     randbelow := fun n => (n - 1)%nat;
     py_repr := fun _ => "[...]";
     unicode_title := fun s => s;
     reportlab_text := fun _ => Raise TypeError |}.


Definition nameless : json :=
  JObj [("description", JStr "too big"); ("interaction", JStr "The child waved")].

(** Records whose values are not all text. *)
Definition numbered : json :=
  JObj [ ("animal", JNum 42); ("description", JNull);
         ("interaction", JStr "The child waved") ].

Definition undescribed : json :=
  JObj [ ("animal", JStr "lion"); ("description", JNull);
         ("interaction", JStr "The child waved") ].
(** * Properties *)

(** ** Text extraction *)

Lemma append_cons (x : ascii) (a b : string) :
  String x a +:+ b = String x (a +:+ b).
Proof. reflexivity. Qed.

Lemma append_empty_l (a : string) : EmptyString +:+ a = a.
Proof. reflexivity. Qed.

Lemma append_assoc (a b c : string) : (a +:+ b) +:+ c = a +:+ (b +:+ c).
Proof.
  induction a as [|x a IH]; [reflexivity|].
  now rewrite !append_cons, IH.
Qed.

Lemma append_empty_r (a : string) : a +:+ EmptyString = a.
Proof.
  induction a as [|x a IH]; [reflexivity|].
  now rewrite append_cons, IH.
Qed.

Lemma extract_loop_lines (texts : list string) (acc : string) (st : state) :
  extract_loop acc (map Some texts) st = (Ok (acc +:+ lines texts), st).
Proof.
  revert acc; induction texts as [|t rest IH]; intros acc; simpl.
  - now rewrite append_empty_r.
  - unfold bind; simpl. rewrite IH. now rewrite !append_assoc.
Qed.

Lemma lines_join (t : string) (rest : list string) :
  lines (t :: rest) = join_newline (t :: rest) +:+ newline.
Proof.
  revert t; induction rest as [|u rest IH]; intros t.
  - simpl. now rewrite append_empty_r.
  - change (lines (t :: u :: rest)) with (t +:+ newline +:+ lines (u :: rest)).
    rewrite IH.
    change (join_newline (t :: u :: rest))
      with (t +:+ newline +:+ join_newline (u :: rest)).
    now rewrite !append_assoc.
Qed.

(** The extractor never issues a request and never touches the canvas; it
    reports at most one error. *)
Lemma extract_text_from_pdf_frame (pdf : pdf_file) (st : state) :
  exists r evs,
    extract_text_from_pdf pdf st =
      (Ok r, {| pages := pages st; cur := cur st;
                trace := trace st ++ evs; calls := calls st |})
    /\ (evs = [] \/ exists e, evs = [StError "Error reading PDF: " (Some e)]).
Proof.
  assert (Hloop : forall ps acc, exists r,
             extract_loop acc ps st = (r, st)).
  { induction ps as [|p ps IH]; intros acc; simpl.
    - eexists; reflexivity.
    - destruct p as [t|]; unfold bind; simpl.
      + apply IH.
      + eexists; reflexivity. }
  destruct st as [pg cu tr n].
  destruct pdf as [|ps]; unfold extract_text_from_pdf, try_except, bind; simpl.
  - eexists _, _. split; [reflexivity | right; eauto].
  - destruct (Hloop ps EmptyString) as [r Hr]. rewrite Hr.
    destruct r as [text|e]; simpl.
    + exists (Some text), []. rewrite app_nil_r. split; [reflexivity | now left].
    + eexists _, _. split; [reflexivity | right; eauto].
Qed.

(** C6, as amended: for a readable PDF the extractor returns every page
    text followed by a newline, in document order; that is the texts joined
    by newlines plus one trailing newline when there is at least one page,
    and the empty string when there is none. *)
Theorem extract_text_from_pdf_readable (texts : list string) (st : state) :
  extract_text_from_pdf (Pdf (map Some texts)) st =
    (Ok (Some (match texts with
               | [] => EmptyString
               | _ :: _ => join_newline texts +:+ newline
               end)), st).
Proof.
  unfold extract_text_from_pdf, try_except, bind; simpl.
  rewrite extract_loop_lines, append_empty_l.
  destruct texts as [|t rest]; [reflexivity|].
  now rewrite lines_join.
Qed.

(** C6 as stated fails: for a two-page PDF the result is not the two texts
    joined by a newline (it ends with one more newline). *)
Lemma extract_text_from_pdf_not_join :
  fst (extract_text_from_pdf (Pdf [Some "Dear zoo"; Some "The end"]) initial)
  <> Ok (Some (join_newline ["Dear zoo"; "The end"])).
Proof. vm_compute. intros H. discriminate H. Qed.

(** ** The precondition of the pipeline: some extracted text *)

(** C5: when the extractor's result is absent or empty, the handler ends
    without a document, reports the failure, and neither issues a request
    (the analyzer is not invoked) nor offers a download. *)
Theorem no_text_no_downstream_calls
    (storybook : world -> string -> string -> json -> option string ->
                 option user_photo -> M document)
    (w : world) (inp : inputs) (pdf : pdf_file) (st st1 : state)
    (story_text : option string) :
  original_pdf inp = Some pdf ->
  truthy_opt (OPENAI_API_KEY w) = true ->
  extract_text_from_pdf pdf st = (Ok story_text, st1) ->
  truthy_opt story_text = false ->
  exists st2,
    on_click storybook w inp st = (Ok None, st2)
    /\ calls st2 = calls st
    /\ posts (trace st2) = posts (trace st)
    /\ downloads (trace st2) = downloads (trace st)
    /\ pages st2 = pages st
    /\ last (trace st2)
       = Some (StException (ValueError "Couldn't extract text from PDF")).
Proof.
  intros Hpdf Hkey Hext Hempty.
  destruct (extract_text_from_pdf_frame pdf st) as (r & evs & Hframe & Hevs).
  rewrite Hext in Hframe. injection Hframe as Hr Hst1. subst r.
  unfold on_click. rewrite Hpdf, Hkey.
  unfold try_except, pipeline, read_and_analyze, bind. rewrite Hext, Hempty. simpl.
  eexists. split; [reflexivity|]. subst st1; simpl.
  assert (Hp : posts evs = [] /\ downloads evs = []).
  { destruct Hevs as [->|[e ->]]; split; reflexivity. }
  destruct Hp as [Hp Hd].
  unfold posts, downloads in *.
  rewrite !List.filter_app, Hp, Hd. simpl. rewrite !app_nil_r.
  repeat split; try reflexivity.
  apply last_snoc.
Qed.

Lemma no_text_no_downstream_calls_witness :
  exists st2,
    main_py offline
      {| original_pdf := Some Unreadable; name := "Aanya";
         gender := "she/her"; photo := None |} initial = (Ok None, st2)
    /\ calls st2 = calls initial
    /\ posts (trace st2) = posts (trace initial)
    /\ downloads (trace st2) = downloads (trace initial)
    /\ pages st2 = pages initial
    /\ last (trace st2)
       = Some (StException (ValueError "Couldn't extract text from PDF")).
Proof.
  apply (no_text_no_downstream_calls Main.create_storybook offline
           {| original_pdf := Some Unreadable; name := "Aanya";
              gender := "she/her"; photo := None |}
           Unreadable initial
           {| pages := []; cur := [];
              trace := [StError "Error reading PDF: " (Some PdfError)];
              calls := 0 |}
           None); reflexivity.
Defined.

(** A PDF without pages gives the empty string and stops the run as well;
    a PDF whose single page has no text gives a newline, which is not empty:
    the analyzer is then called. *)
Example empty_and_blank_pdf :
  fst (extract_text_from_pdf (Pdf []) initial) = Ok (Some EmptyString)
  /\ fst (main_py offline (Inputs (Some (Pdf [])) "Aanya" "she/her" None) initial)
     = Ok None
  /\ posts (trace (snd (main_py offline (Inputs (Some (Pdf [])) "Aanya" "she/her" None)
                          initial))) = []
  /\ fst (extract_text_from_pdf (Pdf [Some EmptyString]) initial) = Ok (Some newline)
  /\ posts (trace (snd (main_py offline
                          (Inputs (Some (Pdf [Some EmptyString])) "Aanya" "she/her" None)
                          initial)))
     = [Post chat_url newline].
Proof. repeat split; vm_compute; reflexivity. Qed.

(** ** Locating the interaction sequence *)

Ltac norm_trace := rewrite <- ?app_assoc; simpl.

Lemma read_and_analyze_ok (w : world) (pdf : pdf_file) (st st1 : state)
    (text content : string) (fields : list (string * json)) :
  extract_text_from_pdf pdf st = (Ok (Some text), st1) ->
  truthy text = true ->
  chat_story w (calls st1) text = Some content ->
  truthy content = true ->
  json_loads w content = Some (JObj fields) ->
  read_and_analyze w pdf st =
    (Ok fields,
     {| pages := pages st1; cur := cur st1;
        trace := trace st1 ++ [ StWrite "Analyzing story structure...";
                                Post chat_url text;
                                StWriteKeys "API response structure:" (map fst fields) ];
        calls := S (calls st1) |}).
Proof.
  intros Hext Htext Hchat Hcontent Hloads.
  unfold read_and_analyze, bind. rewrite Hext. simpl. rewrite Htext. simpl.
  unfold analyze_story, try_except, bind, request. simpl. rewrite Hchat. simpl.
  rewrite Hcontent. unfold loads. rewrite Hloads. simpl.
  now norm_trace.
Qed.





(** The key wins even when its value is an empty list: the storybook then
    has its three fixed pages only. *)
Example empty_interactions_are_used :
  select_story_data [("interactions", JArr []); ("animals", JArr five_records)]
  = Ok (JArr [])
  /\ exists doc,
       fst (main_py (canned (JObj [("interactions", JArr [])])) (a_request None) initial)
       = Ok (Some doc)
       /\ length doc = 3%nat.
Proof. split; [reflexivity|]. eexists. split; vm_compute; reflexivity. Qed.

(** ** A failing photo description *)

(** C4, as amended: when the photo-description request fails, the
    exception reaches the handler's outer [except], which reports it; the
    run ends there, without calling the storybook function, without any
    illustration request and without a document. *)
Theorem photo_failure_ends_run
    (storybook : world -> string -> string -> json -> option string ->
                 option user_photo -> M document)
    (w : world) (inp : inputs) (pdf : pdf_file) (st st1 : state)
    (text content : string) (fields : list (string * json))
    (story_data : json) (found : nat) (p : upload) (u : user_photo) :
  original_pdf inp = Some pdf ->
  truthy_opt (OPENAI_API_KEY w) = true ->
  extract_text_from_pdf pdf st = (Ok (Some text), st1) ->
  truthy text = true ->
  chat_story w (calls st1) text = Some content ->
  truthy content = true ->
  json_loads w content = Some (JObj fields) ->
  select_story_data fields = Ok story_data ->
  py_len story_data = Ok found ->
  photo inp = Some p ->
  photo_open p = Some u ->
  chat_photo w (S (calls st1)) (photo_bytes p) = None ->
  exists st2,
    on_click storybook w inp st = (Ok None, st2)
    /\ pages st2 = pages st1
    /\ downloads (trace st2) = downloads (trace st1)
    /\ posts (trace st2) =
         posts (trace st1) ++ [Post chat_url text; Post chat_url (photo_bytes p)]
    /\ last (trace st2) = Some (StException RequestError).
Proof.
  intros Hpdf Hkey Hext Htext Hchat Hcontent Hloads Hsel Hlen Hphoto Hopen Hfail.
  unfold on_click. rewrite Hpdf, Hkey.
  unfold try_except, pipeline, bind.
  rewrite (read_and_analyze_ok w pdf st st1 text content fields) by assumption.
  rewrite Hsel. simpl. rewrite Hlen. simpl.
  unfold process_photo, bind, open_upload. rewrite Hphoto, Hopen. simpl.
  unfold request. simpl. rewrite Hfail. simpl.
  eexists. split; [reflexivity|]. simpl.
  unfold downloads, posts. rewrite !List.filter_app. simpl. rewrite !app_nil_r.
  repeat split; try reflexivity.
  - now rewrite <- !app_assoc.
  - apply last_snoc.
Qed.

Lemma photo_failure_ends_run_witness :
  exists st2,
    main_py (canned (JObj [("interactions", JArr five_records)]))
            (a_request (Some a_photo)) initial = (Ok None, st2)
    /\ pages st2 = pages initial
    /\ downloads (trace st2) = downloads (trace initial)
    /\ posts (trace st2) =
         posts (trace initial)
         ++ [ Post chat_url ("Aanya wrote to the zoo." +:+ newline);
              Post chat_url (photo_bytes a_photo) ]
    /\ last (trace st2) = Some (StException RequestError).
Proof.
  apply (photo_failure_ends_run Main.create_storybook
           (canned (JObj [("interactions", JArr five_records)]))
           (a_request (Some a_photo)) one_page_pdf initial initial
           ("Aanya wrote to the zoo." +:+ newline) "{...}"
           [("interactions", JArr five_records)] (JArr five_records) 5%nat
           a_photo (UserPhoto (Image "JFIF") true));
    reflexivity.
Defined.

(** C4 as stated fails: with a photo whose description request fails the
    run of [main.py] ends without a document, while the same run without a
    photo offers an eight-page storybook. *)
Lemma photo_failure_aborts_main_py :
  fst (main_py (canned (JObj [("interactions", JArr five_records)]))
               (a_request (Some a_photo)) initial) = Ok None
  /\ downloads (trace (snd (main_py (canned (JObj [("interactions", JArr five_records)]))
                                    (a_request (Some a_photo)) initial))) = []
  /\ exists doc,
       fst (main_py (canned (JObj [("interactions", JArr five_records)]))
                    (a_request None) initial) = Ok (Some doc)
       /\ length doc = 8%nat.
Proof.
  split; [|split].
  - vm_compute. reflexivity.
  - vm_compute. reflexivity.
  - eexists. split; vm_compute; reflexivity.
Qed.

(** ** Pages laid out by [main.py] *)

(** *** Stepping through a program *)

Lemma bind_ok {A B} (m : M A) (k : A -> M B) (st st' : state) (a : A) :
  m st = (Ok a, st') -> bind m k st = k a st'.
Proof. intros H. unfold bind. now rewrite H. Qed.

Lemma bind_raise {A B} (m : M A) (k : A -> M B) (st st' : state) (e : exn) :
  m st = (Raise e, st') -> bind m k st = (Raise e, st').
Proof. intros H. unfold bind. now rewrite H. Qed.

Lemma bind_emit {B} (e : event) (k : unit -> M B) (st : state) :
  bind (emit e) k st =
    k tt {| pages := pages st; cur := cur st;
            trace := trace st ++ [e]; calls := calls st |}.
Proof. reflexivity. Qed.

Lemma bind_draw {B} (o : op) (k : unit -> M B) (st : state) :
  bind (draw o) k st =
    k tt {| pages := pages st; cur := cur st ++ [o];
            trace := trace st; calls := calls st |}.
Proof. reflexivity. Qed.

Lemma draw_all_ok (os : list op) (st : state) :
  draw_all os st =
    (Ok tt, {| pages := pages st; cur := cur st ++ os;
               trace := trace st; calls := calls st |}).
Proof.
  revert st; induction os as [|o os IH]; intros [ps cu tr n]; simpl.
  - now rewrite app_nil_r.
  - unfold bind; simpl. rewrite IH; simpl. now rewrite <- app_assoc.
Qed.

Lemma bind_draw_all {B} (os : list op) (k : unit -> M B) (st : state) :
  bind (draw_all os) k st =
    k tt {| pages := pages st; cur := cur st ++ os;
            trace := trace st; calls := calls st |}.
Proof. apply bind_ok, draw_all_ok. Qed.

Lemma bind_showPage {B} (k : unit -> M B) (st : state) :
  bind showPage k st =
    k tt {| pages := pages st ++ [cur st]; cur := [];
            trace := trace st; calls := calls st |}.
Proof. reflexivity. Qed.

Lemma bind_new_canvas {B} (k : unit -> M B) (st : state) :
  bind new_canvas k st =
    k tt {| pages := []; cur := []; trace := trace st; calls := calls st |}.
Proof. reflexivity. Qed.

Lemma bind_ret {A B} (a : A) (k : A -> M B) (st : state) :
  bind (ret a) k st = k a st.
Proof. reflexivity. Qed.

Lemma bind_lift_ok {A B} (a : A) (k : A -> M B) (st : state) :
  bind (lift (Ok a)) k st = k a st.
Proof. reflexivity. Qed.

Ltac proj := cbn [pages cur trace calls].

(** One statement of the program: a Streamlit call or a canvas call. *)
Ltac step :=
  first [ rewrite bind_emit | rewrite bind_draw | rewrite bind_draw_all
        | rewrite bind_showPage | rewrite bind_new_canvas
        | rewrite bind_ret | rewrite bind_lift_ok ];
  proj.

(** Reading a field of a record *)
Lemma bind_field {B} (w : world) (v x : json) (key : string) (k : string -> M B)
    (st : state) :
  getitem v key = Ok x -> bind (field w v key) k st = k (py_str w x) st.
Proof. intros H. unfold bind, field, lift. now rewrite H. Qed.

Lemma bind_field_raise {B} (w : world) (v : json) (key : string) (e : exn)
    (k : string -> M B) (st : state) :
  getitem v key = Raise e -> bind (field w v key) k st = (Raise e, st).
Proof. intros H. unfold bind, field, lift. now rewrite H. Qed.

Lemma bind_titled {B} (w : world) (v x : json) (key t : string) (k : string -> M B)
    (st : state) :
  getitem v key = Ok x -> titled_value w x = Ok t ->
  bind (titled w v key) k st = k t st.
Proof. intros H Ht. unfold bind, titled, lift. now rewrite H, Ht. Qed.

Lemma bind_titled_raise {B} (w : world) (v x : json) (key : string) (e : exn)
    (k : string -> M B) (st : state) :
  getitem v key = Ok x -> titled_value w x = Raise e ->
  bind (titled w v key) k st = (Raise e, st).
Proof. intros H Ht. unfold bind, titled, lift. now rewrite H, Ht. Qed.

Lemma bind_drawn {B} (w : world) (v x : json) (key s : string) (k : string -> M B)
    (st : state) :
  getitem v key = Ok x -> drawn_value w x = Ok s ->
  bind (drawn w v key) k st = k s st.
Proof. intros H Hs. unfold bind, drawn, lift. now rewrite H, Hs. Qed.

Lemma bind_drawn_raise {B} (w : world) (v x : json) (key : string) (e : exn)
    (k : string -> M B) (st : state) :
  getitem v key = Ok x -> drawn_value w x = Raise e ->
  bind (drawn w v key) k st = (Raise e, st).
Proof. intros H Hs. unfold bind, drawn, lift. now rewrite H, Hs. Qed.

Lemma bind_drawn_missing {B} (w : world) (v : json) (key : string) (e : exn)
    (k : string -> M B) (st : state) :
  getitem v key = Raise e -> bind (drawn w v key) k st = (Raise e, st).
Proof. intros H. unfold bind, drawn, lift. now rewrite H. Qed.

Lemma well_formed_fields (v : json) :
  well_formed v = true ->
  exists a d i,
    getitem v "animal" = Ok (JStr a)
    /\ getitem v "description" = Ok (JStr d)
    /\ getitem v "interaction" = Ok (JStr i).
Proof.
  unfold well_formed, text_field. intros H.
  destruct (getitem v "animal") as [[]|]; try discriminate H.
  destruct (getitem v "description") as [[]|]; try discriminate H.
  destruct (getitem v "interaction") as [[]|]; try discriminate H.
  eexists _, _, _. repeat split; reflexivity.
Qed.

Lemma laid_out_fields (w : world) (v : json) :
  laid_out w v = true ->
  exists a d x s,
    getitem v "animal" = Ok a
    /\ getitem v "description" = Ok d
    /\ getitem v "interaction" = Ok x
    /\ drawn_value w x = Ok s.
Proof.
  unfold laid_out. intros H.
  destruct (getitem v "animal") as [a|] eqn:Ha; [|discriminate H].
  destruct (getitem v "description") as [d|] eqn:Hd; [|discriminate H].
  destruct (getitem v "interaction") as [x|] eqn:Hx; [|discriminate H].
  destruct (drawn_value w x) as [s|] eqn:Hs; [|discriminate H].
  exists a, d, x, s. repeat split; first [assumption | reflexivity].
Qed.

Lemma laid_out_stylish_fields (w : world) (v : json) :
  laid_out_stylish w v = true ->
  exists a d x s,
    getitem v "animal" = Ok (JStr a)
    /\ getitem v "description" = Ok d
    /\ getitem v "interaction" = Ok x
    /\ drawn_value w x = Ok s.
Proof.
  unfold laid_out_stylish. intros H.
  destruct (getitem v "animal") as [a|] eqn:Ha; [|discriminate H].
  destruct a; try discriminate H.
  destruct (laid_out_fields w v H) as (a' & d & x & t & Ha' & Hd & Hx & Ht).
  exists s, d, x, t. repeat split; assumption.
Qed.

(** Well-formed records are laid out by the three scripts. *)
Lemma well_formed_laid_out_stylish (w : world) (v : json) :
  well_formed v = true -> laid_out_stylish w v = true.
Proof.
  intros H. destruct (well_formed_fields v H) as (a & d & i & Ha & Hd & Hi).
  unfold laid_out_stylish, laid_out. now rewrite Ha, Hd, Hi.
Qed.

Lemma laid_out_stylish_laid_out (w : world) (v : json) :
  laid_out_stylish w v = true -> laid_out w v = true.
Proof.
  unfold laid_out_stylish.
  destruct (getitem v "animal") as [[]|]; intros H; try discriminate H. exact H.
Qed.

Lemma well_formed_laid_out (w : world) (v : json) :
  well_formed v = true -> laid_out w v = true.
Proof. intros H. now apply laid_out_stylish_laid_out, well_formed_laid_out_stylish. Qed.

Lemma all_laid_out (w : world) (items : list json) :
  Forall (fun v => well_formed v = true) items ->
  Forall (fun v => laid_out w v = true) items.
Proof.
  intros H. eapply Forall_impl; [exact H|]. intros v. apply well_formed_laid_out.
Qed.

Lemma all_laid_out_stylish (w : world) (items : list json) :
  Forall (fun v => well_formed v = true) items ->
  Forall (fun v => laid_out_stylish w v = true) items.
Proof.
  intros H. eapply Forall_impl; [exact H|]. intros v. apply well_formed_laid_out_stylish.
Qed.

(** What is printed for a well-formed record is the text of its fields. *)
Lemma well_formed_printed (w : world) (v : json) :
  well_formed v = true ->
  text_field v "animal" = Some (animal_of w v)
  /\ text_field v "description" = Some (description_of w v)
  /\ text_field v "interaction" = Some (interaction_of w v)
  /\ interaction_text w v = interaction_of w v.
Proof.
  intros H. destruct (well_formed_fields v H) as (a & d & i & Ha & Hd & Hi).
  unfold text_field, animal_of, description_of, interaction_of, interaction_text, printed.
  now rewrite Ha, Hd, Hi.
Qed.

Lemma yields_intro {A} (r : result A) (ps : list page) (cu : list op)
    (tr : list event) (n : nat) :
  yields (r, {| pages := ps; cur := cu; trace := tr; calls := n |}) r ps cu n.
Proof. now exists tr. Qed.

(** The scene generator never raises: for a record with the two keys it
    issues one request, answers with the payload or with [None], and leaves
    the canvas alone. *)
Lemma generate_ghibli_scene_ok (w : world) (cd : string) (v a x : json)
    (pd : option string) (ps : list page) (cu : list op) (tr : list event) (n : nat) :
  getitem v "animal" = Ok a ->
  getitem v "interaction" = Ok x ->
  yields
    (generate_ghibli_scene w cd v pd {| pages := ps; cur := cu; trace := tr; calls := n |})
    (Ok (images_generate w n (Book.prompt w cd pd v))) ps cu (S n).
Proof.
  intros Ha Hx.
  unfold generate_ghibli_scene, try_except. cbv beta.
  rewrite (bind_field _ _ _ _ _ _ Ha), (bind_field _ _ _ _ _ _ Hx).
  unfold Book.prompt, animal_of, interaction_text, printed. rewrite Ha, Hx.
  unfold bind, request; proj. cbv zeta.
  destruct (images_generate w n _); cbv beta iota;
    unfold ret, emit; proj; apply yields_intro.
Qed.

Lemma Main_illustration_ok (w : world) (a : string) (img_data : option string)
    (ps : list page) (cu : list op) (tr : list event) (n : nat) :
  yields
    (Main.illustration w a img_data {| pages := ps; cur := cu; trace := tr; calls := n |})
    (Ok tt) ps
    (cu ++ [ match decoded w img_data with
             | Some i => DrawImage i 100 250 400 400
             | None => placeholder
             end ]) n.
Proof.
  unfold Main.illustration, decoded.
  destruct img_data as [b64|]; simpl.
  - destruct (truthy b64); simpl.
    + unfold try_except, bind, open_image.
      destruct (image_open w b64); simpl; apply yields_intro.
    + apply yields_intro.
  - apply yields_intro.
Qed.

Lemma Main_animal_step_ok (w : world) (name cd : string) (pd : option string)
    (total i : nat) (v : json) (ps : list page) (tr : list event) (n : nat) :
  laid_out w v = true ->
  yields
    (Main.animal_step w name cd pd total i v
       {| pages := ps; cur := []; trace := tr; calls := n |})
    (Ok tt)
    (ps ++ [Book.animal_page w name v
              (decoded w (images_generate w n (Book.prompt w cd pd v)))])
    [] (S n).
Proof.
  intros Hv. destruct (laid_out_fields w v Hv) as (a & d & x & s & Ha & Hd & Hx & Hs).
  unfold Main.animal_step.
  rewrite (bind_field _ _ _ _ _ _ Ha). step.
  match goal with
  | |- context [bind (generate_ghibli_scene w cd v pd) _
                  {| pages := ?p; cur := ?c; trace := ?t; calls := ?k |}] =>
      destruct (generate_ghibli_scene_ok w cd v a x pd p c t k Ha Hx) as [tr1 Hgen]
  end.
  rewrite (bind_ok _ _ _ _ _ Hgen). step.
  rewrite (bind_field _ _ _ _ _ _ Ha). step.
  rewrite (bind_field _ _ _ _ _ _ Hd). step.
  rewrite (bind_drawn _ _ _ _ _ _ _ Hx Hs). step.
  match goal with
  | |- context [bind (Main.illustration w ?a ?d) _
                  {| pages := ?p; cur := ?c; trace := ?t; calls := ?k |}] =>
      destruct (Main_illustration_ok w a d p c t k) as [tr2 Hill]
  end.
  rewrite (bind_ok _ _ _ _ _ Hill).
  unfold Book.animal_page, Book.text_lines, animal_of, description_of, interaction_of,
    printed.
  rewrite Ha, Hd, Hx, Hs.
  apply yields_intro.
Qed.

Lemma Main_animal_loop_ok (w : world) (name cd : string) (pd : option string)
    (total : nat) (items : list json) :
  Forall (fun v => laid_out w v = true) items ->
  forall (i : nat) (ps : list page) (tr : list event) (n : nat),
  yields
    (Main.animal_loop w name cd pd total i items
       {| pages := ps; cur := []; trace := tr; calls := n |})
    (Ok tt) (ps ++ Book.animal_pages w name cd pd n items) [] (n + length items)%nat.
Proof.
  induction 1 as [|v rest Hv _ IH]; intros i ps tr n; simpl.
  - rewrite app_nil_r, Nat.add_0_r. apply yields_intro.
  - unfold bind.
    destruct (Main_animal_step_ok w name cd pd total i v ps tr n Hv) as [tr1 Hstep].
    rewrite Hstep.
    destruct (IH (S i) (ps ++ [Book.animal_page w name v
                 (decoded w (images_generate w n (Book.prompt w cd pd v)))]) tr1 (S n))
      as [tr2 Hloop].
    rewrite Hloop. rewrite <- app_assoc, Nat.add_succ_r. apply yields_intro.
Qed.

Lemma Main_cover_photo_ok (user_image : option user_photo)
    (ps : list page) (cu : list op) (tr : list event) (n : nat) :
  yields
    (Main.cover_photo user_image {| pages := ps; cur := cu; trace := tr; calls := n |})
    (Ok tt) ps
    (cu ++ match jpeg_of user_image with
           | Some img => [DrawImage img 200 400 200 200]
           | None => []
           end) n.
Proof.
  unfold Main.cover_photo, jpeg_of.
  destruct user_image as [u|]; simpl.
  - unfold try_except, bind, save_jpeg.
    destruct (photo_saves_as_jpeg u); simpl; try rewrite app_nil_r; apply yields_intro.
  - rewrite app_nil_r. apply yields_intro.
Qed.

Lemma py_len_iter (story_data : json) (items : list json) :
  py_iter story_data = Ok items -> py_len story_data = Ok (length items).
Proof.
  destruct story_data; simpl; intros H; try discriminate H; injection H as <-.
  - unfold chars. now rewrite length_map.
  - reflexivity.
  - now rewrite length_map.
Qed.

Lemma py_iter_len (story_data : json) (total : nat) :
  py_len story_data = Ok total -> exists items, py_iter story_data = Ok items.
Proof. destruct story_data; simpl; intros H; try discriminate H; eexists; reflexivity. Qed.

(** The document [main.py] assembles from anything it can iterate over,
    when every item is a record it lays out. *)
Lemma Main_create_storybook_run (w : world) (name gender : string)
    (story_data : json) (items : list json) (pd : option string)
    (user_image : option user_photo) (st : state) :
  py_iter story_data = Ok items ->
  Forall (fun v => laid_out w v = true) items ->
  let doc :=
    Book.cover name user_image :: Book.intro name
    :: Book.animal_pages w name (child_description_of name gender) pd (calls st) items
    ++ [Book.final name] in
  yields (Main.create_storybook w name gender story_data pd user_image st)
         (Ok doc) doc [] (calls st + length items)%nat.
Proof.
  intros Hiter Hwf doc. destruct st as [ps0 cu0 tr0 n0].
  unfold Main.create_storybook.
  rewrite (py_len_iter _ _ Hiter), Hiter. do 7 step.
  match goal with
  | |- context [bind (Main.cover_photo ?u) _
                  {| pages := ?p; cur := ?c; trace := ?t; calls := ?k |}] =>
      destruct (Main_cover_photo_ok u p c t k) as [tr1 Hcover]
  end.
  rewrite (bind_ok _ _ _ _ _ Hcover).
  do 7 step.
  match goal with
  | |- context [bind (Main.animal_loop w ?nm ?cd ?pd' ?total ?i ?l) _
                  {| pages := ?p; cur := []; trace := ?t; calls := ?k |}] =>
      destruct (Main_animal_loop_ok w nm cd pd' total l Hwf i p t k) as [tr2 Hloop]
  end.
  rewrite (bind_ok _ _ _ _ _ Hloop).
  do 5 step.
  unfold save; proj. cbn [app].
  subst doc. apply yields_intro.
Qed.

(** The document [main.py] assembles from well-formed records. *)
Lemma Main_create_storybook_ok (w : world) (name gender : string)
    (items : list json) (pd : option string) (user_image : option user_photo)
    (st : state) :
  Forall (fun v => well_formed v = true) items ->
  let doc :=
    Book.cover name user_image :: Book.intro name
    :: Book.animal_pages w name (child_description_of name gender) pd (calls st) items
    ++ [Book.final name] in
  yields (Main.create_storybook w name gender (JArr items) pd user_image st)
         (Ok doc) doc [] (calls st + length items)%nat.
Proof.
  intros Hwf.
  exact (Main_create_storybook_run w name gender (JArr items) items pd user_image st
           eq_refl (all_laid_out w items Hwf)).
Qed.

(** ** The shuffled palette *)

Lemma swap_length {A} (i j : nat) (x : list A) : length (swap i j x) = length x.
Proof.
  unfold swap. destruct (x !! i), (x !! j); try reflexivity.
  now rewrite !length_insert.
Qed.

Lemma shuffle_down_length {A} (rnd : nat -> nat) (i : nat) (x : list A) :
  length (shuffle_down rnd i x) = length x.
Proof.
  revert x; induction i as [|i IH]; intros x; simpl; [reflexivity|].
  now rewrite IH, swap_length.
Qed.

Lemma shuffle_length {A} (rnd : nat -> nat) (x : list A) :
  length (shuffle rnd x) = length x.
Proof. apply shuffle_down_length. Qed.

Lemma swap_perm {A} (i j : nat) (x : list A) : Permutation x (swap i j x).
Proof.
  unfold swap.
  destruct (x !! i) as [a|] eqn:Hi; [|reflexivity].
  destruct (x !! j) as [b|] eqn:Hj; [|reflexivity].
  destruct (decide (i = j)) as [->|Hne].
  - rewrite Hi in Hj. injection Hj as ->.
    rewrite list_insert_insert_eq. now rewrite list_insert_id.
  - symmetry. apply Permutation_inj.
    split; [now rewrite !length_insert|].
    exists (fun k => if decide (k = i) then j else if decide (k = j) then i else k).
    split.
    + intros k1 k2. repeat case_decide; subst; congruence.
    + intros k. repeat case_decide; subst.
      * rewrite list_lookup_insert_ne by congruence.
        rewrite list_lookup_insert_eq by (eapply lookup_lt_Some; eassumption).
        congruence.
      * rewrite list_lookup_insert_eq by
          (rewrite length_insert; eapply lookup_lt_Some; eassumption).
        congruence.
      * now rewrite !list_lookup_insert_ne by congruence.
Qed.

(** [random.shuffle] rearranges the palette and loses no colour. *)
Lemma shuffle_perm {A} (rnd : nat -> nat) (x : list A) :
  Permutation x (shuffle rnd x).
Proof.
  unfold shuffle. generalize (length x - 1)%nat as i.
  intros i; revert x; induction i as [|i IH]; intros x; simpl; [reflexivity|].
  etransitivity; [apply swap_perm | apply IH].
Qed.

Lemma palette_length (w : world) : length (palette w) = 8%nat.
Proof. unfold palette. now rewrite shuffle_length. Qed.

Lemma color_at_palette (w : world) (i : nat) :
  color_at (palette w) i = Ok (page_color w i).
Proof.
  unfold color_at, page_color. rewrite palette_length.
  destruct (lookup_lt_is_Some_2 (palette w) (i mod 8)%nat) as [c Hc].
  - rewrite palette_length. apply Nat.mod_upper_bound. discriminate.
  - now rewrite Hc.
Qed.

Lemma first_color_palette (w : world) :
  first_color (palette w) = Ok (page_color w 0).
Proof.
  unfold first_color, page_color. rewrite palette_length.
  change (0 mod 8)%nat with 0%nat.
  destruct (lookup_lt_is_Some_2 (palette w) 0%nat) as [c Hc].
  - rewrite palette_length. lia.
  - now rewrite Hc.
Qed.

(** ** Pages laid out by [main2.py] *)

Lemma Main2_cover_photo_ok (user_image : option user_photo)
    (ps : list page) (cu : list op) (tr : list event) (n : nat) :
  yields
    (Main2.cover_photo user_image {| pages := ps; cur := cu; trace := tr; calls := n |})
    (Ok tt) ps
    (cu ++ match jpeg_of user_image with
           | Some img => Main2.framed_photo img
           | None => []
           end) n.
Proof.
  unfold Main2.cover_photo, jpeg_of.
  destruct user_image as [u|]; cbv beta iota.
  - unfold try_except, save_jpeg.
    destruct (photo_saves_as_jpeg u).
    + rewrite bind_ret, draw_all_ok. apply yields_intro.
    + unfold bind, raise, emit; simpl. rewrite app_nil_r. apply yields_intro.
  - rewrite app_nil_r. apply yields_intro.
Qed.

Lemma Main2_illustration_ok (w : world) (a : string) (img_data : option string)
    (ps : list page) (cu : list op) (tr : list event) (n : nat) :
  yields
    (Main2.illustration w a img_data {| pages := ps; cur := cu; trace := tr; calls := n |})
    (Ok tt) ps (cu ++ Book2.picture (decoded w img_data)) n.
Proof.
  unfold Main2.illustration, decoded, truthy_opt.
  destruct img_data as [b64|]; cbv beta iota.
  - destruct (truthy b64); cbv beta iota.
    + unfold try_except, open_image. cbn [default from_option id]. cbv beta.
      destruct (image_open w b64); cbv beta iota.
      * rewrite bind_ret, draw_all_ok. apply yields_intro.
      * unfold bind, raise, emit, draw; simpl. apply yields_intro.
    + apply yields_intro.
  - apply yields_intro.
Qed.

Lemma Main2_animal_step_ok (w : world) (name cd : string) (pd : option string)
    (total i : nat) (v : json) (ps : list page) (tr : list event) (n : nat) :
  laid_out_stylish w v = true ->
  yields
    (Main2.animal_step w name cd pd (palette w) total i v
       {| pages := ps; cur := []; trace := tr; calls := n |})
    (Ok tt)
    (ps ++ [Book2.animal_page w name i v
              (decoded w (images_generate w n (Book.prompt w cd pd v)))])
    [] (S n).
Proof.
  intros Hv.
  destruct (laid_out_stylish_fields w v Hv) as (a & d & x & s & Ha & Hd & Hx & Hs).
  unfold Main2.animal_step.
  rewrite (bind_field _ _ _ _ _ _ Ha). step.
  rewrite color_at_palette. do 3 step.
  rewrite (bind_titled _ _ _ _ _ _ _ Ha eq_refl). step.
  match goal with
  | |- context [bind (generate_ghibli_scene w cd v pd) _
                  {| pages := ?p; cur := ?c; trace := ?t; calls := ?k |}] =>
      destruct (generate_ghibli_scene_ok w cd v _ _ pd p c t k Ha Hx) as [tr1 Hgen]
  end.
  rewrite (bind_ok _ _ _ _ _ Hgen). step.
  rewrite (bind_field _ _ _ _ _ _ Ha). do 2 step.
  rewrite (bind_field _ _ _ _ _ _ Hd). do 2 step.
  rewrite (bind_drawn _ _ _ _ _ _ _ Hx Hs). do 2 step.
  match goal with
  | |- context [bind (Main2.illustration w ?a ?d) _
                  {| pages := ?p; cur := ?c; trace := ?t; calls := ?k |}] =>
      destruct (Main2_illustration_ok w a d p c t k) as [tr2 Hill]
  end.
  rewrite (bind_ok _ _ _ _ _ Hill). step.
  unfold showPage; proj.
  unfold Book2.animal_page, Book2.header, Book2.text_lines,
    animal_of, description_of, interaction_of, printed.
  rewrite Ha, Hd, Hx, Hs. cbn [py_str].
  rewrite <- !app_assoc. cbn [app].
  apply yields_intro.
Qed.

Lemma Main2_animal_loop_ok (w : world) (name cd : string) (pd : option string)
    (total : nat) (items : list json) :
  Forall (fun v => laid_out_stylish w v = true) items ->
  forall (i : nat) (ps : list page) (tr : list event) (n : nat),
  yields
    (Main2.animal_loop w name cd pd (palette w) total i items
       {| pages := ps; cur := []; trace := tr; calls := n |})
    (Ok tt) (ps ++ Book2.animal_pages w name cd pd i n items) []
    (n + length items)%nat.
Proof.
  induction 1 as [|v rest Hv _ IH]; intros i ps tr n; simpl.
  - rewrite app_nil_r, Nat.add_0_r. apply yields_intro.
  - destruct (Main2_animal_step_ok w name cd pd total i v ps tr n Hv) as [tr1 Hstep].
    rewrite (bind_ok _ _ _ _ _ Hstep).
    destruct (IH (S i) (ps ++ [Book2.animal_page w name i v
                 (decoded w (images_generate w n (Book.prompt w cd pd v)))]) tr1 (S n))
      as [tr2 Hloop].
    rewrite Hloop. rewrite <- app_assoc, Nat.add_succ_r. apply yields_intro.
Qed.

Lemma Main2_chosen_ok (gender : string) (p : Main2.pronoun_entry) (st : state) :
  Main2.pronouns !! gender = Some p -> Main2.chosen gender st = (Ok p, st).
Proof. intros H. unfold Main2.chosen. now rewrite H. Qed.

(** The document [main2.py] assembles from records it lays out. *)
Lemma Main2_create_stylish_storybook_run (w : world) (name gender : string)
    (p : Main2.pronoun_entry) (items : list json) (pd : option string)
    (user_image : option user_photo) (st : state) :
  Main2.pronouns !! gender = Some p ->
  Forall (fun v => laid_out_stylish w v = true) items ->
  let doc :=
    Book2.cover name user_image :: Book2.intro w name p
    :: Book2.animal_pages w name (child_description_of name gender) pd 0 (calls st) items
    ++ [Book2.final name p] in
  yields (Main2.create_stylish_storybook w name gender (JArr items) pd user_image st)
         (Ok doc) doc [] (calls st + length items)%nat.
Proof.
  intros Hp Hwf doc. destruct st as [ps0 cu0 tr0 n0].
  unfold Main2.create_stylish_storybook.
  rewrite (bind_ok _ _ _ _ _ (Main2_chosen_ok gender p _ Hp)).
  change (shuffle (randbelow w) PASTEL_COLORS) with (palette w).
  cbn [py_len py_iter]. do 4 step.
  match goal with
  | |- context [bind (Main2.cover_photo ?u) _
                  {| pages := ?q; cur := ?c; trace := ?t; calls := ?k |}] =>
      destruct (Main2_cover_photo_ok u q c t k) as [tr1 Hcover]
  end.
  rewrite (bind_ok _ _ _ _ _ Hcover). do 2 step.
  rewrite first_color_palette. do 5 step.
  match goal with
  | |- context [bind (Main2.animal_loop w ?nm ?cd ?pd' ?pc ?total ?i ?l) _
                  {| pages := ?q; cur := []; trace := ?t; calls := ?k |}] =>
      destruct (Main2_animal_loop_ok w nm cd pd' total l Hwf i q t k) as [tr2 Hloop]
  end.
  rewrite (bind_ok _ _ _ _ _ Hloop).
  do 2 step.
  unfold save; proj. cbn [app].
  subst doc. unfold Book2.cover, Book2.intro, Book2.final.
  rewrite <- !app_assoc. cbn [app].
  apply yields_intro.
Qed.

(** The document [main2.py] assembles from well-formed records. *)
Lemma Main2_create_stylish_storybook_ok (w : world) (name gender : string)
    (p : Main2.pronoun_entry) (items : list json) (pd : option string)
    (user_image : option user_photo) (st : state) :
  Main2.pronouns !! gender = Some p ->
  Forall (fun v => well_formed v = true) items ->
  let doc :=
    Book2.cover name user_image :: Book2.intro w name p
    :: Book2.animal_pages w name (child_description_of name gender) pd 0 (calls st) items
    ++ [Book2.final name p] in
  yields (Main2.create_stylish_storybook w name gender (JArr items) pd user_image st)
         (Ok doc) doc [] (calls st + length items)%nat.
Proof.
  intros Hp Hwf.
  exact (Main2_create_stylish_storybook_run w name gender p items pd user_image st
           Hp (all_laid_out_stylish w items Hwf)).
Qed.

(** ** Page count and page order *)

Lemma Book_animal_pages_length (w : world) (name cd : string) (pd : option string)
    (n : nat) (items : list json) :
  length (Book.animal_pages w name cd pd n items) = length items.
Proof.
  revert n; induction items as [|v rest IH]; intros n; simpl; [reflexivity|].
  now rewrite IH.
Qed.

Lemma Book_animal_pages_lookup (w : world) (name cd : string) (pd : option string)
    (items : list json) (n k : nat) (v : json) :
  items !! k = Some v ->
  Book.animal_pages w name cd pd n items !! k =
    Some (Book.animal_page w name v
            (decoded w (images_generate w (n + k) (Book.prompt w cd pd v)))).
Proof.
  revert n k; induction items as [|u rest IH]; intros n k Hk; [discriminate Hk|].
  destruct k as [|k]; simpl in *.
  - injection Hk as ->. now rewrite Nat.add_0_r.
  - rewrite (IH (S n) k Hk). now rewrite Nat.add_succ_r.
Qed.

Lemma Book2_animal_pages_length (w : world) (name cd : string) (pd : option string)
    (i n : nat) (items : list json) :
  length (Book2.animal_pages w name cd pd i n items) = length items.
Proof.
  revert i n; induction items as [|v rest IH]; intros i n; simpl; [reflexivity|].
  now rewrite IH.
Qed.

Lemma Book2_animal_pages_lookup (w : world) (name cd : string) (pd : option string)
    (items : list json) (i n k : nat) (v : json) :
  items !! k = Some v ->
  Book2.animal_pages w name cd pd i n items !! k =
    Some (Book2.animal_page w name (i + k) v
            (decoded w (images_generate w (n + k) (Book.prompt w cd pd v)))).
Proof.
  revert i n k; induction items as [|u rest IH]; intros i n k Hk; [discriminate Hk|].
  destruct k as [|k]; simpl in *.
  - injection Hk as ->. now rewrite !Nat.add_0_r.
  - rewrite (IH (S i) (S n) k Hk). now rewrite !Nat.add_succ_r.
Qed.

(** A page of a document that starts with a cover and an intro page. *)
Lemma body_lookup (cover intro final p : page) (body : list page) (k : nat) :
  body !! k = Some p ->
  (cover :: intro :: body ++ [final]) !! (2 + k)%nat = Some p.
Proof. intros H. simpl. now apply lookup_app_l_Some. Qed.

Lemma body_length (cover intro final : page) (body : list page) :
  length (cover :: intro :: body ++ [final]) = (length body + 3)%nat.
Proof. simpl. rewrite length_app. simpl. lia. Qed.

(** C1: from [N] well-formed records both assemblers return a document of
    [N + 3] pages: the cover, the intro page, one page per record in the
    order of the records, and the end page.  ([main2.py] needs a gender of
    its pronoun table.) *)
Theorem storybook_pages (w : world) (name gender : string) (items : list json)
    (pd : option string) (user_image : option user_photo) (st : state) :
  Forall (fun v => well_formed v = true) items ->
  (exists doc body st',
      Main.create_storybook w name gender (JArr items) pd user_image st = (Ok doc, st')
      /\ doc = Book.cover name user_image :: Book.intro name :: body ++ [Book.final name]
      /\ length body = length items
      /\ length doc = (length items + 3)%nat
      /\ forall k v, items !! k = Some v ->
           exists img, body !! k = Some (Book.animal_page w name v img))
  /\ (forall p, Main2.pronouns !! gender = Some p ->
      exists doc body st',
        Main2.create_stylish_storybook w name gender (JArr items) pd user_image st
        = (Ok doc, st')
        /\ doc = Book2.cover name user_image :: Book2.intro w name p
                 :: body ++ [Book2.final name p]
        /\ length body = length items
        /\ length doc = (length items + 3)%nat
        /\ forall k v, items !! k = Some v ->
             exists img, body !! k = Some (Book2.animal_page w name k v img)).
Proof.
  intros Hwf. split.
  - destruct (Main_create_storybook_ok w name gender items pd user_image st Hwf)
      as [tr Hrun].
    eexists _, _, _. split; [exact Hrun|]. split; [reflexivity|].
    split; [apply Book_animal_pages_length|].
    split.
    + rewrite body_length. now rewrite Book_animal_pages_length.
    + intros k v Hk. eexists. now apply Book_animal_pages_lookup.
  - intros p Hp.
    destruct (Main2_create_stylish_storybook_ok w name gender p items pd user_image
                st Hp Hwf) as [tr Hrun].
    eexists _, _, _. split; [exact Hrun|]. split; [reflexivity|].
    split; [apply Book2_animal_pages_length|].
    split.
    + rewrite body_length. now rewrite Book2_animal_pages_length.
    + intros k v Hk. eexists.
      now rewrite (Book2_animal_pages_lookup _ _ _ _ _ 0 _ k v Hk).
Qed.

Lemma storybook_pages_witness :
  (exists doc body st',
      Main.create_storybook offline "Aanya" "he/him" (JArr five_records) None None initial
      = (Ok doc, st')
      /\ doc = Book.cover "Aanya" None :: Book.intro "Aanya" :: body ++ [Book.final "Aanya"]
      /\ length body = length five_records
      /\ length doc = (length five_records + 3)%nat
      /\ forall k v, five_records !! k = Some v ->
           exists img, body !! k = Some (Book.animal_page offline "Aanya" v img))
  /\ (exists doc body st',
        Main2.create_stylish_storybook offline "Aanya" "he/him" (JArr five_records)
          None None initial = (Ok doc, st')
        /\ doc = Book2.cover "Aanya" None
                 :: Book2.intro offline "Aanya" (Main2.Pronouns "he" "him" "his")
                 :: body ++ [Book2.final "Aanya" (Main2.Pronouns "he" "him" "his")]
        /\ length body = length five_records
        /\ length doc = (length five_records + 3)%nat
        /\ forall k v, five_records !! k = Some v ->
             exists img, body !! k = Some (Book2.animal_page offline "Aanya" k v img)).
Proof.
  destruct (storybook_pages offline "Aanya" "he/him" five_records None None initial)
    as [H1 H2].
  - repeat constructor.
  - split; [exact H1|].
    apply (H2 (Main2.Pronouns "he" "him" "his")).
    vm_compute. reflexivity.
Defined.

(** Five records give eight pages. *)
Example five_records_eight_pages :
  (exists doc, fst (Main.create_storybook offline "Aanya" "she/her" (JArr five_records)
                      None None initial) = Ok doc /\ length doc = 8%nat)
  /\ (exists doc, fst (Main2.create_stylish_storybook offline "Aanya" "she/her"
                         (JArr five_records) None None initial) = Ok doc
                  /\ length doc = 8%nat).
Proof. split; eexists; split; vm_compute; reflexivity. Qed.

(** ** A failed illustration *)

(** C3: when the illustration request of a record fails, the record's page
    is still laid out, with its three text lines and the text
    '[Illustration not available]' where the image would be, and every
    record of the sequence still gets its page. *)
Theorem failed_illustration_keeps_page (w : world) (name gender : string)
    (items : list json) (pd : option string) (user_image : option user_photo)
    (st : state) (k : nat) (v : json) :
  Forall (fun u => well_formed u = true) items ->
  items !! k = Some v ->
  images_generate w (calls st + k)
    (Book.prompt w (child_description_of name gender) pd v) = None ->
  (exists doc st',
      Main.create_storybook w name gender (JArr items) pd user_image st = (Ok doc, st')
      /\ length doc = (length items + 3)%nat
      /\ doc !! (2 + k)%nat =
           Some [ SetFont "Helvetica" 18;
                  DrawString 100 750
                    ("They sent " +:+ name +:+ " a " +:+ animal_of w v +:+ "...");
                  DrawString 100 720 ("but it was " +:+ description_of w v +:+ "!");
                  DrawString 100 690 (interaction_of w v);
                  DrawString 300 400 "[Illustration not available]" ]
      /\ forall j u, items !! j = Some u ->
           exists img, doc !! (2 + j)%nat = Some (Book.animal_page w name u img))
  /\ (forall p, Main2.pronouns !! gender = Some p ->
      exists doc st',
        Main2.create_stylish_storybook w name gender (JArr items) pd user_image st
        = (Ok doc, st')
        /\ length doc = (length items + 3)%nat
        /\ doc !! (2 + k)%nat =
             Some (background (page_color w k) ++ Book2.header w v
                   ++ [ SetFillColorRGB (RGB 20 20 40);
                        SetFont "Helvetica-BoldOblique" 18;
                        DrawString 90 700
                          ("They sent " +:+ name +:+ " a " +:+ animal_of w v +:+ "...");
                        SetFillColorRGB (RGB 50 10 10);
                        SetFont "Helvetica-Bold" 18;
                        DrawString 100 670 ("But it was " +:+ description_of w v +:+ "!");
                        SetFillColorRGB (RGB 20 30 20);
                        SetFont "Helvetica-Oblique" 18;
                        DrawString 90 640 (interaction_of w v);
                        SetStrokeColorRGB (RGB 50 50 70);
                        SetLineWidth 2;
                        Line 100 625 500 625;
                        DrawString 300 400 "[Illustration not available]" ]
                   ++ Main2.page_number k)
        /\ forall j u, items !! j = Some u ->
             exists img, doc !! (2 + j)%nat = Some (Book2.animal_page w name j u img)).
Proof.
  intros Hwf Hk Hfail. split.
  - destruct (Main_create_storybook_ok w name gender items pd user_image st Hwf)
      as [tr Hrun].
    eexists _, _. split; [exact Hrun|].
    split; [rewrite body_length; now rewrite Book_animal_pages_length|].
    split.
    + erewrite body_lookup; [reflexivity|].
      rewrite (Book_animal_pages_lookup _ _ _ _ _ _ k v Hk), Hfail. reflexivity.
    + intros j u Hj. eexists. apply body_lookup.
      now apply Book_animal_pages_lookup.
  - intros p Hp.
    destruct (Main2_create_stylish_storybook_ok w name gender p items pd user_image
                st Hp Hwf) as [tr Hrun].
    eexists _, _. split; [exact Hrun|].
    split; [rewrite body_length; now rewrite Book2_animal_pages_length|].
    split.
    + erewrite body_lookup; [reflexivity|].
      rewrite (Book2_animal_pages_lookup _ _ _ _ _ 0 _ k v Hk), Hfail. reflexivity.
    + intros j u Hj. eexists. apply body_lookup.
      now rewrite (Book2_animal_pages_lookup _ _ _ _ _ 0 _ j u Hj).
Qed.

Lemma failed_illustration_keeps_page_witness :
  (exists doc st',
      Main.create_storybook offline "Aanya" "she/her" (JArr five_records) None None initial
      = (Ok doc, st')
      /\ length doc = (length five_records + 3)%nat
      /\ doc !! (2 + 2)%nat =
           Some [ SetFont "Helvetica" 18;
                  DrawString 100 750
                    ("They sent " +:+ "Aanya" +:+ " a " +:+ animal_of offline lion +:+ "...");
                  DrawString 100 720 ("but it was " +:+ description_of offline lion +:+ "!");
                  DrawString 100 690 (interaction_of offline lion);
                  DrawString 300 400 "[Illustration not available]" ]
      /\ forall j u, five_records !! j = Some u ->
           exists img, doc !! (2 + j)%nat = Some (Book.animal_page offline "Aanya" u img))
  /\ (exists doc st',
        Main2.create_stylish_storybook offline "Aanya" "she/her" (JArr five_records)
          None None initial = (Ok doc, st')
        /\ length doc = (length five_records + 3)%nat
        /\ doc !! (2 + 2)%nat =
             Some (background (page_color offline 2) ++ Book2.header offline lion
                   ++ [ SetFillColorRGB (RGB 20 20 40);
                        SetFont "Helvetica-BoldOblique" 18;
                        DrawString 90 700
                          ("They sent " +:+ "Aanya" +:+ " a " +:+ animal_of offline lion +:+ "...");
                        SetFillColorRGB (RGB 50 10 10);
                        SetFont "Helvetica-Bold" 18;
                        DrawString 100 670 ("But it was " +:+ description_of offline lion +:+ "!");
                        SetFillColorRGB (RGB 20 30 20);
                        SetFont "Helvetica-Oblique" 18;
                        DrawString 90 640 (interaction_of offline lion);
                        SetStrokeColorRGB (RGB 50 50 70);
                        SetLineWidth 2;
                        Line 100 625 500 625;
                        DrawString 300 400 "[Illustration not available]" ]
                   ++ Main2.page_number 2)
        /\ forall j u, five_records !! j = Some u ->
             exists img,
               doc !! (2 + j)%nat = Some (Book2.animal_page offline "Aanya" j u img)).
Proof.
  destruct (failed_illustration_keeps_page offline "Aanya" "she/her" five_records
              None None initial 2 lion) as [H1 H2].
  - repeat constructor.
  - reflexivity.
  - reflexivity.
  - split; [exact H1|].
    apply (H2 (Main2.Pronouns "she" "her" "her")).
    vm_compute. reflexivity.
Defined.

(** The third page of the lion, as [main.py] draws it without network. *)
Example lion_page :
  exists doc,
    fst (Main.create_storybook offline "Aanya" "she/her" (JArr five_records)
           None None initial) = Ok doc
    /\ doc !! 4%nat =
         Some [ SetFont "Helvetica" 18;
                DrawString 100 750 "They sent Aanya a lion...";
                DrawString 100 720 "but it was too fierce!";
                DrawString 100 690 "The child roared back at the lion";
                DrawString 300 400 "[Illustration not available]" ].
Proof. eexists. split; vm_compute; reflexivity. Qed.

(** ** Pages laid out by [main3.py] *)

Lemma Main3_generate_ghibli_scene_ok (w : world) (cd : string) (v a x : json)
    (pd b d : option string) (ps : list page) (cu : list op) (tr : list event)
    (n : nat) :
  getitem v "animal" = Ok a ->
  getitem v "interaction" = Ok x ->
  yields
    (Main3.generate_ghibli_scene w cd v pd b d
       {| pages := ps; cur := cu; trace := tr; calls := n |})
    (Ok (images_generate w n (Book3.prompt w cd pd d v))) ps cu (S n).
Proof.
  intros Ha Hx.
  unfold Main3.generate_ghibli_scene, try_except. cbv beta.
  rewrite (bind_field _ _ _ _ _ _ Ha), (bind_field _ _ _ _ _ _ Hx).
  unfold Book3.prompt, animal_of, interaction_text, printed. rewrite Ha, Hx.
  unfold bind, request; proj. cbv zeta.
  destruct (images_generate w n _); cbv beta iota;
    unfold ret, emit; proj; apply yields_intro.
Qed.

Lemma Main3_illustration_ok (w : world) (a : string) (img_data : option string)
    (ps : list page) (cu : list op) (tr : list event) (n : nat) :
  yields
    (Main3.illustration w a img_data {| pages := ps; cur := cu; trace := tr; calls := n |})
    (Ok tt) ps (cu ++ Book2.picture (decoded w img_data)) n.
Proof.
  unfold Main3.illustration, decoded, truthy_opt.
  destruct img_data as [b64|]; cbv beta iota.
  - destruct (truthy b64); cbv beta iota.
    + unfold try_except, open_image. cbn [default from_option id]. cbv beta.
      destruct (image_open w b64); cbv beta iota.
      * rewrite bind_ret, bind_draw_all. unfold emit; proj. apply yields_intro.
      * unfold bind, raise, emit, draw; simpl. apply yields_intro.
    + apply yields_intro.
  - apply yields_intro.
Qed.

Lemma Main3_animal_step_ok (w : world) (name cd : string) (pd b d : option string)
    (total i : nat) (v : json) (ps : list page) (tr : list event) (n : nat) :
  laid_out_stylish w v = true ->
  yields
    (Main3.animal_step w name cd pd b d (palette w) total i v
       {| pages := ps; cur := []; trace := tr; calls := n |})
    (Ok tt)
    (ps ++ [Book3.animal_page w name i v
              (decoded w (images_generate w n (Book3.prompt w cd pd d v)))])
    [] (S n).
Proof.
  intros Hv.
  destruct (laid_out_stylish_fields w v Hv) as (a & de & x & s & Ha & Hd & Hx & Hs).
  unfold Main3.animal_step.
  rewrite (bind_field _ _ _ _ _ _ Ha). step.
  rewrite color_at_palette. do 3 step.
  rewrite (bind_titled _ _ _ _ _ _ _ Ha eq_refl). step.
  match goal with
  | |- context [bind (Main3.generate_ghibli_scene w cd v pd b d) _
                  {| pages := ?p; cur := ?c; trace := ?t; calls := ?k |}] =>
      destruct (Main3_generate_ghibli_scene_ok w cd v _ _ pd b d p c t k Ha Hx)
        as [tr1 Hgen]
  end.
  rewrite (bind_ok _ _ _ _ _ Hgen). step.
  rewrite (bind_field _ _ _ _ _ _ Ha). do 2 step.
  rewrite (bind_field _ _ _ _ _ _ Hd). do 2 step.
  rewrite (bind_drawn _ _ _ _ _ _ _ Hx Hs). do 2 step.
  match goal with
  | |- context [bind (Main3.illustration w ?a ?x) _
                  {| pages := ?p; cur := ?c; trace := ?t; calls := ?k |}] =>
      destruct (Main3_illustration_ok w a x p c t k) as [tr2 Hill]
  end.
  rewrite (bind_ok _ _ _ _ _ Hill). step.
  unfold showPage; proj.
  unfold Book3.animal_page, Book3.header, Book3.text_lines,
    animal_of, description_of, interaction_of, printed.
  rewrite Ha, Hd, Hx, Hs. cbn [py_str].
  rewrite <- !app_assoc. cbn [app].
  apply yields_intro.
Qed.

Lemma Main3_animal_loop_ok (w : world) (name cd : string) (pd b d : option string)
    (total : nat) (items : list json) :
  Forall (fun v => laid_out_stylish w v = true) items ->
  forall (i : nat) (ps : list page) (tr : list event) (n : nat),
  yields
    (Main3.animal_loop w name cd pd b d (palette w) total i items
       {| pages := ps; cur := []; trace := tr; calls := n |})
    (Ok tt) (ps ++ Book3.animal_pages w name cd pd d i n items) []
    (n + length items)%nat.
Proof.
  induction 1 as [|v rest Hv _ IH]; intros i ps tr n; simpl.
  - rewrite app_nil_r, Nat.add_0_r. apply yields_intro.
  - destruct (Main3_animal_step_ok w name cd pd b d total i v ps tr n Hv) as [tr1 Hstep].
    rewrite (bind_ok _ _ _ _ _ Hstep).
    destruct (IH (S i) (ps ++ [Book3.animal_page w name i v
                 (decoded w (images_generate w n (Book3.prompt w cd pd d v)))]) tr1 (S n))
      as [tr2 Hloop].
    rewrite Hloop. rewrite <- app_assoc, Nat.add_succ_r. apply yields_intro.
Qed.

(** The base-character step leaves the canvas alone and ends as [anchor]
    says. *)
Lemma Main3_character_base_ok (w : world) (name cd : string) (pd : option string)
    (ps : list page) (cu : list op) (tr : list event) (n : nat) :
  yields
    (Main3.character_base w name cd pd
       {| pages := ps; cur := cu; trace := tr; calls := n |})
    (fst (Book3.anchor w name cd pd n)) ps cu (snd (Book3.anchor w name cd pd n)).
Proof.
  unfold Main3.character_base, Book3.anchor, Main3.generate_ghibli_child_base,
    try_except, bind, request. proj. cbv zeta.
  destruct (images_generate w n _) as [b64|]; cbv beta iota.
  - unfold ret at 1. cbv beta iota. unfold truthy_opt at 1.
    destruct (truthy b64) eqn:Hb; cbv beta iota.
    + unfold emit at 1. cbv beta iota. proj.
      unfold open_image. cbn [default from_option id].
      destruct (image_open w b64); cbv beta iota.
      * unfold ret at 1. cbv beta iota. unfold emit at 1. cbv beta iota. proj.
        unfold Main3.generate_detailed_child_description, try_except, bind, request.
        unfold truthy_opt at 1. rewrite Hb. cbv beta iota. proj.
        cbn [default from_option id].
        destruct (chat_describe w (S n) b64) as [d|]; cbv beta iota zeta.
        -- unfold ret at 1. cbv beta iota. unfold truthy_opt.
           destruct (truthy (Main3.add_reference_photo d pd)); cbv beta iota;
             unfold emit, ret; cbv beta iota; proj; cbn [fst snd]; apply yields_intro.
        -- unfold emit at 1. cbv beta iota. unfold ret at 1. cbv beta iota.
           unfold truthy_opt, Main3.description_fallback. cbn [truthy String.append].
           unfold emit, ret; cbv beta iota; proj; cbn [fst snd]. apply yields_intro.
      * unfold raise. cbn [fst snd]. apply yields_intro.
    + unfold emit, ret; cbv beta iota; proj; cbn [fst snd]. apply yields_intro.
  - unfold emit at 1. cbv beta iota. unfold ret at 1. cbv beta iota.
    unfold truthy_opt. unfold emit, ret; cbv beta iota; proj; cbn [fst snd].
    apply yields_intro.
Qed.

Lemma Main3_chosen_ok (gender : string) (p : Main2.pronoun_entry) (st : state) :
  Main3.pronouns !! gender = Some p -> Main3.chosen gender st = (Ok p, st).
Proof. intros H. unfold Main3.chosen. now rewrite H. Qed.

(** The document [main3.py] assembles from records it lays out once the
    base-character step has ended with base image [b] and description [d]. *)
Lemma Main3_create_stylish_storybook_run (w : world) (name gender : string)
    (p : Main2.pronoun_entry) (items : list json) (pd : option string)
    (user_image : option user_photo) (st : state)
    (b d : option string) (n1 : nat) :
  Main3.pronouns !! gender = Some p ->
  Forall (fun v => laid_out_stylish w v = true) items ->
  Book3.anchor w name (child_description_of name gender) pd (calls st) = (Ok (b, d), n1) ->
  let doc :=
    Book3.cover name user_image :: Book3.intro w name p
    :: Book3.animal_pages w name (child_description_of name gender) pd d 0 n1 items
    ++ [Book3.final name p] in
  yields (Main3.create_stylish_storybook w name gender (JArr items) pd user_image st)
         (Ok doc) doc [] (n1 + length items)%nat.
Proof.
  intros Hp Hwf Hanchor doc. destruct st as [ps0 cu0 tr0 n0].
  unfold Main3.create_stylish_storybook.
  rewrite (bind_ok _ _ _ _ _ (Main3_chosen_ok gender p _ Hp)).
  change (shuffle (randbelow w) PASTEL_COLORS) with (palette w).
  cbn [py_len py_iter]. do 3 step.
  match goal with
  | |- context [bind (Main3.character_base w ?nm ?cd ?pd') _
                  {| pages := ?q; cur := ?c; trace := ?t; calls := ?k |}] =>
      destruct (Main3_character_base_ok w nm cd pd' q c t k) as [tr0' Hbase]
  end.
  cbn [calls] in Hanchor. rewrite Hanchor in Hbase. cbn [fst snd] in Hbase.
  rewrite (bind_ok _ _ _ _ _ Hbase). cbn [fst snd].
  step.
  match goal with
  | |- context [bind (Main2.cover_photo ?u) _
                  {| pages := ?q; cur := ?c; trace := ?t; calls := ?k |}] =>
      destruct (Main2_cover_photo_ok u q c t k) as [tr1 Hcover]
  end.
  rewrite (bind_ok _ _ _ _ _ Hcover). do 2 step.
  rewrite first_color_palette. do 5 step.
  match goal with
  | |- context [bind (Main3.animal_loop w ?nm ?cd ?pd' ?b' ?d' ?pc ?total ?i ?l) _
                  {| pages := ?q; cur := []; trace := ?t; calls := ?k |}] =>
      destruct (Main3_animal_loop_ok w nm cd pd' b' d' total l Hwf i q t k) as [tr2 Hloop]
  end.
  rewrite (bind_ok _ _ _ _ _ Hloop).
  do 2 step.
  unfold save; proj. cbn [app].
  subst doc. unfold Book3.cover, Book3.intro, Book3.final.
  rewrite <- !app_assoc. cbn [app].
  apply yields_intro.
Qed.

(** The document [main3.py] assembles from well-formed records. *)
Lemma Main3_create_stylish_storybook_ok (w : world) (name gender : string)
    (p : Main2.pronoun_entry) (items : list json) (pd : option string)
    (user_image : option user_photo) (st : state)
    (b d : option string) (n1 : nat) :
  Main3.pronouns !! gender = Some p ->
  Forall (fun v => well_formed v = true) items ->
  Book3.anchor w name (child_description_of name gender) pd (calls st) = (Ok (b, d), n1) ->
  let doc :=
    Book3.cover name user_image :: Book3.intro w name p
    :: Book3.animal_pages w name (child_description_of name gender) pd d 0 n1 items
    ++ [Book3.final name p] in
  yields (Main3.create_stylish_storybook w name gender (JArr items) pd user_image st)
         (Ok doc) doc [] (n1 + length items)%nat.
Proof.
  intros Hp Hwf Hanchor.
  exact (Main3_create_stylish_storybook_run w name gender p items pd user_image st
           b d n1 Hp (all_laid_out_stylish w items Hwf) Hanchor).
Qed.

Lemma Book3_animal_pages_length (w : world) (name cd : string) (pd d : option string)
    (i n : nat) (items : list json) :
  length (Book3.animal_pages w name cd pd d i n items) = length items.
Proof.
  revert i n; induction items as [|v rest IH]; intros i n; simpl; [reflexivity|].
  now rewrite IH.
Qed.

(** ** The pronoun table *)

Lemma Main2_pronouns_unknown (gender : string) :
  gender <> "she/her" -> gender <> "he/him" -> gender <> "they/them" ->
  Main2.pronouns !! gender = None.
Proof.
  intros H1 H2 H3. unfold Main2.pronouns.
  rewrite !lookup_insert_ne by congruence. now rewrite lookup_singleton_ne.
Qed.

Lemma Main3_pronouns_unknown (gender : string) :
  gender <> "she/her" -> gender <> "he/him" -> gender <> "they/them" ->
  Main3.pronouns !! gender = None.
Proof.
  intros H1 H2 H3. unfold Main3.pronouns.
  rewrite !lookup_insert_ne by congruence. now rewrite lookup_singleton_ne.
Qed.

Lemma Main2_pronouns_known (gender : string) (p : Main2.pronoun_entry) :
  Main2.pronouns !! gender = Some p ->
  gender = "she/her" \/ gender = "he/him" \/ gender = "they/them".
Proof.
  intros Hp.
  destruct (decide (gender = "she/her")) as [|H1]; [now left|].
  destruct (decide (gender = "he/him")) as [|H2]; [now right; left|].
  destruct (decide (gender = "they/them")) as [|H3]; [now right; right|].
  rewrite (Main2_pronouns_unknown gender H1 H2 H3) in Hp. discriminate Hp.
Qed.

Lemma Main3_pronouns_known (gender : string) (p : Main2.pronoun_entry) :
  Main3.pronouns !! gender = Some p ->
  gender = "she/her" \/ gender = "he/him" \/ gender = "they/them".
Proof.
  intros Hp.
  destruct (decide (gender = "she/her")) as [|H1]; [now left|].
  destruct (decide (gender = "he/him")) as [|H2]; [now right; left|].
  destruct (decide (gender = "they/them")) as [|H3]; [now right; right|].
  rewrite (Main3_pronouns_unknown gender H1 H2 H3) in Hp. discriminate Hp.
Qed.

(** C9: for a gender outside 'she/her', 'he/him', 'they/them' the
    storybook functions of [main2.py] and [main3.py] raise [KeyError] at the
    table lookup, before any page is drawn, any message written or any
    request issued; hence a run that returns a document had a gender of the
    table. *)
Theorem gender_outside_table_raises (w : world) (name gender : string)
    (story_data : json) (pd : option string) (user_image : option user_photo)
    (st : state) :
  (gender <> "she/her" -> gender <> "he/him" -> gender <> "they/them" ->
   Main2.create_stylish_storybook w name gender story_data pd user_image st
   = (Raise (KeyError gender), st)
   /\ Main3.create_stylish_storybook w name gender story_data pd user_image st
      = (Raise (KeyError gender), st))
  /\ (forall doc st',
        Main2.create_stylish_storybook w name gender story_data pd user_image st
        = (Ok doc, st')
        \/ Main3.create_stylish_storybook w name gender story_data pd user_image st
           = (Ok doc, st') ->
        gender = "she/her" \/ gender = "he/him" \/ gender = "they/them").
Proof.
  assert (Hraise :
    gender <> "she/her" -> gender <> "he/him" -> gender <> "they/them" ->
    Main2.create_stylish_storybook w name gender story_data pd user_image st
    = (Raise (KeyError gender), st)
    /\ Main3.create_stylish_storybook w name gender story_data pd user_image st
       = (Raise (KeyError gender), st)).
  { intros H1 H2 H3. split.
    - unfold Main2.create_stylish_storybook, Main2.chosen.
      rewrite (Main2_pronouns_unknown gender H1 H2 H3). reflexivity.
    - unfold Main3.create_stylish_storybook, Main3.chosen.
      rewrite (Main3_pronouns_unknown gender H1 H2 H3). reflexivity. }
  split; [exact Hraise|].
  intros doc st' Hrun.
  destruct (decide (gender = "she/her")) as [|H1]; [now left|].
  destruct (decide (gender = "he/him")) as [|H2]; [now right; left|].
  destruct (decide (gender = "they/them")) as [|H3]; [now right; right|].
  destruct (Hraise H1 H2 H3) as [R2 R3].
  destruct Hrun as [Hrun|Hrun]; [rewrite R2 in Hrun | rewrite R3 in Hrun];
    discriminate Hrun.
Qed.

Lemma gender_outside_table_raises_witness :
  (Main2.create_stylish_storybook offline "Aanya" "xe/xem" (JArr five_records)
     None None initial = (Raise (KeyError "xe/xem"), initial)
   /\ Main3.create_stylish_storybook offline "Aanya" "xe/xem" (JArr five_records)
        None None initial = (Raise (KeyError "xe/xem"), initial))
  /\ ("he/him" = "she/her" \/ "he/him" = "he/him" \/ "he/him" = "they/them").
Proof.
  split.
  - apply (proj1 (gender_outside_table_raises offline "Aanya" "xe/xem"
                    (JArr five_records) None None initial)); discriminate.
  - destruct (Main2.create_stylish_storybook offline "Aanya" "he/him"
                (JArr five_records) None None initial) as [r st'] eqn:Hrun.
    destruct r as [doc|e].
    + apply (proj2 (gender_outside_table_raises offline "Aanya" "he/him"
                      (JArr five_records) None None initial) doc st').
      left. exact Hrun.
    + vm_compute in Hrun. discriminate Hrun.
Defined.

(** ** Runs that return a document laid out every record *)

Ltac step_in H :=
  first [ rewrite bind_emit in H | rewrite bind_draw in H | rewrite bind_draw_all in H
        | rewrite bind_showPage in H | rewrite bind_new_canvas in H
        | rewrite bind_ret in H | rewrite bind_lift_ok in H ];
  cbn [pages cur trace calls] in H.

Lemma generate_ghibli_scene_frame (w : world) (cd : string) (v : json)
    (pd : option string) (ps : list page) (cu : list op) (tr : list event) (n : nat) :
  exists r n',
    yields (generate_ghibli_scene w cd v pd
              {| pages := ps; cur := cu; trace := tr; calls := n |})
           (Ok r) ps cu n'.
Proof.
  unfold generate_ghibli_scene, try_except. cbv beta.
  destruct (getitem v "animal") as [a|e] eqn:Ha.
  - rewrite (bind_field _ _ _ _ _ _ Ha).
    destruct (getitem v "interaction") as [x|e] eqn:Hx.
    + rewrite (bind_field _ _ _ _ _ _ Hx).
      unfold bind, request; proj. cbv zeta.
      destruct (images_generate w n _); cbv beta iota;
        unfold ret, emit; proj; eexists _, _; apply yields_intro.
    + rewrite (bind_field_raise _ _ _ _ _ _ Hx).
      unfold bind, ret, emit; proj. eexists _, _; apply yields_intro.
  - rewrite (bind_field_raise _ _ _ _ _ _ Ha).
    unfold bind, ret, emit; proj. eexists _, _; apply yields_intro.
Qed.

Lemma Main3_generate_ghibli_scene_frame (w : world) (cd : string) (v : json)
    (pd b d : option string) (ps : list page) (cu : list op) (tr : list event)
    (n : nat) :
  exists r n',
    yields (Main3.generate_ghibli_scene w cd v pd b d
              {| pages := ps; cur := cu; trace := tr; calls := n |})
           (Ok r) ps cu n'.
Proof.
  unfold Main3.generate_ghibli_scene, try_except. cbv beta.
  destruct (getitem v "animal") as [a|e] eqn:Ha.
  - rewrite (bind_field _ _ _ _ _ _ Ha).
    destruct (getitem v "interaction") as [x|e] eqn:Hx.
    + rewrite (bind_field _ _ _ _ _ _ Hx).
      unfold bind, request; proj. cbv zeta.
      destruct (images_generate w n _); cbv beta iota;
        unfold ret, emit; proj; eexists _, _; apply yields_intro.
    + rewrite (bind_field_raise _ _ _ _ _ _ Hx).
      unfold bind, ret, emit; proj. eexists _, _; apply yields_intro.
  - rewrite (bind_field_raise _ _ _ _ _ _ Ha).
    unfold bind, ret, emit; proj. eexists _, _; apply yields_intro.
Qed.

Lemma Main2_animal_step_laid_out (w : world) (name cd : string) (pd : option string)
    (total i : nat) (v : json) (st st' : state) :
  Main2.animal_step w name cd pd (palette w) total i v st = (Ok tt, st') ->
  laid_out_stylish w v = true.
Proof.
  intros H. destruct st as [ps cu tr n].
  unfold Main2.animal_step in H.
  destruct (getitem v "animal") as [a|e] eqn:Ha;
    [|rewrite (bind_field_raise _ _ _ _ _ _ Ha) in H; discriminate H].
  rewrite (bind_field _ _ _ _ _ _ Ha) in H. step_in H.
  rewrite color_at_palette in H. do 3 step_in H.
  destruct (titled_value w a) as [t|e] eqn:Ht;
    [|rewrite (bind_titled_raise _ _ _ _ _ _ _ Ha Ht) in H; discriminate H].
  rewrite (bind_titled _ _ _ _ _ _ _ Ha Ht) in H. step_in H.
  match type of H with
  | context [bind (generate_ghibli_scene w cd v pd) _
               {| pages := ?p; cur := ?c; trace := ?t; calls := ?k |}] =>
      destruct (generate_ghibli_scene_frame w cd v pd p c t k) as (r & n' & tr1 & Hgen)
  end.
  rewrite (bind_ok _ _ _ _ _ Hgen) in H. step_in H.
  rewrite (bind_field _ _ _ _ _ _ Ha) in H. do 2 step_in H.
  destruct (getitem v "description") as [d|e] eqn:Hd;
    [|rewrite (bind_field_raise _ _ _ _ _ _ Hd) in H; discriminate H].
  rewrite (bind_field _ _ _ _ _ _ Hd) in H. do 2 step_in H.
  destruct (getitem v "interaction") as [x|e] eqn:Hx;
    [|rewrite (bind_drawn_missing _ _ _ _ _ _ Hx) in H; discriminate H].
  destruct (drawn_value w x) as [s|e] eqn:Hs;
    [|rewrite (bind_drawn_raise _ _ _ _ _ _ _ Hx Hs) in H; discriminate H].
  unfold laid_out_stylish, laid_out. rewrite Ha, Hd, Hx, Hs.
  destruct a; try discriminate Ht. reflexivity.
Qed.

Lemma Main2_animal_loop_laid_out (w : world) (name cd : string) (pd : option string)
    (total : nat) (items : list json) :
  forall (i : nat) (st st' : state),
    Main2.animal_loop w name cd pd (palette w) total i items st = (Ok tt, st') ->
    Forall (fun v => laid_out_stylish w v = true) items.
Proof.
  induction items as [|v rest IH]; intros i st st' H; [constructor|].
  cbn [Main2.animal_loop] in H.
  destruct (Main2.animal_step w name cd pd (palette w) total i v st)
    as [[[]|e] st1] eqn:Hstep.
  - rewrite (bind_ok _ _ _ _ _ Hstep) in H.
    constructor; [eapply Main2_animal_step_laid_out; eassumption
                 | eapply IH; eassumption].
  - rewrite (bind_raise _ _ _ _ _ Hstep) in H. discriminate H.
Qed.

Lemma Main3_animal_step_laid_out (w : world) (name cd : string) (pd b d : option string)
    (total i : nat) (v : json) (st st' : state) :
  Main3.animal_step w name cd pd b d (palette w) total i v st = (Ok tt, st') ->
  laid_out_stylish w v = true.
Proof.
  intros H. destruct st as [ps cu tr n].
  unfold Main3.animal_step in H.
  destruct (getitem v "animal") as [a|e] eqn:Ha;
    [|rewrite (bind_field_raise _ _ _ _ _ _ Ha) in H; discriminate H].
  rewrite (bind_field _ _ _ _ _ _ Ha) in H. step_in H.
  rewrite color_at_palette in H. do 3 step_in H.
  destruct (titled_value w a) as [t|e] eqn:Ht;
    [|rewrite (bind_titled_raise _ _ _ _ _ _ _ Ha Ht) in H; discriminate H].
  rewrite (bind_titled _ _ _ _ _ _ _ Ha Ht) in H. step_in H.
  match type of H with
  | context [bind (Main3.generate_ghibli_scene w cd v pd b d) _
               {| pages := ?p; cur := ?c; trace := ?t; calls := ?k |}] =>
      destruct (Main3_generate_ghibli_scene_frame w cd v pd b d p c t k)
        as (r & n' & tr1 & Hgen)
  end.
  rewrite (bind_ok _ _ _ _ _ Hgen) in H. step_in H.
  rewrite (bind_field _ _ _ _ _ _ Ha) in H. do 2 step_in H.
  destruct (getitem v "description") as [de|e] eqn:Hd;
    [|rewrite (bind_field_raise _ _ _ _ _ _ Hd) in H; discriminate H].
  rewrite (bind_field _ _ _ _ _ _ Hd) in H. do 2 step_in H.
  destruct (getitem v "interaction") as [x|e] eqn:Hx;
    [|rewrite (bind_drawn_missing _ _ _ _ _ _ Hx) in H; discriminate H].
  destruct (drawn_value w x) as [s|e] eqn:Hs;
    [|rewrite (bind_drawn_raise _ _ _ _ _ _ _ Hx Hs) in H; discriminate H].
  unfold laid_out_stylish, laid_out. rewrite Ha, Hd, Hx, Hs.
  destruct a; try discriminate Ht. reflexivity.
Qed.

Lemma Main3_animal_loop_laid_out (w : world) (name cd : string) (pd b d : option string)
    (total : nat) (items : list json) :
  forall (i : nat) (st st' : state),
    Main3.animal_loop w name cd pd b d (palette w) total i items st = (Ok tt, st') ->
    Forall (fun v => laid_out_stylish w v = true) items.
Proof.
  induction items as [|v rest IH]; intros i st st' H; [constructor|].
  cbn [Main3.animal_loop] in H.
  destruct (Main3.animal_step w name cd pd b d (palette w) total i v st)
    as [[[]|e] st1] eqn:Hstep.
  - rewrite (bind_ok _ _ _ _ _ Hstep) in H.
    constructor; [eapply Main3_animal_step_laid_out; eassumption
                 | eapply IH; eassumption].
  - rewrite (bind_raise _ _ _ _ _ Hstep) in H. discriminate H.
Qed.

Lemma Main2_returns_laid_out (w : world) (name gender : string)
    (items : list json) (pd : option string) (user_image : option user_photo)
    (st st' : state) (doc : document) :
  Main2.create_stylish_storybook w name gender (JArr items) pd user_image st
  = (Ok doc, st') ->
  exists p, Main2.pronouns !! gender = Some p
            /\ Forall (fun v => laid_out_stylish w v = true) items.
Proof.
  intros H. destruct st as [ps0 cu0 tr0 n0].
  unfold Main2.create_stylish_storybook in H.
  destruct (Main2.pronouns !! gender) as [p|] eqn:Hp.
  2: { unfold Main2.chosen in H. rewrite Hp in H. discriminate H. }
  exists p. split; [reflexivity|].
  rewrite (bind_ok _ _ _ _ _ (Main2_chosen_ok gender p _ Hp)) in H.
  change (shuffle (randbelow w) PASTEL_COLORS) with (palette w) in H.
  cbn [py_len py_iter] in H. do 4 step_in H.
  match type of H with
  | context [bind (Main2.cover_photo ?u) _
               {| pages := ?q; cur := ?c; trace := ?t; calls := ?k |}] =>
      destruct (Main2_cover_photo_ok u q c t k) as [tr1 Hcover]
  end.
  rewrite (bind_ok _ _ _ _ _ Hcover) in H. do 2 step_in H.
  rewrite first_color_palette in H. do 5 step_in H.
  match type of H with
  | context [bind (Main2.animal_loop w ?nm ?cd ?pd' ?pc ?total ?i ?l) _ ?s] =>
      destruct (Main2.animal_loop w nm cd pd' pc total i l s) as [[[]|e] s1] eqn:Hloop
  end.
  - eapply Main2_animal_loop_laid_out; eassumption.
  - rewrite (bind_raise _ _ _ _ _ Hloop) in H. discriminate H.
Qed.

Lemma Main3_returns_laid_out (w : world) (name gender : string)
    (items : list json) (pd : option string) (user_image : option user_photo)
    (st st' : state) (doc : document) :
  Main3.create_stylish_storybook w name gender (JArr items) pd user_image st
  = (Ok doc, st') ->
  exists p b d n1,
    Main3.pronouns !! gender = Some p
    /\ Book3.anchor w name (child_description_of name gender) pd (calls st)
       = (Ok (b, d), n1)
    /\ Forall (fun v => laid_out_stylish w v = true) items.
Proof.
  intros H. destruct st as [ps0 cu0 tr0 n0].
  unfold Main3.create_stylish_storybook in H.
  destruct (Main3.pronouns !! gender) as [p|] eqn:Hp.
  2: { unfold Main3.chosen in H. rewrite Hp in H. discriminate H. }
  rewrite (bind_ok _ _ _ _ _ (Main3_chosen_ok gender p _ Hp)) in H.
  change (shuffle (randbelow w) PASTEL_COLORS) with (palette w) in H.
  cbn [py_len py_iter] in H. do 3 step_in H.
  match type of H with
  | context [bind (Main3.character_base w ?nm ?cd ?pd') _
               {| pages := ?q; cur := ?c; trace := ?t; calls := ?k |}] =>
      destruct (Main3_character_base_ok w nm cd pd' q c t k) as [tr0' Hbase]
  end.
  cbn [calls].
  destruct (Book3.anchor w name (child_description_of name gender) pd n0)
    as [[[b d]|e] n1] eqn:Hanchor; cbn [fst snd] in Hbase.
  2: { rewrite (bind_raise _ _ _ _ _ Hbase) in H. discriminate H. }
  exists p, b, d, n1. split; [reflexivity|]. split; [reflexivity|].
  rewrite (bind_ok _ _ _ _ _ Hbase) in H. cbn [fst snd] in H.
  step_in H.
  match type of H with
  | context [bind (Main2.cover_photo ?u) _
               {| pages := ?q; cur := ?c; trace := ?t; calls := ?k |}] =>
      destruct (Main2_cover_photo_ok u q c t k) as [tr1 Hcover]
  end.
  rewrite (bind_ok _ _ _ _ _ Hcover) in H. do 2 step_in H.
  rewrite first_color_palette in H. do 5 step_in H.
  match type of H with
  | context [bind (Main3.animal_loop w ?nm ?cd ?pd' ?b' ?d' ?pc ?total ?i ?l) _ ?s] =>
      destruct (Main3.animal_loop w nm cd pd' b' d' pc total i l s)
        as [[[]|e] s1] eqn:Hloop
  end.
  - eapply Main3_animal_loop_laid_out; eassumption.
  - rewrite (bind_raise _ _ _ _ _ Hloop) in H. discriminate H.
Qed.

Lemma palette_first (w : world) : palette w !! 0%nat = Some (page_color w 0).
Proof.
  pose proof (first_color_palette w) as H. unfold first_color in H.
  destruct (palette w !! 0%nat); [now injection H as -> | discriminate H].
Qed.

(** ** The colour of the intro page *)

Lemma palette_lookup (w : world) (i : nat) :
  palette w !! (i mod length (palette w))%nat = Some (page_color w i).
Proof.
  pose proof (color_at_palette w i) as H. unfold color_at in H.
  rewrite palette_length in *.
  destruct (palette w !! (i mod 8)%nat); [now injection H as -> | discriminate H].
Qed.

Lemma Book3_animal_pages_lookup (w : world) (name cd : string) (pd d : option string)
    (items : list json) (i n k : nat) (v : json) :
  items !! k = Some v ->
  Book3.animal_pages w name cd pd d i n items !! k =
    Some (Book3.animal_page w name (i + k) v
            (decoded w (images_generate w (n + k) (Book3.prompt w cd pd d v)))).
Proof.
  revert i n k; induction items as [|u rest IH]; intros i n k Hk; [discriminate Hk|].
  destruct k as [|k]; simpl in *.
  - injection Hk as ->. now rewrite !Nat.add_0_r.
  - rewrite (IH (S i) (S n) k Hk). now rewrite !Nat.add_succ_r.
Qed.

(** C10: in every run of the shuffled-palette variants that returns a
    document for at least one record, the intro page (second page) and the
    first animal page (third page) are filled with the same colour, the
    first entry of the shuffled palette; animal page [i] is filled with
    entry [i mod palette-length]. *)
Theorem intro_and_first_animal_share_color (w : world) (name gender : string)
    (v : json) (rest : list json) (pd : option string)
    (user_image : option user_photo) (st st' : state) (doc : document) :
  Main2.create_stylish_storybook w name gender (JArr (v :: rest)) pd user_image st
  = (Ok doc, st')
  \/ Main3.create_stylish_storybook w name gender (JArr (v :: rest)) pd user_image st
     = (Ok doc, st') ->
  let page_colors := shuffle (randbelow w) PASTEL_COLORS in
  (exists c intro first,
      page_colors !! 0%nat = Some c
      /\ doc !! 1%nat = Some intro
      /\ doc !! 2%nat = Some first
      /\ page_background intro = Some c
      /\ page_background first = Some c)
  /\ (forall i u, (v :: rest) !! i = Some u ->
        exists pg, doc !! (2 + i)%nat = Some pg
                   /\ page_background pg = page_colors !! (i mod length page_colors)%nat).
Proof.
  intros [H|H] page_colors; subst page_colors;
    change (shuffle (randbelow w) PASTEL_COLORS) with (palette w).
  - destruct (Main2_returns_laid_out _ _ _ _ _ _ _ _ _ H) as (p & Hp & Hwf).
    destruct (Main2_create_stylish_storybook_run w name gender p (v :: rest) pd
                user_image st Hp Hwf) as [tr Hrun].
    rewrite Hrun in H. injection H as Hdoc _. subst doc. split.
    + eexists _, _, _. split; [apply palette_first|].
      split; [reflexivity|]. split; [reflexivity|]. split; reflexivity.
    + intros i u Hi. eexists. split.
      * apply (body_lookup _ _ _ _
                 (Book2.animal_pages w name (child_description_of name gender) pd
                    0 (calls st) (v :: rest))).
        exact (Book2_animal_pages_lookup _ _ _ _ _ _ _ _ _ Hi).
      * rewrite palette_lookup. reflexivity.
  - destruct (Main3_returns_laid_out _ _ _ _ _ _ _ _ _ H)
      as (p & b & d & n1 & Hp & Hanchor & Hwf).
    destruct (Main3_create_stylish_storybook_run w name gender p (v :: rest) pd
                user_image st b d n1 Hp Hwf Hanchor) as [tr Hrun].
    rewrite Hrun in H. injection H as Hdoc _. subst doc. split.
    + eexists _, _, _. split; [apply palette_first|].
      split; [reflexivity|]. split; [reflexivity|]. split; reflexivity.
    + intros i u Hi. eexists. split.
      * apply (body_lookup _ _ _ _
                 (Book3.animal_pages w name (child_description_of name gender) pd d
                    0 n1 (v :: rest))).
        exact (Book3_animal_pages_lookup _ _ _ _ _ _ _ _ _ _ Hi).
      * rewrite palette_lookup. reflexivity.
Qed.

Lemma intro_and_first_animal_share_color_witness :
  exists doc st',
    Main2.create_stylish_storybook offline "Aanya" "she/her" (JArr five_records)
      None None initial = (Ok doc, st')
    /\ (exists c intro first,
          shuffle (randbelow offline) PASTEL_COLORS !! 0%nat = Some c
          /\ doc !! 1%nat = Some intro
          /\ doc !! 2%nat = Some first
          /\ page_background intro = Some c
          /\ page_background first = Some c).
Proof.
  destruct (Main2.create_stylish_storybook offline "Aanya" "she/her"
              (JArr five_records) None None initial) as [[doc|e] st'] eqn:Hrun.
  - exists doc, st'. split; [reflexivity|].
    exact (proj1 (intro_and_first_animal_share_color offline "Aanya" "she/her"
                    _ _ None None initial st' doc (or_introl Hrun))).
  - vm_compute in Hrun. discriminate Hrun.
Defined.

(** With every draw equal to zero the shuffle rotates the palette by one:
    the intro page and the first animal page are light green. *)
Example offline_palette :
  shuffle (randbelow offline) PASTEL_COLORS =
    [ RGB 95 100 95; RGB 95 95 100; RGB 100 100 95; RGB 100 95 100;
      RGB 95 100 100; RGB 100 98 90; RGB 97 95 100; RGB 100 95 95 ].
Proof. vm_compute. reflexivity. Qed.

(** ** Pronouns *)



(** Only the subject form of the chosen record is ever printed. *)
Lemma only_subject_is_printed (w : world) (name : string)
    (p q : Main2.pronoun_entry) :
  Main2.subject p = Main2.subject q ->
  Book2.intro w name p = Book2.intro w name q
  /\ Book2.final name p = Book2.final name q
  /\ Book3.intro w name p = Book3.intro w name q
  /\ Book3.final name p = Book3.final name q.
Proof.
  intros H.
  unfold Book2.intro, Book2.final, Book3.intro, Book3.final,
    Main2.intro_ops, Main2.end_ops, Main3.intro_ops, Main3.end_ops.
  now rewrite H.
Qed.

(** ** The base character of [main3.py] *)

(** C7 as stated fails: when the base image cannot be generated, no
    fallback description is substituted; the detailed description is absent,
    and the scene requests that follow carry the plain prompt of [main2.py],
    without any description of the child. *)
Lemma base_image_failure_leaves_no_description :
  fst (Main3.character_base offline "Aanya" (child_description_of "Aanya" "she/her")
         None initial) = Ok (None, None)
  /\ posts (trace (snd (Main3.create_stylish_storybook offline "Aanya" "she/her"
                          (JArr five_records) None None initial))) !! 1%nat
     = Some (Post images_url
               (scene_prompt (child_description_of "Aanya" "she/her") "elephant"
                  "The child measured the elephant with a tape measure")).
Proof. split; vm_compute; reflexivity. Qed.

(** C7, as amended: with a gender of the table and well-formed records,
    - when the base image request fails, the step ends without a detailed
      description (no fallback string) and the storybook is assembled, one
      illustration request per record;
    - when the base image is generated and opens but the description request
      fails, the hard-coded string 'A child named X in Ghibli style ...' is
      the description, and the storybook is assembled;
    - when the description request answers with an empty text and there is
      no photo description, the hard-coded string 'A child named X with
      Ghibli-style features ...' is the description;
    - when it answers with an empty text and there is a photo description,
      no fallback is substituted: the description is the sentence about the
      reference photo alone;
    and in the last two cases too the storybook is assembled. *)
Theorem base_character_failures_absorbed (w : world) (name gender : string)
    (p : Main2.pronoun_entry) (items : list json) (pd : option string)
    (user_image : option user_photo) (st : state) :
  Main3.pronouns !! gender = Some p ->
  Forall (fun v => well_formed v = true) items ->
  let cd := child_description_of name gender in
  let base_request := with_photo (Main3.base_prompt cd) pd in
  (images_generate w (calls st) base_request = None ->
   (exists st1, Main3.character_base w name cd pd st = (Ok (None, None), st1))
   /\ exists doc st',
        Main3.create_stylish_storybook w name gender (JArr items) pd user_image st
        = (Ok doc, st')
        /\ length doc = (length items + 3)%nat
        /\ calls st' = (calls st + 1 + length items)%nat)
  /\ (forall b64 img,
        images_generate w (calls st) base_request = Some b64 ->
        truthy b64 = true ->
        image_open w b64 = Some img ->
        chat_describe w (S (calls st)) b64 = None ->
        (exists st1,
            Main3.character_base w name cd pd st
            = (Ok (Some b64,
                   Some ("A child named " +:+ name
                         +:+ " in Ghibli style with soft features and expressive eyes")),
               st1))
        /\ exists doc st',
             Main3.create_stylish_storybook w name gender (JArr items) pd user_image st
             = (Ok doc, st')
             /\ length doc = (length items + 3)%nat
             /\ calls st' = (calls st + 2 + length items)%nat)
  /\ (forall b64 img,
        images_generate w (calls st) base_request = Some b64 ->
        truthy b64 = true ->
        image_open w b64 = Some img ->
        chat_describe w (S (calls st)) b64 = Some EmptyString ->
        (truthy_opt pd = false ->
         exists st1,
           Main3.character_base w name cd pd st
           = (Ok (Some b64,
                  Some ("A child named " +:+ name
                        +:+ " with Ghibli-style features and expressive eyes")),
              st1))
        /\ (forall q, pd = Some q -> truthy q = true ->
            exists st1,
              Main3.character_base w name cd pd st
              = (Ok (Some b64,
                     Some (newline +:+ newline
                           +:+ "Additional distinctive features from the reference photo: "
                           +:+ q)),
                 st1))
        /\ exists doc st',
             Main3.create_stylish_storybook w name gender (JArr items) pd user_image st
             = (Ok doc, st')
             /\ length doc = (length items + 3)%nat
             /\ calls st' = (calls st + 2 + length items)%nat).
Proof.
  intros Hp Hwf cd base_request.
  assert (Hgen : forall b d n1,
             Book3.anchor w name cd pd (calls st) = (Ok (b, d), n1) ->
             (exists st1, Main3.character_base w name cd pd st = (Ok (b, d), st1))
             /\ exists doc st',
                  Main3.create_stylish_storybook w name gender (JArr items) pd
                    user_image st = (Ok doc, st')
                  /\ length doc = (length items + 3)%nat
                  /\ calls st' = (n1 + length items)%nat).
  { intros b d n1 Hanchor. split.
    - destruct st as [ps cu tr n].
      destruct (Main3_character_base_ok w name cd pd ps cu tr n) as [tr1 Hbase].
      cbn [calls] in Hanchor. rewrite Hanchor in Hbase. eexists. exact Hbase.
    - destruct (Main3_create_stylish_storybook_ok w name gender p items pd
                  user_image st b d n1 Hp Hwf Hanchor) as [tr Hrun].
      eexists _, _. split; [exact Hrun|]. split; [|reflexivity].
      rewrite body_length. now rewrite Book3_animal_pages_length. }
  split; [|split].
  - intros Hfail.
    destruct (Hgen None None (S (calls st))) as [Hbase Hrun].
    { unfold Book3.anchor. fold cd. fold base_request. now rewrite Hfail. }
    split; [exact Hbase|].
    destruct Hrun as (doc & st' & Hrun & Hlen & Hcalls).
    exists doc, st'. repeat split; try assumption. lia.
  - intros b64 img Hb Htruthy Himg Hfail.
    destruct (Hgen (Some b64) (Some (Main3.description_fallback name))
                (S (S (calls st)))) as [Hbase Hrun].
    { unfold Book3.anchor. fold cd. fold base_request.
      now rewrite Hb, Htruthy, Himg, Hfail. }
    split; [exact Hbase|].
    destruct Hrun as (doc & st' & Hrun & Hlen & Hcalls).
    exists doc, st'. repeat split; try assumption. lia.
  - intros b64 img Hb Htruthy Himg Hd.
    assert (Hanchor :
      Book3.anchor w name cd pd (calls st)
      = (Ok (Some b64,
             Some (if truthy (Main3.add_reference_photo EmptyString pd)
                   then Main3.add_reference_photo EmptyString pd
                   else Main3.simplified_description name)),
         S (S (calls st)))).
    { unfold Book3.anchor. fold cd. fold base_request.
      now rewrite Hb, Htruthy, Himg, Hd. }
    destruct (Hgen _ _ _ Hanchor) as [Hbase Hrun].
    split; [|split].
    + intros Hno.
      assert (Hempty : Main3.add_reference_photo EmptyString pd = EmptyString).
      { unfold Main3.add_reference_photo.
        destruct pd as [q|]; [|reflexivity].
        cbn [truthy_opt] in Hno. now rewrite Hno. }
      rewrite Hempty in Hbase. exact Hbase.
    + intros q -> Hq.
      assert (Hphoto : Main3.add_reference_photo EmptyString (Some q)
                       = newline +:+ newline
                         +:+ "Additional distinctive features from the reference photo: "
                         +:+ q).
      { unfold Main3.add_reference_photo. now rewrite Hq. }
      rewrite Hphoto in Hbase. exact Hbase.
    + destruct Hrun as (doc & st' & Hrun & Hlen & Hcalls).
      exists doc, st'. repeat split; try assumption. lia.
Qed.

Lemma base_character_failures_absorbed_witness :
  ((exists st1,
       Main3.character_base offline "Aanya" (child_description_of "Aanya" "she/her")
         None initial = (Ok (None, None), st1))
   /\ exists doc st',
        Main3.create_stylish_storybook offline "Aanya" "she/her" (JArr five_records)
          None None initial = (Ok doc, st')
        /\ length doc = (length five_records + 3)%nat
        /\ calls st' = (calls initial + 1 + length five_records)%nat)
  /\ ((exists st1,
          Main3.character_base (studio None) "Aanya"
            (child_description_of "Aanya" "she/her") None initial
          = (Ok (Some "iVBOR",
                 Some ("A child named " +:+ "Aanya"
                       +:+ " in Ghibli style with soft features and expressive eyes")),
             st1))
      /\ exists doc st',
           Main3.create_stylish_storybook (studio None) "Aanya" "she/her"
             (JArr five_records) None None initial = (Ok doc, st')
           /\ length doc = (length five_records + 3)%nat
           /\ calls st' = (calls initial + 2 + length five_records)%nat)
  /\ ((exists st1,
          Main3.character_base (studio (Some EmptyString)) "Aanya"
            (child_description_of "Aanya" "she/her") None initial
          = (Ok (Some "iVBOR",
                 Some ("A child named " +:+ "Aanya"
                       +:+ " with Ghibli-style features and expressive eyes")),
             st1))
      /\ exists doc st',
           Main3.create_stylish_storybook (studio (Some EmptyString)) "Aanya" "she/her"
             (JArr five_records) None None initial = (Ok doc, st')
           /\ length doc = (length five_records + 3)%nat
           /\ calls st' = (calls initial + 2 + length five_records)%nat)
  /\ ((exists st1,
          Main3.character_base (studio (Some EmptyString)) "Aanya"
            (child_description_of "Aanya" "she/her") (Some "round face") initial
          = (Ok (Some "iVBOR",
                 Some (newline +:+ newline
                       +:+ "Additional distinctive features from the reference photo: "
                       +:+ "round face")),
             st1))
      /\ exists doc st',
           Main3.create_stylish_storybook (studio (Some EmptyString)) "Aanya" "she/her"
             (JArr five_records) (Some "round face") None initial = (Ok doc, st')
           /\ length doc = (length five_records + 3)%nat
           /\ calls st' = (calls initial + 2 + length five_records)%nat).
Proof.
  assert (Hp : Main3.pronouns !! "she/her" = Some (Main2.Pronouns "she" "her" "her"))
    by (vm_compute; reflexivity).
  assert (Hwf : Forall (fun v => well_formed v = true) five_records)
    by (repeat constructor).
  split; [|split; [|split]].
  - apply (proj1 (base_character_failures_absorbed offline "Aanya" "she/her" _
                    five_records None None initial Hp Hwf)).
    reflexivity.
  - apply (proj1 (proj2 (base_character_failures_absorbed (studio None) "Aanya"
                           "she/her" _ five_records None None initial Hp Hwf))
             "iVBOR" (Image "iVBOR")); reflexivity.
  - destruct (proj2 (proj2 (base_character_failures_absorbed (studio (Some EmptyString))
                              "Aanya" "she/her" _ five_records None None initial Hp Hwf))
                "iVBOR" (Image "iVBOR") eq_refl eq_refl eq_refl eq_refl)
      as (Hfallback & _ & Hrun).
    split; [exact (Hfallback eq_refl) | exact Hrun].
  - destruct (proj2 (proj2 (base_character_failures_absorbed (studio (Some EmptyString))
                              "Aanya" "she/her" _ five_records (Some "round face") None
                              initial Hp Hwf))
                "iVBOR" (Image "iVBOR") eq_refl eq_refl eq_refl eq_refl)
      as (_ & Hphoto & Hrun).
    split; [exact (Hphoto "round face" eq_refl eq_refl) | exact Hrun].
Defined.

(** A base image that cannot be opened is not absorbed: [Image.open] of the
    base image is outside any [try], and the exception leaves
    [create_stylish_storybook].  The same payload on an animal page only
    costs the illustration. *)
Example undecodable_base_image_raises :
  fst (Main3.create_stylish_storybook garbled "Aanya" "she/her" (JArr five_records)
         None None initial) = Raise ImageError
  /\ exists doc,
       fst (Main2.create_stylish_storybook garbled "Aanya" "she/her" (JArr five_records)
              None None initial) = Ok doc
       /\ length doc = 8%nat.
Proof. split; [vm_compute; reflexivity|]. eexists. split; vm_compute; reflexivity. Qed.

(** [main.py] never reads its pronoun table: any gender is accepted. *)
Example main_py_accepts_any_gender :
  exists doc,
    fst (Main.create_storybook offline "Aanya" "xe/xem" (JArr five_records)
           None None initial) = Ok doc
    /\ length doc = 8%nat.
Proof. eexists. split; vm_compute; reflexivity. Qed.

(** * Further properties *)

(** ** Text extraction: failures and length *)

Lemma extract_loop_raises (ps : list (option string)) (acc : string) (st : state) :
  In None ps -> extract_loop acc ps st = (Raise PdfError, st).
Proof.
  revert acc; induction ps as [|p ps IH]; intros acc Hin; [destruct Hin|].
  destruct p as [t|]; simpl.
  - rewrite bind_ret. apply IH. destruct Hin as [H|H]; [discriminate H | exact H].
  - reflexivity.
Qed.

Lemma all_pages_read (ps : list (option string)) :
  ~ In None ps -> exists texts, ps = map Some texts.
Proof.
  induction ps as [|p ps IH]; intros Hnot.
  - exists []. reflexivity.
  - destruct p as [t|].
    + destruct IH as [texts ->]; [intros H; apply Hnot; now right|].
      exists (t :: texts). reflexivity.
    + exfalso. apply Hnot. now left.
Qed.

Lemma extract_readable (texts : list string) (st : state) :
  extract_text_from_pdf (Pdf (map Some texts)) st = (Ok (Some (lines texts)), st).
Proof.
  unfold extract_text_from_pdf, try_except, bind; simpl.
  now rewrite extract_loop_lines, append_empty_l.
Qed.

(** X1: the extractor answers [None] exactly when the file cannot be opened
    or the extraction of some page raises; it then reports one error, and
    the text of the pages read before the failing one is dropped. *)
Theorem extract_text_from_pdf_none (pdf : pdf_file) (st : state) :
  let failing := pdf = Unreadable \/ exists ps, pdf = Pdf ps /\ In None ps in
  (failing ->
   extract_text_from_pdf pdf st =
     (Ok None, {| pages := pages st; cur := cur st;
                  trace := trace st ++ [StError "Error reading PDF: " (Some PdfError)];
                  calls := calls st |}))
  /\ (forall st', extract_text_from_pdf pdf st = (Ok None, st') -> failing).
Proof.
  intros failing; subst failing. split.
  - intros [->|(ps & -> & Hin)].
    + reflexivity.
    + unfold extract_text_from_pdf, try_except, bind; simpl.
      now rewrite (extract_loop_raises ps EmptyString st Hin).
  - intros st' H. destruct pdf as [|ps]; [now left|].
    right. exists ps. split; [reflexivity|].
    destruct (In_dec (fun a b : option string => decide (a = b)) None ps) as [Hin|Hnot];
      [exact Hin|].
    destruct (all_pages_read ps Hnot) as [texts ->].
    rewrite extract_readable in H. discriminate H.
Qed.

Lemma extract_text_from_pdf_none_witness :
  extract_text_from_pdf (Pdf [Some "Dear zoo"; None; Some "The end"]) initial =
    (Ok None, {| pages := []; cur := [];
                 trace := [StError "Error reading PDF: " (Some PdfError)];
                 calls := 0 |})
  /\ (Unreadable = Unreadable \/ exists ps, Unreadable = Pdf ps /\ In None ps).
Proof.
  split.
  - apply (proj1 (extract_text_from_pdf_none
                    (Pdf [Some "Dear zoo"; None; Some "The end"]) initial)).
    right. eexists. split; [reflexivity|]. right; left; reflexivity.
  - apply (proj2 (extract_text_from_pdf_none Unreadable initial)
             {| pages := []; cur := [];
                trace := [StError "Error reading PDF: " (Some PdfError)];
                calls := 0 |}).
    reflexivity.
Defined.

Lemma length_append (a b : string) :
  String.length (a +:+ b) = (String.length a + String.length b)%nat.
Proof.
  induction a as [|x a IH]; [reflexivity|].
  rewrite append_cons. simpl. now rewrite IH.
Qed.

Lemma length_lines (texts : list string) :
  String.length (lines texts) = (total_length texts + length texts)%nat.
Proof.
  induction texts as [|t rest IH]; [reflexivity|].
  cbn [lines total_length length]. rewrite !length_append, IH.
  change (String.length newline) with 1%nat. lia.
Qed.

(** X2: when every page is read, the extractor returns a text whose length
    is the total length of the page texts plus one per page, and leaves the
    state alone.  The text is therefore empty only for a document without
    pages: blank pages still pass the 'no text' guard of the handler. *)
Theorem extract_text_from_pdf_length (texts : list string) (st : state) :
  exists text,
    extract_text_from_pdf (Pdf (map Some texts)) st = (Ok (Some text), st)
    /\ String.length text = (total_length texts + length texts)%nat
    /\ (truthy text = false <-> texts = []).
Proof.
  exists (lines texts). split; [apply extract_readable|].
  split; [apply length_lines|].
  destruct texts as [|t rest]; [now split|].
  split; [|discriminate].
  pose proof (length_lines (t :: rest)) as Hlen.
  destruct (lines (t :: rest)); [|discriminate].
  cbn [String.length length] in Hlen. lia.
Qed.

Lemma extract_text_from_pdf_length_witness :
  exists text,
    extract_text_from_pdf (Pdf (map Some [EmptyString; EmptyString])) initial
    = (Ok (Some text), initial)
    /\ String.length text = (total_length [EmptyString; EmptyString] + 2)%nat
    /\ (truthy text = false <-> [EmptyString; EmptyString] = []).
Proof. exact (extract_text_from_pdf_length [EmptyString; EmptyString] initial). Defined.

(** ** The handler of [main.py] and [main2.py]: every way to end without a
    document *)

Section Handler.

Variable storybook :
  world -> string -> string -> json -> option string -> option user_photo -> M document.

(** An exception of the [try] body ends the run: it is reported twice and
    nothing else happens. *)
Lemma on_click_raise (w : world) (inp : inputs) (pdf : pdf_file) (st s : state)
    (e : exn) :
  original_pdf inp = Some pdf ->
  truthy_opt (OPENAI_API_KEY w) = true ->
  pipeline storybook w inp pdf st = (Raise e, s) ->
  exists st2,
    on_click storybook w inp st = (Ok None, st2)
    /\ pages st2 = pages s
    /\ calls st2 = calls s
    /\ downloads (trace st2) = downloads (trace s)
    /\ posts (trace st2) = posts (trace s)
    /\ last (trace st2) = Some (StException e).
Proof.
  intros Hpdf Hkey Hrun.
  unfold on_click. rewrite Hpdf, Hkey.
  unfold try_except. rewrite (bind_raise _ _ _ _ _ Hrun).
  do 2 step. unfold ret.
  eexists. split; [reflexivity|]. proj.
  unfold downloads, posts. rewrite !List.filter_app. simpl. rewrite !app_nil_r.
  repeat split; try reflexivity. apply last_snoc.
Qed.

Lemma on_click_ok (w : world) (inp : inputs) (pdf : pdf_file) (st s : state)
    (doc : document) :
  original_pdf inp = Some pdf ->
  truthy_opt (OPENAI_API_KEY w) = true ->
  pipeline storybook w inp pdf st = (Ok doc, s) ->
  on_click storybook w inp st = (Ok (Some doc), s).
Proof.
  intros Hpdf Hkey Hrun.
  unfold on_click. rewrite Hpdf, Hkey.
  unfold try_except. now rewrite (bind_ok _ _ _ _ _ Hrun).
Qed.

(** The analyzer never raises: it issues one request and answers with the
    response, or with [None] after reporting the failure. *)
Lemma analyze_story_run (w : world) (text : string) (st : state) :
  analyze_story w text st =
    (Ok (chat_story w (calls st) text),
     {| pages := pages st; cur := cur st;
        trace := trace st ++ Post chat_url text
                 :: match chat_story w (calls st) text with
                    | Some _ => []
                    | None => [StError "Story analysis failed: " (Some RequestError)]
                    end;
        calls := S (calls st) |}).
Proof.
  unfold analyze_story, try_except, bind, request. proj.
  destruct (chat_story w (calls st) text); cbv beta iota; unfold ret, emit; proj.
  - reflexivity.
  - now rewrite <- app_assoc.
Qed.

Lemma read_and_analyze_unanswered (w : world) (pdf : pdf_file) (st st1 : state)
    (text : string) :
  extract_text_from_pdf pdf st = (Ok (Some text), st1) ->
  truthy text = true ->
  truthy_opt (chat_story w (calls st1) text) = false ->
  exists evs,
    read_and_analyze w pdf st =
      (Raise (ValueError "Couldn't analyze story structure"),
       {| pages := pages st1; cur := cur st1;
          trace := trace st1 ++ StWrite "Analyzing story structure..."
                                :: Post chat_url text :: evs;
          calls := S (calls st1) |})
    /\ posts evs = [] /\ downloads evs = [].
Proof.
  intros Hext Htext Hchat.
  unfold read_and_analyze.
  rewrite (bind_ok _ _ _ _ _ Hext). cbn [truthy_opt]. rewrite Htext.
  do 2 step. cbn [default from_option id].
  rewrite (bind_ok _ _ _ _ _ (analyze_story_run w text _)). proj.
  rewrite Hchat. rewrite <- app_assoc. cbn [app].
  eexists. split; [reflexivity|].
  destruct (chat_story w (calls st1) text); now split.
Qed.

(** X3: when the analysis request fails, or answers with an empty text, the
    run ends with 'Couldn't analyze story structure': one request was
    issued, the response is never parsed, no page is drawn and no document
    offered, whatever the storybook function is. *)
Theorem analysis_failure_ends_run (w : world) (inp : inputs) (pdf : pdf_file)
    (st st1 : state) (text : string) :
  original_pdf inp = Some pdf ->
  truthy_opt (OPENAI_API_KEY w) = true ->
  extract_text_from_pdf pdf st = (Ok (Some text), st1) ->
  truthy text = true ->
  truthy_opt (chat_story w (calls st1) text) = false ->
  exists st2,
    on_click storybook w inp st = (Ok None, st2)
    /\ pages st2 = pages st1
    /\ calls st2 = S (calls st1)
    /\ downloads (trace st2) = downloads (trace st1)
    /\ posts (trace st2) = posts (trace st1) ++ [Post chat_url text]
    /\ last (trace st2) = Some (StException (ValueError "Couldn't analyze story structure")).
Proof.
  intros Hpdf Hkey Hext Htext Hchat.
  destruct (read_and_analyze_unanswered w pdf st st1 text Hext Htext Hchat)
    as (evs & Hread & Hposts & Hdown).
  destruct (on_click_raise w inp pdf st _ _ Hpdf Hkey
              (bind_raise _ _ _ _ _ Hread))
    as (st2 & Hrun & Hpages & Hcalls & Hd & Hp & Hlast).
  cbn [pages cur trace calls] in *.
  exists st2. split; [exact Hrun|].
  repeat split; try assumption.
  - rewrite Hd. unfold downloads in *. rewrite List.filter_app. simpl.
    rewrite Hdown. now rewrite app_nil_r.
  - rewrite Hp. unfold posts in *. rewrite List.filter_app. simpl.
    now rewrite Hposts.
Qed.

Lemma read_and_analyze_unparsed (w : world) (pdf : pdf_file) (st st1 : state)
    (text content : string) :
  extract_text_from_pdf pdf st = (Ok (Some text), st1) ->
  truthy text = true ->
  chat_story w (calls st1) text = Some content ->
  truthy content = true ->
  (forall fields, json_loads w content <> Some (JObj fields)) ->
  read_and_analyze w pdf st =
    (Raise (match json_loads w content with
            | Some _ => AttributeError
            | None => JSONDecodeError
            end),
     {| pages := pages st1; cur := cur st1;
        trace := trace st1 ++ [StWrite "Analyzing story structure..."; Post chat_url text];
        calls := S (calls st1) |}).
Proof.
  intros Hext Htext Hchat Hcontent Hnot.
  unfold read_and_analyze.
  rewrite (bind_ok _ _ _ _ _ Hext). cbn [truthy_opt]. rewrite Htext.
  do 2 step. cbn [default from_option id].
  rewrite (bind_ok _ _ _ _ _ (analyze_story_run w text _)). proj.
  rewrite Hchat. cbn [truthy_opt].
  rewrite Hcontent. step. cbn [default from_option id].
  unfold loads. rewrite <- app_assoc. cbn [app].
  destruct (json_loads w content) as [v|]; [|reflexivity].
  rewrite bind_ret.
  destruct v; try reflexivity.
  exfalso. eapply Hnot. reflexivity.
Qed.

(** X4: when the analyzer's answer is not JSON, or is JSON but not an
    object, the run ends with [JSONDecodeError], resp. [AttributeError]
    (raised by [parsed_data.keys()]), before any selection: no page, no
    second request, no document. *)
Theorem unparsed_answer_ends_run (w : world) (inp : inputs) (pdf : pdf_file)
    (st st1 : state) (text content : string) :
  original_pdf inp = Some pdf ->
  truthy_opt (OPENAI_API_KEY w) = true ->
  extract_text_from_pdf pdf st = (Ok (Some text), st1) ->
  truthy text = true ->
  chat_story w (calls st1) text = Some content ->
  truthy content = true ->
  (forall fields, json_loads w content <> Some (JObj fields)) ->
  exists st2,
    on_click storybook w inp st = (Ok None, st2)
    /\ pages st2 = pages st1
    /\ calls st2 = S (calls st1)
    /\ downloads (trace st2) = downloads (trace st1)
    /\ last (trace st2) =
         Some (StException (match json_loads w content with
                            | Some _ => AttributeError
                            | None => JSONDecodeError
                            end)).
Proof.
  intros Hpdf Hkey Hext Htext Hchat Hcontent Hnot.
  pose proof (read_and_analyze_unparsed w pdf st st1 text content
                Hext Htext Hchat Hcontent Hnot) as Hread.
  destruct (on_click_raise w inp pdf st _ _ Hpdf Hkey
              (bind_raise _ _ _ _ _ Hread))
    as (st2 & Hrun & Hpages & Hcalls & Hd & Hp & Hlast).
  cbn [pages cur trace calls] in *.
  exists st2. split; [exact Hrun|].
  repeat split; try assumption.
  rewrite Hd. unfold downloads. rewrite List.filter_app. simpl.
  now rewrite app_nil_r.
Qed.

(** X5: a selected value that has no length (a number, a boolean or null
    under 'interactions') stops the run with [TypeError] at
    [len(story_data)]; the storybook function is not called. *)
Theorem unsized_story_data_ends_run (w : world) (inp : inputs) (pdf : pdf_file)
    (st st1 : state) (text content : string) (fields : list (string * json))
    (story_data : json) :
  original_pdf inp = Some pdf ->
  truthy_opt (OPENAI_API_KEY w) = true ->
  extract_text_from_pdf pdf st = (Ok (Some text), st1) ->
  truthy text = true ->
  chat_story w (calls st1) text = Some content ->
  truthy content = true ->
  json_loads w content = Some (JObj fields) ->
  assoc "interactions" fields = Some story_data ->
  (forall s, story_data <> JStr s) ->
  (forall items, story_data <> JArr items) ->
  (forall o, story_data <> JObj o) ->
  exists st2,
    on_click storybook w inp st = (Ok None, st2)
    /\ pages st2 = pages st1
    /\ calls st2 = S (calls st1)
    /\ downloads (trace st2) = downloads (trace st1)
    /\ last (trace st2) = Some (StException TypeError).
Proof.
  intros Hpdf Hkey Hext Htext Hchat Hcontent Hloads Hsel Hs Ha Ho.
  assert (Hlen : py_len story_data = Raise TypeError).
  { destruct story_data; try reflexivity;
      [exfalso; eapply Hs | exfalso; eapply Ha | exfalso; eapply Ho]; reflexivity. }
  assert (Hrun : pipeline storybook w inp pdf st =
            (Raise TypeError,
             {| pages := pages st1; cur := cur st1;
                trace := trace st1 ++ [ StWrite "Analyzing story structure...";
                                        Post chat_url text;
                                        StWriteKeys "API response structure:"
                                          (map fst fields) ];
                calls := S (calls st1) |})).
  { unfold pipeline.
    rewrite (bind_ok _ _ _ _ _
               (read_and_analyze_ok w pdf st st1 text content fields
                  Hext Htext Hchat Hcontent Hloads)).
    unfold select_story_data. rewrite Hsel. step. now rewrite Hlen. }
  destruct (on_click_raise w inp pdf st _ _ Hpdf Hkey Hrun)
    as (st2 & Hrun2 & Hpages & Hcalls & Hd & Hp & Hlast).
  cbn [pages cur trace calls] in *.
  exists st2. split; [exact Hrun2|].
  repeat split; try assumption.
  rewrite Hd. unfold downloads. rewrite List.filter_app. simpl.
  now rewrite app_nil_r.
Qed.

End Handler.

Lemma analysis_failure_ends_run_witness :
  exists st2,
    main_py offline (a_request None) initial = (Ok None, st2)
    /\ pages st2 = pages initial
    /\ calls st2 = S (calls initial)
    /\ downloads (trace st2) = downloads (trace initial)
    /\ posts (trace st2) =
         posts (trace initial) ++ [Post chat_url ("Aanya wrote to the zoo." +:+ newline)]
    /\ last (trace st2) = Some (StException (ValueError "Couldn't analyze story structure")).
Proof.
  apply (analysis_failure_ends_run Main.create_storybook offline (a_request None)
           one_page_pdf initial initial ("Aanya wrote to the zoo." +:+ newline));
    reflexivity.
Defined.

Lemma unparsed_answer_ends_run_witness :
  exists st2,
    main_py (canned (JArr five_records)) (a_request None) initial = (Ok None, st2)
    /\ pages st2 = pages initial
    /\ calls st2 = S (calls initial)
    /\ downloads (trace st2) = downloads (trace initial)
    /\ last (trace st2) =
         Some (StException (match json_loads (canned (JArr five_records)) "{...}" with
                            | Some _ => AttributeError
                            | None => JSONDecodeError
                            end)).
Proof.
  apply (unparsed_answer_ends_run Main.create_storybook (canned (JArr five_records))
           (a_request None) one_page_pdf initial initial
           ("Aanya wrote to the zoo." +:+ newline) "{...}");
    try reflexivity.
  intros fields H. discriminate H.
Defined.

Lemma unsized_story_data_ends_run_witness :
  exists st2,
    main_py (canned (JObj [("interactions", JNum 5)])) (a_request None) initial
    = (Ok None, st2)
    /\ pages st2 = pages initial
    /\ calls st2 = S (calls initial)
    /\ downloads (trace st2) = downloads (trace initial)
    /\ last (trace st2) = Some (StException TypeError).
Proof.
  apply (unsized_story_data_ends_run Main.create_storybook
           (canned (JObj [("interactions", JNum 5)]))
           (a_request None) one_page_pdf initial initial
           ("Aanya wrote to the zoo." +:+ newline) "{...}"
           [("interactions", JNum 5)] (JNum 5));
    try reflexivity; intros ? H; discriminate H.
Defined.

(** ** Selection: what can come out *)

Lemma first_list_sound (fields : list (string * json)) (v : json) :
  first_list fields = Ok v ->
  In v (map snd fields) /\ is_nonempty_list v = true.
Proof.
  induction fields as [|[k x] rest IH]; simpl; intros H; [discriminate H|].
  destruct (is_nonempty_list x) eqn:Hx.
  - injection H as <-. split; [now left | exact Hx].
  - destruct (IH H) as [Hin Hne]. split; [now right | exact Hne].
Qed.

Lemma first_list_raises (fields : list (string * json)) (e : exn) :
  first_list fields = Raise e ->
  Forall (fun kv => is_nonempty_list (snd kv) = false) fields
  /\ e = ValueError "Could not find animal interaction data in the API response".
Proof.
  induction fields as [|[k x] rest IH]; simpl; intros H.
  - injection H as <-. split; [constructor | reflexivity].
  - destruct (is_nonempty_list x) eqn:Hx; [discriminate H|].
    destruct (IH H) as [Hall He]. split; [now constructor | exact He].
Qed.

Lemma assoc_in {A} (k : string) (fields : list (string * A)) (v : A) :
  assoc k fields = Some v -> In v (map snd fields).
Proof.
  induction fields as [|[k' x] rest IH]; simpl; intros H; [discriminate H|].
  destruct (String.eqb k k'); [injection H as <-; now left | right; now apply IH].
Qed.

(** X6: whatever the selection returns is one of the top-level values of
    the object; a value found by the fallback scan is always a non-empty
    list, while the value under 'interactions' is taken as it is; and the
    selection raises only when the key is absent and no value is a non-empty
    list, always with the same [ValueError]. *)
Theorem select_story_data_sound (fields : list (string * json)) :
  (forall v, select_story_data fields = Ok v ->
             In v (map snd fields)
             /\ (assoc "interactions" fields = None -> is_nonempty_list v = true)
             /\ (forall x, assoc "interactions" fields = Some x -> v = x))
  /\ (forall e, select_story_data fields = Raise e ->
                assoc "interactions" fields = None
                /\ Forall (fun kv => is_nonempty_list (snd kv) = false) fields
                /\ e = ValueError "Could not find animal interaction data in the API response").
Proof.
  unfold select_story_data. split.
  - intros v H. destruct (assoc "interactions" fields) as [x|] eqn:Hx.
    + injection H as <-. split; [eapply assoc_in; eassumption|].
      split; [discriminate | intros y Hy; now injection Hy].
    + destruct (first_list_sound fields v H) as [Hin Hne].
      split; [exact Hin|]. split; [intros _; exact Hne | discriminate].
  - intros e H. destruct (assoc "interactions" fields) as [x|]; [discriminate H|].
    split; [reflexivity|]. now apply first_list_raises.
Qed.

Lemma select_story_data_sound_witness :
  (In (JArr five_records)
      (map snd [("title", JStr "Zoo"); ("animals", JArr five_records)])
   /\ (assoc "interactions" [("title", JStr "Zoo"); ("animals", JArr five_records)] = None ->
       is_nonempty_list (JArr five_records) = true)
   /\ (forall x,
         assoc "interactions" [("title", JStr "Zoo"); ("animals", JArr five_records)]
         = Some x -> JArr five_records = x))
  /\ (assoc "interactions" no_list_fields = None
      /\ Forall (fun kv => is_nonempty_list (snd kv) = false) no_list_fields
      /\ ValueError "Could not find animal interaction data in the API response"
         = ValueError "Could not find animal interaction data in the API response").
Proof.
  split.
  - apply (proj1 (select_story_data_sound
                    [("title", JStr "Zoo"); ("animals", JArr five_records)])).
    reflexivity.
  - apply (proj2 (select_story_data_sound no_list_fields)). reflexivity.
Defined.

(** ** The handler as a whole *)

Lemma bind_inv {A B} (m : M A) (k : A -> M B) (st st' : state) (b : B) :
  bind m k st = (Ok b, st') ->
  exists a s, m st = (Ok a, s) /\ k a s = (Ok b, st').
Proof.
  unfold bind. destruct (m st) as [[a|e] s]; intros H; [|discriminate H].
  now exists a, s.
Qed.

Lemma bind_ext {A B} (m : M A) (k1 k2 : A -> M B) (st : state) :
  (forall a s, k1 a s = k2 a s) -> bind m k1 st = bind m k2 st.
Proof. intros H. unfold bind. destruct (m st) as [[a|e] s]; [apply H | reflexivity]. Qed.

Lemma emit_inv (e : event) (r : unit) (st st' : state) :
  emit e st = (Ok r, st') ->
  st' = {| pages := pages st; cur := cur st; trace := trace st ++ [e]; calls := calls st |}.
Proof. unfold emit. intros H. now injection H. Qed.

(** A document returned by the [try] body was offered for download, under
    the file name built from the name or its default, as the last thing the
    body did. *)
Lemma pipeline_ok_download
    (storybook : world -> string -> string -> json -> option string ->
                 option user_photo -> M document)
    (w : world) (inp : inputs) (pdf : pdf_file) (st st' : state) (doc : document) :
  pipeline storybook w inp pdf st = (Ok doc, st') ->
  last (trace st') =
    Some (StDownload (name_or_default inp +:+ "_ghibli_zoo_adventure.pdf") doc).
Proof.
  unfold pipeline. intros H.
  apply bind_inv in H as (fields & s1 & _ & H).
  apply bind_inv in H as (story_data & s2 & _ & H).
  apply bind_inv in H as (found & s3 & _ & H).
  apply bind_inv in H as ([] & s4 & _ & H).
  apply bind_inv in H as (described & s5 & _ & H).
  apply bind_inv in H as ([] & s6 & _ & H).
  apply bind_inv in H as (pdf_buffer & s7 & _ & H).
  apply bind_inv in H as ([] & s8 & _ & H).
  apply bind_inv in H as ([] & s9 & Hemit & H).
  apply emit_inv in Hemit. unfold ret in H. injection H as -> <-.
  subst s9. proj. apply last_snoc.
Qed.

(** X7: the handler never lets an exception out, whatever the storybook
    function does.  Without an uploaded PDF, or without an API key, it ends
    after one message, having read nothing, requested nothing and drawn
    nothing.  When it returns a document, offering that document for
    download under '<name or Aanya>_ghibli_zoo_adventure.pdf' was its last
    action. *)
Theorem on_click_never_raises
    (storybook : world -> string -> string -> json -> option string ->
                 option user_photo -> M document)
    (w : world) (inp : inputs) (st : state) :
  exists r st',
    on_click storybook w inp st = (Ok r, st')
    /\ (original_pdf inp = None \/ truthy_opt (OPENAI_API_KEY w) = false ->
        r = None /\ calls st' = calls st /\ pages st' = pages st /\ cur st' = cur st
        /\ exists e, trace st' = trace st ++ [e])
    /\ (forall doc, r = Some doc ->
          last (trace st') =
            Some (StDownload (name_or_default inp +:+ "_ghibli_zoo_adventure.pdf") doc)).
Proof.
  unfold on_click.
  destruct (original_pdf inp) as [pdf|] eqn:Hpdf.
  - destruct (truthy_opt (OPENAI_API_KEY w)) eqn:Hkey.
    + unfold try_except.
      destruct (pipeline storybook w inp pdf st) as [[doc|e] s] eqn:Hrun.
      * rewrite (bind_ok _ _ _ _ _ Hrun). unfold ret.
        eexists _, _. split; [reflexivity|]. split.
        -- intros [H|H]; discriminate H.
        -- intros d Hd. injection Hd as <-.
           eapply pipeline_ok_download; eassumption.
      * rewrite (bind_raise _ _ _ _ _ Hrun). do 2 step. unfold ret.
        eexists _, _. split; [reflexivity|]. split.
        -- intros [H|H]; discriminate H.
        -- intros d Hd. discriminate Hd.
    + step. unfold ret. eexists _, _. split; [reflexivity|]. split.
      * intros _. repeat split. eexists; reflexivity.
      * intros d Hd. discriminate Hd.
  - step. unfold ret. eexists _, _. split; [reflexivity|]. split.
    + intros _. repeat split. eexists; reflexivity.
    + intros d Hd. discriminate Hd.
Qed.

Lemma on_click_never_raises_witness :
  exists r st',
    main_py offline (Inputs None "Aanya" "she/her" None) initial = (Ok r, st')
    /\ (r = None /\ calls st' = calls initial /\ pages st' = pages initial
        /\ cur st' = cur initial /\ exists e, trace st' = trace initial ++ [e]).
Proof.
  destruct (on_click_never_raises Main.create_storybook offline
              (Inputs None "Aanya" "she/her" None) initial)
    as (r & st' & Hrun & Hpre & _).
  exists r, st'. split; [exact Hrun|]. apply Hpre. left. reflexivity.
Defined.

Lemma name_or_default_truthy (inp : inputs) : truthy (name_or_default inp) = true.
Proof.
  unfold name_or_default. destruct (truthy (name inp)) eqn:H; [exact H | reflexivity].
Qed.

(** X8: the handler of [main.py] and [main2.py] never passes a blank name
    on: two storybook functions that agree on every non-empty name give the
    same run, for every input.  (A blank name is replaced by 'Aanya'.) *)
Theorem on_click_never_passes_blank_name
    (storybook1 storybook2 : world -> string -> string -> json -> option string ->
                             option user_photo -> M document) :
  (forall w nm g sd pd ui st,
      truthy nm = true -> storybook1 w nm g sd pd ui st = storybook2 w nm g sd pd ui st) ->
  forall w inp st, on_click storybook1 w inp st = on_click storybook2 w inp st.
Proof.
  intros Hagree w inp st. unfold on_click.
  destruct (original_pdf inp) as [pdf|]; [|reflexivity].
  destruct (truthy_opt (OPENAI_API_KEY w)); [|reflexivity].
  unfold try_except.
  assert (Hpipe : pipeline storybook1 w inp pdf st = pipeline storybook2 w inp pdf st).
  { unfold pipeline.
    apply bind_ext; intros fields s1.
    apply bind_ext; intros story_data s2.
    apply bind_ext; intros found s3.
    apply bind_ext; intros [] s4.
    apply bind_ext; intros described s5.
    apply bind_ext; intros [] s6.
    unfold bind. fold (name_or_default inp).
    now rewrite (Hagree w (name_or_default inp) (gender inp) story_data
                   (fst described) (snd described) s6 (name_or_default_truthy inp)). }
  unfold bind. now rewrite Hpipe.
Qed.

Lemma on_click_never_passes_blank_name_witness :
  main_py (canned (JObj [("interactions", JArr five_records)]))
          (Inputs (Some one_page_pdf) EmptyString "she/her" None) initial
  = on_click named_only (canned (JObj [("interactions", JArr five_records)]))
             (Inputs (Some one_page_pdf) EmptyString "she/her" None) initial.
Proof.
  apply (on_click_never_passes_blank_name Main.create_storybook named_only).
  intros w nm g sd pd ui st H. unfold named_only. now rewrite H.
Defined.

(** ** A run of [main.py] that succeeds *)

Lemma process_photo_none (w : world) (st : state) :
  process_photo w None st = (Ok (None, None), st).
Proof. reflexivity. Qed.

Lemma process_photo_described (w : world) (p : upload) (u : user_photo) (d : string)
    (st : state) :
  photo_open p = Some u ->
  chat_photo w (calls st) (photo_bytes p) = Some d ->
  process_photo w (Some p) st =
    (Ok (Some d, Some u),
     {| pages := pages st; cur := cur st;
        trace := trace st ++ [ StImage "Your Photo";
                               StWrite "Analyzing photo for Ghibli-style adaptation...";
                               Post chat_url (photo_bytes p) ];
        calls := S (calls st) |}).
Proof.
  intros Hopen Hchat. unfold process_photo, open_upload. rewrite Hopen.
  do 3 step. unfold bind, request. proj. rewrite Hchat.
  unfold ret. now rewrite <- !app_assoc.
Qed.

(** The [try] body from the parsed response to the download. *)
Lemma main_py_pipeline_ok (w : world) (inp : inputs) (pdf : pdf_file)
    (st st1 s : state) (text content : string) (fields : list (string * json))
    (items : list json) (pd : option string) (user_image : option user_photo) :
  extract_text_from_pdf pdf st = (Ok (Some text), st1) ->
  truthy text = true ->
  chat_story w (calls st1) text = Some content ->
  truthy content = true ->
  json_loads w content = Some (JObj fields) ->
  select_story_data fields = Ok (JArr items) ->
  Forall (fun v => well_formed v = true) items ->
  (forall s0,
      pages s0 = pages st1 -> cur s0 = cur st1 -> calls s0 = S (calls st1) ->
      exists evs, process_photo w (photo inp) s0 =
        (Ok (pd, user_image),
         {| pages := pages s0; cur := cur s0; trace := trace s0 ++ evs;
            calls := calls s |})) ->
  let doc :=
    Book.cover (name_or_default inp) user_image :: Book.intro (name_or_default inp)
    :: Book.animal_pages w (name_or_default inp)
         (child_description_of (name_or_default inp) (gender inp)) pd (calls s) items
    ++ [Book.final (name_or_default inp)] in
  exists st2,
    pipeline Main.create_storybook w inp pdf st = (Ok doc, st2)
    /\ calls st2 = (calls s + length items)%nat
    /\ last (trace st2) =
         Some (StDownload (name_or_default inp +:+ "_ghibli_zoo_adventure.pdf") doc).
Proof.
  intros Hext Htext Hchat Hcontent Hloads Hsel Hwf Hphoto doc.
  unfold pipeline.
  rewrite (bind_ok _ _ _ _ _
             (read_and_analyze_ok w pdf st st1 text content fields
                Hext Htext Hchat Hcontent Hloads)).
  rewrite Hsel. step. cbn [py_len]. do 2 step.
  match goal with
  | |- context [bind (process_photo w (photo inp)) _ ?s0] =>
      destruct (Hphoto s0 eq_refl eq_refl eq_refl) as [evs Hp]
  end.
  rewrite (bind_ok _ _ _ _ _ Hp). proj. cbn [fst snd]. step.
  fold (name_or_default inp).
  match goal with
  | |- context [bind (Main.create_storybook w ?nm ?g ?sd ?pd' ?ui) _ ?s0] =>
      destruct (Main_create_storybook_ok w nm g items pd' ui s0 Hwf) as [tr Hbook]
  end.
  cbn [calls] in Hbook.
  rewrite (bind_ok _ _ _ _ _ Hbook). do 2 step. unfold ret.
  eexists. split; [reflexivity|]. proj. split; [reflexivity|].
  apply last_snoc.
Qed.

(** X9: a complete run of [main.py].  When the PDF is read, the analyzer
    answers with an object whose selected value is a list of [N] well-formed
    records, and the photo (if any) opens and is described, the handler
    returns the [N + 3] page storybook laid out for the name (or 'Aanya'),
    with the photo's description in every illustration prompt; it has issued
    one analysis request, one photo request if there is a photo, and one
    image request per record, and its last action is the download offer.
    The photo itself is on the cover only when it can be saved as a JPEG: a
    photo that opens and is described but does not save (a PNG with
    transparency) leaves the cover without image, and the run goes on. *)
Theorem main_py_complete_run (w : world) (inp : inputs) (pdf : pdf_file)
    (st st1 : state) (text content : string) (fields : list (string * json))
    (items : list json) :
  original_pdf inp = Some pdf ->
  truthy_opt (OPENAI_API_KEY w) = true ->
  extract_text_from_pdf pdf st = (Ok (Some text), st1) ->
  truthy text = true ->
  chat_story w (calls st1) text = Some content ->
  truthy content = true ->
  json_loads w content = Some (JObj fields) ->
  select_story_data fields = Ok (JArr items) ->
  Forall (fun v => well_formed v = true) items ->
  let nm := name_or_default inp in
  let cd := child_description_of nm (gender inp) in
  (photo inp = None ->
   exists doc st2,
     main_py w inp st = (Ok (Some doc), st2)
     /\ doc = Book.cover nm None :: Book.intro nm
              :: Book.animal_pages w nm cd None (S (calls st1)) items
              ++ [Book.final nm]
     /\ length doc = (length items + 3)%nat
     /\ calls st2 = (calls st1 + 1 + length items)%nat
     /\ last (trace st2) =
          Some (StDownload (nm +:+ "_ghibli_zoo_adventure.pdf") doc))
  /\ (forall p u d,
        photo inp = Some p ->
        photo_open p = Some u ->
        chat_photo w (S (calls st1)) (photo_bytes p) = Some d ->
        exists doc st2,
          main_py w inp st = (Ok (Some doc), st2)
          /\ doc = Book.cover nm (Some u) :: Book.intro nm
                   :: Book.animal_pages w nm cd (Some d) (S (S (calls st1))) items
                   ++ [Book.final nm]
          /\ length doc = (length items + 3)%nat
          /\ calls st2 = (calls st1 + 2 + length items)%nat
          /\ last (trace st2) =
               Some (StDownload (nm +:+ "_ghibli_zoo_adventure.pdf") doc)
          /\ images_on (Book.cover nm (Some u))
             = (if photo_saves_as_jpeg u then 1 else 0)%nat).
Proof.
  intros Hpdf Hkey Hext Htext Hchat Hcontent Hloads Hsel Hwf nm cd. split.
  - intros Hphoto.
    destruct (main_py_pipeline_ok w inp pdf st st1
                {| pages := []; cur := []; trace := []; calls := S (calls st1) |}
                text content fields items None None
                Hext Htext Hchat Hcontent Hloads Hsel Hwf)
      as (st2 & Hrun & Hcalls & Hlast).
    { intros s0 _ _ Hc. rewrite Hphoto, process_photo_none.
      exists []. rewrite app_nil_r. destruct s0; cbn in *. now subst. }
    cbn [calls] in *.
    eexists _, st2. split; [eapply on_click_ok; eassumption|].
    split; [reflexivity|].
    split; [rewrite body_length; now rewrite Book_animal_pages_length|].
    split; [lia | exact Hlast].
  - intros p u d Hphoto Hopen Hdesc.
    destruct (main_py_pipeline_ok w inp pdf st st1
                {| pages := []; cur := []; trace := []; calls := S (S (calls st1)) |}
                text content fields items (Some d) (Some u)
                Hext Htext Hchat Hcontent Hloads Hsel Hwf)
      as (st2 & Hrun & Hcalls & Hlast).
    { intros s0 _ _ Hc. rewrite Hphoto.
      rewrite (process_photo_described w p u d s0 Hopen); [|now rewrite Hc].
      eexists. cbn [calls]. now rewrite Hc. }
    cbn [calls] in *.
    eexists _, st2. split; [eapply on_click_ok; eassumption|].
    split; [reflexivity|].
    split; [rewrite body_length; now rewrite Book_animal_pages_length|].
    split; [lia|]. split; [exact Hlast|].
    unfold Book.cover, jpeg_of. now destruct (photo_saves_as_jpeg u).
Qed.

Lemma main_py_complete_run_witness :
  (exists doc st2,
      main_py (online (JObj [("interactions", JArr five_records)])) (a_request None)
        initial = (Ok (Some doc), st2)
      /\ length doc = (length five_records + 3)%nat
      /\ calls st2 = (calls initial + 1 + length five_records)%nat)
  /\ (exists doc st2,
        main_py (online (JObj [("interactions", JArr five_records)]))
          (a_request (Some a_photo)) initial = (Ok (Some doc), st2)
        /\ length doc = (length five_records + 3)%nat
        /\ calls st2 = (calls initial + 2 + length five_records)%nat
        /\ images_on (Book.cover "Aanya" (Some (UserPhoto (Image "JFIF") true))) = 1%nat).
Proof.
  split.
  - destruct (proj1 (main_py_complete_run
                       (online (JObj [("interactions", JArr five_records)]))
                       (a_request None) one_page_pdf initial initial
                       ("Aanya wrote to the zoo." +:+ newline) "{...}"
                       [("interactions", JArr five_records)] five_records
                       eq_refl eq_refl eq_refl eq_refl eq_refl eq_refl eq_refl eq_refl
                       ltac:(repeat constructor)) eq_refl)
      as (doc & st2 & Hrun & _ & Hlen & Hcalls & _).
    exists doc, st2. split; [exact Hrun|]. split; [exact Hlen | exact Hcalls].
  - destruct (proj2 (main_py_complete_run
                       (online (JObj [("interactions", JArr five_records)]))
                       (a_request (Some a_photo)) one_page_pdf initial initial
                       ("Aanya wrote to the zoo." +:+ newline) "{...}"
                       [("interactions", JArr five_records)] five_records
                       eq_refl eq_refl eq_refl eq_refl eq_refl eq_refl eq_refl eq_refl
                       ltac:(repeat constructor))
                a_photo (UserPhoto (Image "JFIF") true) "round face, short dark hair"
                eq_refl eq_refl eq_refl)
      as (doc & st2 & Hrun & _ & Hlen & Hcalls & _ & Hcover).
    exists doc, st2. split; [exact Hrun|]. split; [exact Hlen|].
    split; [exact Hcalls | exact Hcover].
Defined.

(** A photo that cannot be saved as a JPEG is described and then left off
    the cover; the storybook is still returned. *)
Example unsaved_photo_leaves_cover_bare :
  exists doc,
    fst (main_py (online (JObj [("interactions", JArr five_records)]))
           (a_request (Some {| photo_bytes := "PNG";
                               photo_open := Some (UserPhoto (Image "PNG") false) |}))
           initial) = Ok (Some doc)
    /\ length doc = 8%nat
    /\ option_map images_on (doc !! 0%nat) = Some 0%nat.
Proof. eexists. split; [vm_compute; reflexivity|]. split; vm_compute; reflexivity. Qed.

(** ** [main.py]: which story data give a document *)

Lemma Main_animal_step_laid_out (w : world) (name cd : string) (pd : option string)
    (total i : nat) (v : json) (st st' : state) :
  Main.animal_step w name cd pd total i v st = (Ok tt, st') ->
  laid_out w v = true.
Proof.
  intros H. destruct st as [ps cu tr n].
  unfold Main.animal_step in H.
  destruct (getitem v "animal") as [a|e] eqn:Ha;
    [|rewrite (bind_field_raise _ _ _ _ _ _ Ha) in H; discriminate H].
  rewrite (bind_field _ _ _ _ _ _ Ha) in H. step_in H.
  match type of H with
  | context [bind (generate_ghibli_scene w cd v pd) _
               {| pages := ?p; cur := ?c; trace := ?t; calls := ?k |}] =>
      destruct (generate_ghibli_scene_frame w cd v pd p c t k) as (r & n' & tr1 & Hgen)
  end.
  rewrite (bind_ok _ _ _ _ _ Hgen) in H. step_in H.
  rewrite (bind_field _ _ _ _ _ _ Ha) in H. step_in H.
  destruct (getitem v "description") as [d|e] eqn:Hd;
    [|rewrite (bind_field_raise _ _ _ _ _ _ Hd) in H; discriminate H].
  rewrite (bind_field _ _ _ _ _ _ Hd) in H. step_in H.
  destruct (getitem v "interaction") as [x|e] eqn:Hx;
    [|rewrite (bind_drawn_missing _ _ _ _ _ _ Hx) in H; discriminate H].
  destruct (drawn_value w x) as [s|e] eqn:Hs;
    [|rewrite (bind_drawn_raise _ _ _ _ _ _ _ Hx Hs) in H; discriminate H].
  unfold laid_out. now rewrite Ha, Hd, Hx, Hs.
Qed.

Lemma Main_animal_loop_laid_out (w : world) (name cd : string) (pd : option string)
    (total : nat) (items : list json) :
  forall (i : nat) (st st' : state),
    Main.animal_loop w name cd pd total i items st = (Ok tt, st') ->
    Forall (fun v => laid_out w v = true) items.
Proof.
  induction items as [|v rest IH]; intros i st st' H; [constructor|].
  cbn [Main.animal_loop] in H.
  destruct (Main.animal_step w name cd pd total i v st) as [[[]|e] st1] eqn:Hstep.
  - rewrite (bind_ok _ _ _ _ _ Hstep) in H.
    constructor; [eapply Main_animal_step_laid_out; eassumption
                 | eapply IH; eassumption].
  - rewrite (bind_raise _ _ _ _ _ Hstep) in H. discriminate H.
Qed.

Lemma Main_returns_laid_out (w : world) (name gender : string) (story_data : json)
    (pd : option string) (user_image : option user_photo) (st st' : state)
    (doc : document) :
  Main.create_storybook w name gender story_data pd user_image st = (Ok doc, st') ->
  exists items, py_iter story_data = Ok items
                /\ Forall (fun v => laid_out w v = true) items.
Proof.
  intros H. destruct st as [ps0 cu0 tr0 n0].
  unfold Main.create_storybook in H.
  destruct (py_len story_data) as [total|e] eqn:Hlen.
  2: { rewrite (bind_raise (lift (Raise e)) _ _ _ e eq_refl) in H. discriminate H. }
  destruct (py_iter_len _ _ Hlen) as [items Hiter].
  exists items. split; [exact Hiter|].
  rewrite Hiter in H. do 7 step_in H.
  match type of H with
  | context [bind (Main.cover_photo ?u) _
               {| pages := ?q; cur := ?c; trace := ?t; calls := ?k |}] =>
      destruct (Main_cover_photo_ok u q c t k) as [tr1 Hcover]
  end.
  rewrite (bind_ok _ _ _ _ _ Hcover) in H. do 7 step_in H.
  match type of H with
  | context [bind (Main.animal_loop w ?nm ?cd ?pd' ?total ?i ?l) _ ?s] =>
      destruct (Main.animal_loop w nm cd pd' total i l s) as [[[]|e] s1] eqn:Hloop
  end.
  - eapply Main_animal_loop_laid_out; eassumption.
  - rewrite (bind_raise _ _ _ _ _ Hloop) in H. discriminate H.
Qed.

(** A text has a character as soon as it has a byte. *)
Lemma code_points_nonempty (a : ascii) (s : string) : code_points (String a s) <> [].
Proof.
  cbn [code_points]. destruct s as [|b s]; [discriminate|].
  destruct (code_points (String b s)); [discriminate|].
  destruct (is_continuation b); discriminate.
Qed.

(** X10: [create_storybook] of [main.py] returns a document exactly when
    the story data can be iterated over and every item is an object with the
    three keys whose 'interaction' reportlab can draw (a text always is).
    The values need not be text: an 'animal' 42 or a 'description' null is
    printed as Python prints it.  One item without a key costs the whole
    document.  The document is the cover, the intro page, one page per item
    and the end page, and one request was issued per item.  Story data that
    is not a list (a text or an object under 'interactions') gives a
    document only when it is empty: the three fixed pages. *)
Theorem Main_returns_document_iff (w : world) (name gender : string)
    (story_data : json) (pd : option string) (user_image : option user_photo)
    (st : state) :
  ((exists doc st',
       Main.create_storybook w name gender story_data pd user_image st = (Ok doc, st'))
   <-> exists items, py_iter story_data = Ok items
                     /\ Forall (fun v => laid_out w v = true) items)
  /\ (forall doc st' items,
        Main.create_storybook w name gender story_data pd user_image st = (Ok doc, st') ->
        py_iter story_data = Ok items ->
        doc = Book.cover name user_image :: Book.intro name
              :: Book.animal_pages w name (child_description_of name gender) pd
                   (calls st) items
              ++ [Book.final name]
        /\ length doc = (length items + 3)%nat
        /\ calls st' = (calls st + length items)%nat)
  /\ (forall doc st',
        Main.create_storybook w name gender story_data pd user_image st = (Ok doc, st') ->
        (forall items, story_data <> JArr items) ->
        length doc = 3%nat).
Proof.
  assert (Hlen : forall doc st' items,
    Main.create_storybook w name gender story_data pd user_image st = (Ok doc, st') ->
    py_iter story_data = Ok items ->
    Forall (fun v => laid_out w v = true) items
    /\ doc = Book.cover name user_image :: Book.intro name
             :: Book.animal_pages w name (child_description_of name gender) pd
                  (calls st) items
             ++ [Book.final name]
    /\ length doc = (length items + 3)%nat
    /\ calls st' = (calls st + length items)%nat).
  { intros doc st' items H Hiter.
    destruct (Main_returns_laid_out _ _ _ _ _ _ _ _ _ H) as (items' & Hiter' & Hwf).
    rewrite Hiter in Hiter'. injection Hiter' as <-.
    destruct (Main_create_storybook_run w name gender story_data items pd
                user_image st Hiter Hwf) as [tr Hrun].
    rewrite Hrun in H. injection H as <- <-.
    split; [exact Hwf|]. split; [reflexivity|]. split; [|reflexivity].
    rewrite body_length. now rewrite Book_animal_pages_length. }
  split; [|split].
  - split.
    + intros (doc & st' & H). eapply Main_returns_laid_out; eassumption.
    + intros (items & Hiter & Hwf).
      destruct (Main_create_storybook_run w name gender story_data items pd
                  user_image st Hiter Hwf) as [tr Hrun].
      eexists _, _. exact Hrun.
  - intros doc st' items H Hiter.
    destruct (Hlen doc st' items H Hiter) as (_ & Hdoc & Hl & Hc).
    now repeat split.
  - intros doc st' H Hnot.
    destruct (Main_returns_laid_out _ _ _ _ _ _ _ _ _ H) as (items & Hiter & _).
    destruct (Hlen doc st' items H Hiter) as (Hwf & _ & Hl & _).
    rewrite Hl.
    destruct story_data; simpl in Hiter; try discriminate Hiter;
      injection Hiter as <-.
    + destruct s as [|a s]; [reflexivity|].
      unfold chars in Hwf. pose proof (code_points_nonempty a s) as Hne.
      destruct (code_points (String a s)) as [|c cs]; [congruence|].
      inversion Hwf as [|? ? Hbad]; discriminate Hbad.
    + exfalso. eapply Hnot. reflexivity.
    + destruct fields as [|[k x] rest]; [reflexivity|].
      inversion Hwf as [|? ? Hbad]; discriminate Hbad.
Qed.

Lemma Main_returns_document_iff_witness :
  exists doc st',
    Main.create_storybook offline "Aanya" "she/her" (JArr [lion; numbered]) None None
      initial = (Ok doc, st')
    /\ length doc = (length [lion; numbered] + 3)%nat
    /\ calls st' = (calls initial + length [lion; numbered])%nat.
Proof.
  destruct (proj2 (proj1 (Main_returns_document_iff offline "Aanya" "she/her"
                            (JArr [lion; numbered]) None None initial)))
    as (doc & st' & Hrun).
  { exists [lion; numbered]. split; [reflexivity | repeat constructor]. }
  exists doc, st'. split; [exact Hrun|].
  exact (proj2 (proj1 (proj2 (Main_returns_document_iff offline "Aanya" "she/her"
                                (JArr [lion; numbered]) None None initial))
                  doc st' [lion; numbered] Hrun eq_refl)).
Defined.

(** A record with a number for animal and null for description is laid out
    like any other, with the values as Python prints them, and costs one
    request. *)
Example numbered_record_page :
  exists doc st',
    Main.create_storybook offline "Aanya" "she/her" (JArr [numbered]) None None initial
    = (Ok doc, st')
    /\ doc !! 2%nat =
         Some [ SetFont "Helvetica" 18;
                DrawString 100 750 "They sent Aanya a 42...";
                DrawString 100 720 "but it was None!";
                DrawString 100 690 "The child waved";
                DrawString 300 400 "[Illustration not available]" ]
    /\ length doc = 4%nat
    /\ calls st' = 1%nat.
Proof. eexists _, _. split; [vm_compute; reflexivity|]. repeat split. Qed.

(** A text under 'interactions' is iterated character by character and the
    first character ends the run; an empty one gives three pages.  The
    count that is announced is the number of characters. *)
Example string_story_data :
  fst (Main.create_storybook offline "Aanya" "she/her" (JStr "lion") None None initial)
  = Raise TypeError
  /\ py_len (JStr "ñu") = Ok 2%nat
  /\ exists doc,
       fst (Main.create_storybook offline "Aanya" "she/her" (JStr EmptyString)
              None None initial) = Ok doc
       /\ length doc = 3%nat.
Proof.
  split; [vm_compute; reflexivity|]. split; [vm_compute; reflexivity|].
  eexists. split; vm_compute; reflexivity.
Qed.

(** ** A record that lacks a field *)









(** ** One picture per animal page *)






(** ** The scene generator *)

(** X13: [generate_ghibli_scene] of [main.py] and [main2.py] never raises
    and never draws.  When the record is an object with the keys 'animal'
    and 'interaction' it issues one request, whatever the two values are (a
    value that is not text goes into the prompt as Python prints it), and
    answers with that request's outcome; when the record is not an object
    or lacks one of the two keys it issues none and answers [None].  It does
    not look at 'description'. *)
Theorem generate_ghibli_scene_never_raises (w : world) (cd : string) (v : json)
    (pd : option string) (st : state) :
  exists r st',
    generate_ghibli_scene w cd v pd st = (Ok r, st')
    /\ pages st' = pages st /\ cur st' = cur st
    /\ ((exists e, getitem v "animal" = Raise e)
        \/ (exists e, getitem v "interaction" = Raise e) ->
        r = None /\ calls st' = calls st)
    /\ (forall a x,
          getitem v "animal" = Ok a -> getitem v "interaction" = Ok x ->
          let full_prompt :=
            with_photo (scene_prompt cd (py_str w a) (py_str w x)) pd in
          r = images_generate w (calls st) full_prompt
          /\ calls st' = S (calls st)
          /\ last (posts (trace st')) = Some (Post images_url full_prompt)).
Proof.
  destruct st as [ps cu tr n].
  unfold generate_ghibli_scene, try_except. cbv beta.
  destruct (getitem v "animal") as [a|ea] eqn:Ha.
  - rewrite (bind_field _ _ _ _ _ _ Ha).
    destruct (getitem v "interaction") as [x|ex] eqn:Hx.
    + rewrite (bind_field _ _ _ _ _ _ Hx).
      unfold bind, request; proj. cbv zeta.
      destruct (images_generate w n _) eqn:Himg; cbv beta iota;
        unfold ret, emit; proj; eexists _, _; (split; [reflexivity|]); proj;
        (split; [reflexivity|]); (split; [reflexivity|]);
        (split; [intros [[e He]|[e He]]; discriminate He|]);
        intros a' x' Ha' Hx'; injection Ha' as <-; injection Hx' as <-;
        (split; [now rewrite Himg|]); (split; [reflexivity|]);
        unfold posts; rewrite ?List.filter_app; simpl; rewrite ?app_nil_r;
        apply last_snoc.
    + rewrite (bind_field_raise _ _ _ _ _ _ Hx).
      unfold bind, ret, emit; proj. eexists _, _. split; [reflexivity|]. proj.
      split; [reflexivity|]. split; [reflexivity|].
      split; [intros _; split; reflexivity|].
      intros a' x' _ Hbad. discriminate Hbad.
  - rewrite (bind_field_raise _ _ _ _ _ _ Ha).
    unfold bind, ret, emit; proj. eexists _, _. split; [reflexivity|]. proj.
    split; [reflexivity|]. split; [reflexivity|].
    split; [intros _; split; reflexivity|].
    intros a' x' Hbad. discriminate Hbad.
Qed.

Lemma generate_ghibli_scene_never_raises_witness :
  (exists r st',
      generate_ghibli_scene offline "a child" nameless None initial = (Ok r, st')
      /\ r = None /\ calls st' = calls initial)
  /\ (exists r st',
        generate_ghibli_scene offline "a child" numbered None initial = (Ok r, st')
        /\ calls st' = S (calls initial)
        /\ last (posts (trace st')) =
             Some (Post images_url
                     (with_photo (scene_prompt "a child" "42" "The child waved") None))).
Proof.
  split.
  - destruct (generate_ghibli_scene_never_raises offline "a child" nameless None initial)
      as (r & st' & Hrun & _ & _ & Hnone & _).
    exists r, st'. split; [exact Hrun|]. apply Hnone. left. eexists. reflexivity.
  - destruct (generate_ghibli_scene_never_raises offline "a child" numbered None initial)
      as (r & st' & Hrun & _ & _ & _ & Hone).
    exists r, st'. split; [exact Hrun|].
    exact (proj2 (Hone (JNum 42) (JStr "The child waved") eq_refl eq_refl)).
Defined.

(** ** The base character step of [main3.py] *)

(** X14: whenever [main3.py]'s base-character step returns, the detailed
    description is present and non-empty exactly when the base image payload
    is: a base image always comes with a description for the scene prompts
    (the model's, or one of the two fallback strings), and no description is
    invented without a base image.  The step draws nothing, issues one
    request or two, and the only exception it can let out is the failure to
    open the base image. *)
Theorem character_base_invariant (w : world) (name cd : string)
    (pd : option string) (st : state) :
  (forall b d st',
      Main3.character_base w name cd pd st = (Ok (b, d), st') ->
      truthy_opt d = truthy_opt b
      /\ pages st' = pages st /\ cur st' = cur st
      /\ calls st' = (if truthy_opt b then S (S (calls st)) else S (calls st)))
  /\ (forall e st',
        Main3.character_base w name cd pd st = (Raise e, st') ->
        e = ImageError /\ pages st' = pages st /\ cur st' = cur st
        /\ calls st' = S (calls st)).
Proof.
  destruct st as [ps cu tr n].
  destruct (Main3_character_base_ok w name cd pd ps cu tr n) as [tr' Hrun].
  rewrite Hrun. clear Hrun. unfold Book3.anchor.
  destruct (images_generate w n _) as [b64|]; cbn [fst snd].
  - destruct (truthy b64) eqn:Hb.
    + destruct (image_open w b64) as [img|]; cbn [fst snd].
      * destruct (chat_describe w (S n) b64) as [d0|]; cbv zeta; cbn [fst snd].
        -- split; [|intros e st' H; discriminate H].
           intros b d st' H. injection H as <- <- <-. proj.
           cbn [truthy_opt]. rewrite Hb.
           repeat split.
           destruct (truthy (Main3.add_reference_photo d0 pd)) eqn:Hd;
             [exact Hd | reflexivity].
        -- split; [|intros e st' H; discriminate H].
           intros b d st' H. injection H as <- <- <-. proj.
           cbn [truthy_opt]. rewrite Hb. repeat split.
      * split; [intros b d st' H; discriminate H|].
        intros e st' H. injection H as <- <-. now repeat split.
    + split; [|intros e st' H; discriminate H].
      intros b d st' H. injection H as <- <- <-. proj.
      cbn [truthy_opt]. rewrite Hb. now repeat split.
  - split; [|intros e st' H; discriminate H].
    intros b d st' H. injection H as <- <- <-. now repeat split.
Qed.

Lemma character_base_invariant_witness :
  exists b d st',
    Main3.character_base (studio None) "Aanya" "a child" None initial = (Ok (b, d), st')
    /\ truthy_opt d = truthy_opt b
    /\ pages st' = pages initial /\ cur st' = cur initial
    /\ calls st' = (if truthy_opt b then S (S (calls initial)) else S (calls initial)).
Proof.
  destruct (Main3.character_base (studio None) "Aanya" "a child" None initial)
    as [[[b d]|e] st'] eqn:Hrun.
  - exists b, d, st'. split; [reflexivity|].
    exact (proj1 (character_base_invariant (studio None) "Aanya" "a child" None initial)
             b d st' Hrun).
  - vm_compute in Hrun. discriminate Hrun.
Defined.

(** ** The colours of the pages *)

Lemma PASTEL_COLORS_NoDup : NoDup PASTEL_COLORS.
Proof.
  unfold PASTEL_COLORS.
  repeat (constructor; [rewrite list_elem_of_In; simpl; intuition discriminate|]).
  constructor.
Qed.

(** X15: whatever the random draws, animal page [i] of [main2.py] and
    [main3.py] is filled with one of the eight pastel colours; the colours
    repeat with period eight, and within a period no two pages share one:
    the shuffle only rearranges the palette. *)
Theorem page_colors_cycle (w : world) (i : nat) :
  let page_colors := shuffle (randbelow w) PASTEL_COLORS in
  Permutation PASTEL_COLORS page_colors
  /\ exists c,
       color_at page_colors i = Ok c
       /\ In c PASTEL_COLORS
       /\ color_at page_colors (i + 8) = Ok c
       /\ forall j, color_at page_colors j = Ok c -> (j mod 8 = i mod 8)%nat.
Proof.
  intros page_colors; subst page_colors.
  pose proof (shuffle_perm (randbelow w) PASTEL_COLORS) as Hperm.
  split; [exact Hperm|].
  change (shuffle (randbelow w) PASTEL_COLORS) with (palette w) in *.
  exists (page_color w i). split; [apply color_at_palette|].
  pose proof (palette_lookup w) as Hlook. rewrite palette_length in Hlook.
  split.
  - apply (Permutation_in _ (Permutation_sym Hperm)).
    apply list_elem_of_In. eapply list_elem_of_lookup_2. apply (Hlook i).
  - split.
    + rewrite color_at_palette. f_equal.
      pose proof (Hlook (i + 8)%nat) as H8. pose proof (Hlook i) as Hi.
      replace ((i + 8) mod 8)%nat with (i mod 8)%nat in H8.
      * rewrite Hi in H8. now injection H8.
      * symmetry. apply (Nat.Div0.mod_add i 1 8).
    + intros j Hj. rewrite color_at_palette in Hj. injection Hj as Hj.
      assert (Hnd : NoDup (palette w)).
      { unfold palette. rewrite <- (shuffle_perm (randbelow w) PASTEL_COLORS).
        apply PASTEL_COLORS_NoDup. }
      pose proof (Hlook j) as H1. rewrite Hj in H1.
      exact (NoDup_lookup _ _ _ _ Hnd H1 (Hlook i)).
Qed.

Lemma page_colors_cycle_witness :
  exists c,
    color_at (shuffle (randbelow offline) PASTEL_COLORS) 9 = Ok c
    /\ In c PASTEL_COLORS
    /\ color_at (shuffle (randbelow offline) PASTEL_COLORS) (9 + 8) = Ok c
    /\ forall j, color_at (shuffle (randbelow offline) PASTEL_COLORS) j = Ok c ->
                 (j mod 8 = 9 mod 8)%nat.
Proof. exact (proj2 (page_colors_cycle offline 9)). Defined.

(** ** [main2.py] and [main3.py]: which inputs give a document *)

(** X16: given a list of records, [create_stylish_storybook] of [main2.py]
    returns a document exactly when the gender is a key of the pronoun table
    and every record is an object with a text 'animal' (the header calls
    [title] on it), a 'description' of any kind and an 'interaction'
    reportlab can draw; that of [main3.py] needs in addition that the
    base-character step does not raise.  In both the document has one page
    per record plus three. *)
Theorem stylish_returns_document_iff (w : world) (name gender : string)
    (items : list json) (pd : option string) (user_image : option user_photo)
    (st : state) :
  ((exists doc st',
       Main2.create_stylish_storybook w name gender (JArr items) pd user_image st
       = (Ok doc, st'))
   <-> (exists p, Main2.pronouns !! gender = Some p)
       /\ Forall (fun v => laid_out_stylish w v = true) items)
  /\ ((exists doc st',
          Main3.create_stylish_storybook w name gender (JArr items) pd user_image st
          = (Ok doc, st'))
      <-> (exists p, Main3.pronouns !! gender = Some p)
          /\ (exists b d n1,
                 Book3.anchor w name (child_description_of name gender) pd (calls st)
                 = (Ok (b, d), n1))
          /\ Forall (fun v => laid_out_stylish w v = true) items)
  /\ (forall doc st',
        Main2.create_stylish_storybook w name gender (JArr items) pd user_image st
        = (Ok doc, st')
        \/ Main3.create_stylish_storybook w name gender (JArr items) pd user_image st
           = (Ok doc, st') ->
        length doc = (length items + 3)%nat).
Proof.
  split; [|split].
  - split.
    + intros (doc & st' & H).
      destruct (Main2_returns_laid_out _ _ _ _ _ _ _ _ _ H) as (p & Hp & Hwf).
      split; [now exists p | exact Hwf].
    + intros [[p Hp] Hwf].
      destruct (Main2_create_stylish_storybook_run w name gender p items pd user_image
                  st Hp Hwf) as [tr Hrun].
      eexists _, _. exact Hrun.
  - split.
    + intros (doc & st' & H).
      destruct (Main3_returns_laid_out _ _ _ _ _ _ _ _ _ H)
        as (p & b & d & n1 & Hp & Hanchor & Hwf).
      split; [now exists p|]. split; [now exists b, d, n1 | exact Hwf].
    + intros ([p Hp] & (b & d & n1 & Hanchor) & Hwf).
      destruct (Main3_create_stylish_storybook_run w name gender p items pd user_image
                  st b d n1 Hp Hwf Hanchor) as [tr Hrun].
      eexists _, _. exact Hrun.
  - intros doc st' [H|H].
    + destruct (Main2_returns_laid_out _ _ _ _ _ _ _ _ _ H) as (p & Hp & Hwf).
      destruct (Main2_create_stylish_storybook_run w name gender p items pd user_image
                  st Hp Hwf) as [tr Hrun].
      rewrite Hrun in H. injection H as <- _.
      rewrite body_length. now rewrite Book2_animal_pages_length.
    + destruct (Main3_returns_laid_out _ _ _ _ _ _ _ _ _ H)
        as (p & b & d & n1 & Hp & Hanchor & Hwf).
      destruct (Main3_create_stylish_storybook_run w name gender p items pd user_image
                  st b d n1 Hp Hwf Hanchor) as [tr Hrun].
      rewrite Hrun in H. injection H as <- _.
      rewrite body_length. now rewrite Book3_animal_pages_length.
Qed.

Lemma stylish_returns_document_iff_witness :
  exists doc st',
    Main3.create_stylish_storybook (studio None) "Aanya" "they/them"
      (JArr [lion; undescribed]) None None initial = (Ok doc, st')
    /\ length doc = (length [lion; undescribed] + 3)%nat.
Proof.
  destruct (proj2 (proj1 (proj2 (stylish_returns_document_iff (studio None) "Aanya"
                                   "they/them" [lion; undescribed] None None initial))))
    as (doc & st' & Hrun).
  - split; [eexists; vm_compute; reflexivity|].
    split; [eexists _, _, _; vm_compute; reflexivity | repeat constructor].
  - exists doc, st'. split; [exact Hrun|].
    apply (proj2 (proj2 (stylish_returns_document_iff (studio None) "Aanya"
                           "they/them" [lion; undescribed] None None initial)) doc st').
    right. exact Hrun.
Defined.

(** A description that is null is printed as 'None'; an animal that is a
    number stops [main2.py] at the header, before any request. *)
Example stylish_values_that_are_not_text :
  (exists doc,
      fst (Main2.create_stylish_storybook offline "Aanya" "she/her" (JArr [undescribed])
             None None initial) = Ok doc
      /\ length doc = 4%nat
      /\ option_map (fun pg => texts pg) (doc !! 2%nat) =
           Some [ "The Lion"; "They sent Aanya a lion..."; "But it was None!";
                  "The child waved"; "[Illustration not available]"; "1" ])
  /\ fst (Main2.create_stylish_storybook offline "Aanya" "she/her" (JArr [numbered])
            None None initial) = Raise AttributeError
  /\ calls (snd (Main2.create_stylish_storybook offline "Aanya" "she/her"
                   (JArr [numbered]) None None initial)) = 0%nat.
Proof.
  split; [eexists; split; [vm_compute; reflexivity|]; split; vm_compute; reflexivity|].
  split; vm_compute; reflexivity.
Qed.

(** ** A run of [main3.py] that succeeds *)

Lemma main3_process_photo_described (w : world) (p : upload) (u : user_photo)
    (d : string) (st : state) :
  photo_open p = Some u ->
  chat_photo w (calls st) (photo_bytes p) = Some d ->
  main3_process_photo w (Some p) st =
    (Ok (Some d, Some u),
     {| pages := pages st; cur := cur st;
        trace := trace st ++ [ StImage "Your Photo";
                               StWrite "Analyzing photo for Ghibli-style adaptation...";
                               Post chat_url (photo_bytes p);
                               StWrite "Photo analysis complete!" ];
        calls := S (calls st) |}).
Proof.
  intros Hopen Hchat. unfold main3_process_photo, open_upload. rewrite Hopen.
  do 3 step.
  assert (Hreq : request chat_url (photo_bytes p) (chat_photo w)
                   {| pages := pages st; cur := cur st;
                      trace := (trace st ++ [StImage "Your Photo"])
                               ++ [StWrite "Analyzing photo for Ghibli-style adaptation..."];
                      calls := calls st |}
                 = (Ok d, {| pages := pages st; cur := cur st;
                             trace := ((trace st ++ [StImage "Your Photo"])
                                       ++ [StWrite "Analyzing photo for Ghibli-style adaptation..."])
                                      ++ [Post chat_url (photo_bytes p)];
                             calls := S (calls st) |})).
  { unfold request. proj. now rewrite Hchat. }
  rewrite (bind_ok _ _ _ _ _ Hreq). step. unfold ret.
  now rewrite <- !app_assoc.
Qed.

(** X17: a complete run of [main3.py].  With the same premises as for
    [main.py], a gender of the pronoun table and a base-character step that
    ends with base image [b] and description [d], the handler returns the
    [N + 3] page storybook of [main3.py] and offers it as
    '<name>_Ghibli_Storybook.pdf'.  The name is used as typed: a blank name
    is not replaced, unlike in [main.py] and [main2.py]. *)
Theorem main3_py_complete_run (w : world) (inp : inputs) (pdf : pdf_file)
    (st st1 : state) (text content : string) (fields : list (string * json))
    (items : list json) (p : Main2.pronoun_entry) :
  original_pdf inp = Some pdf ->
  truthy_opt (OPENAI_API_KEY w) = true ->
  extract_text_from_pdf pdf st = (Ok (Some text), st1) ->
  truthy text = true ->
  chat_story w (calls st1) text = Some content ->
  truthy content = true ->
  json_loads w content = Some (JObj fields) ->
  select_story_data fields = Ok (JArr items) ->
  Forall (fun v => well_formed v = true) items ->
  Main3.pronouns !! gender inp = Some p ->
  let cd := child_description_of (name inp) (gender inp) in
  (forall b d n1,
      photo inp = None ->
      Book3.anchor w (name inp) cd None (S (calls st1)) = (Ok (b, d), n1) ->
      exists doc st2,
        main3_py w inp st = (Ok (Some doc), st2)
        /\ doc = Book3.cover (name inp) None :: Book3.intro w (name inp) p
                 :: Book3.animal_pages w (name inp) cd None d 0 n1 items
                 ++ [Book3.final (name inp) p]
        /\ length doc = (length items + 3)%nat
        /\ calls st2 = (n1 + length items)%nat
        /\ last (trace st2) =
             Some (StDownload (name inp +:+ "_Ghibli_Storybook.pdf") doc))
  /\ (forall u up pd b d n1,
        photo inp = Some up ->
        photo_open up = Some u ->
        chat_photo w (S (calls st1)) (photo_bytes up) = Some pd ->
        Book3.anchor w (name inp) cd (Some pd) (S (S (calls st1))) = (Ok (b, d), n1) ->
        exists doc st2,
          main3_py w inp st = (Ok (Some doc), st2)
          /\ doc = Book3.cover (name inp) (Some u) :: Book3.intro w (name inp) p
                   :: Book3.animal_pages w (name inp) cd (Some pd) d 0 n1 items
                   ++ [Book3.final (name inp) p]
          /\ length doc = (length items + 3)%nat
          /\ calls st2 = (n1 + length items)%nat
          /\ last (trace st2) =
               Some (StDownload (name inp +:+ "_Ghibli_Storybook.pdf") doc)).
Proof.
  intros Hpdf Hkey Hext Htext Hchat Hcontent Hloads Hsel Hwf Hp cd.
  assert (Hfinish : forall pd user_image b d n1 (s0 : state),
    Book3.anchor w (name inp) cd pd (calls s0) = (Ok (b, d), n1) ->
    exists doc st2,
      (pdf_buffer <- Main3.create_stylish_storybook w (name inp) (gender inp)
                       (JArr items) pd user_image ;;
       emit (StSuccess "🎉 Your magical Ghibli storybook is ready!") ;;
       emit (StDownload (name inp +:+ "_Ghibli_Storybook.pdf") pdf_buffer) ;;
       ret pdf_buffer) s0 = (Ok doc, st2)
      /\ doc = Book3.cover (name inp) user_image :: Book3.intro w (name inp) p
               :: Book3.animal_pages w (name inp) cd pd d 0 n1 items
               ++ [Book3.final (name inp) p]
      /\ length doc = (length items + 3)%nat
      /\ calls st2 = (n1 + length items)%nat
      /\ last (trace st2) =
           Some (StDownload (name inp +:+ "_Ghibli_Storybook.pdf") doc)).
  { intros pd user_image b d n1 s0 Hanchor.
    destruct (Main3_create_stylish_storybook_ok w (name inp) (gender inp) p items pd
                user_image s0 b d n1 Hp Hwf Hanchor) as [tr Hbook].
    rewrite (bind_ok _ _ _ _ _ Hbook). do 2 step. unfold ret.
    eexists _, _. split; [reflexivity|]. proj.
    split; [reflexivity|].
    split; [rewrite body_length; now rewrite Book3_animal_pages_length|].
    split; [reflexivity | apply last_snoc]. }
  assert (Hhandler : forall doc st2,
    main3_pipeline w inp pdf st = (Ok doc, st2) ->
    main3_py w inp st = (Ok (Some doc), st2)).
  { intros doc st2 Hrun. unfold main3_py. rewrite Hpdf, Hkey.
    unfold try_except. now rewrite (bind_ok _ _ _ _ _ Hrun). }
  split.
  - intros b d n1 Hphoto Hanchor.
    destruct (Hfinish None None b d n1
                {| pages := pages st1; cur := cur st1;
                   trace := ((trace st1 ++ [ StWrite "Analyzing story structure...";
                                             Post chat_url text;
                                             StWriteKeys "API response structure:"
                                               (map fst fields) ])
                             ++ [StWrite ("Found " +:+ str_nat (length items)
                                          +:+ " animal interactions")])
                            ++ [StWrite "Generating Ghibli-style illustrations and creating storybook..."];
                   calls := S (calls st1) |} Hanchor)
      as (doc & st2 & Hrun & Hdoc & Hlen & Hcalls & Hlast).
    exists doc, st2. split; [|now repeat split].
    apply Hhandler. unfold main3_pipeline.
    rewrite (bind_ok _ _ _ _ _
               (read_and_analyze_ok w pdf st st1 text content fields
                  Hext Htext Hchat Hcontent Hloads)).
    rewrite Hsel. step. cbn [py_len]. do 2 step.
    rewrite Hphoto. cbn [main3_process_photo]. do 2 step. cbn [fst snd].
    exact Hrun.
  - intros u up pd b d n1 Hphoto Hopen Hdesc Hanchor.
    destruct (Hfinish (Some pd) (Some u) b d n1
                {| pages := pages st1; cur := cur st1;
                   trace := (((trace st1 ++ [ StWrite "Analyzing story structure...";
                                              Post chat_url text;
                                              StWriteKeys "API response structure:"
                                                (map fst fields) ])
                              ++ [StWrite ("Found " +:+ str_nat (length items)
                                           +:+ " animal interactions")])
                             ++ [ StImage "Your Photo";
                                  StWrite "Analyzing photo for Ghibli-style adaptation...";
                                  Post chat_url (photo_bytes up);
                                  StWrite "Photo analysis complete!" ])
                            ++ [StWrite "Generating Ghibli-style illustrations and creating storybook..."];
                   calls := S (S (calls st1)) |} Hanchor)
      as (doc & st2 & Hrun & Hdoc & Hlen & Hcalls & Hlast).
    exists doc, st2. split; [|now repeat split].
    apply Hhandler. unfold main3_pipeline.
    rewrite (bind_ok _ _ _ _ _
               (read_and_analyze_ok w pdf st st1 text content fields
                  Hext Htext Hchat Hcontent Hloads)).
    rewrite Hsel. step. cbn [py_len]. do 2 step.
    rewrite Hphoto.
    match goal with
    | |- context [bind (main3_process_photo w (Some up)) _ ?s] =>
        rewrite (bind_ok _ _ _ _ _
                   (main3_process_photo_described w up u pd s Hopen Hdesc))
    end.
    proj. step. cbn [fst snd].
    exact Hrun.
Qed.

Lemma main3_py_complete_run_witness :
  exists doc st2,
    main3_py (online (JObj [("interactions", JArr five_records)])) (a_request None)
      initial = (Ok (Some doc), st2)
    /\ length doc = (length five_records + 3)%nat
    /\ last (trace st2) = Some (StDownload "Aanya_Ghibli_Storybook.pdf" doc).
Proof.
  assert (Hp : Main3.pronouns !! "she/her" = Some (Main2.Pronouns "she" "her" "her"))
    by (vm_compute; reflexivity).
  destruct (Book3.anchor (online (JObj [("interactions", JArr five_records)])) "Aanya"
              (child_description_of "Aanya" "she/her") None 1)
    as [[[b d]|e] n1] eqn:Hanchor.
  - destruct (proj1 (main3_py_complete_run
                       (online (JObj [("interactions", JArr five_records)]))
                       (a_request None) one_page_pdf initial initial
                       ("Aanya wrote to the zoo." +:+ newline) "{...}"
                       [("interactions", JArr five_records)] five_records
                       (Main2.Pronouns "she" "her" "her")
                       eq_refl eq_refl eq_refl eq_refl eq_refl eq_refl eq_refl eq_refl
                       ltac:(repeat constructor) Hp)
                b d n1 eq_refl Hanchor)
      as (doc & st2 & Hrun & _ & Hlen & _ & Hlast).
    exists doc, st2. split; [exact Hrun|]. split; [exact Hlen | exact Hlast].
  - vm_compute in Hanchor. discriminate Hanchor.
Defined.
